(** * StuddyBuddy: the 7-day plan generator ([lib/generatePlan.ts])

    A shallow embedding of [generatePlanForUser] and of the helpers it
    calls, followed by the properties of the plan it produces.

    Conventions of the embedding.
    - A JavaScript [Date] is its time value: milliseconds counted from the
      local midnight of day 0 (1970-01-01, a Thursday), in a zone without
      daylight-saving shifts.
    - A [YYYY-MM-DD] string is the number of its calendar day.  The source
      compares these strings with [<=] and [>=]; for four-digit years that
      order is the order of the days, which is what [Z.leb] gives here.
    - Minutes, capacities and counters are the integers [Math.round]
      returns; hours are exact rationals, and a product or quotient of
      hours is the exact one.
    - The Supabase tables are lists of rows ([plan_meta], keyed by its
      user, is a finite map).  Every call to the store succeeds: the
      [throw] that follows a failed call is not part of the model.
    - The wall clock is read twice, once for [today] and once for the
      [updated_at] stamp; both readings are arguments. *)

From Stdlib Require Import ZArith QArith Qround Lia Ascii.
From stdpp Require Import gmap strings list pretty sorting.

Local Open Scope string_scope.
Local Open Scope list_scope.
Local Open Scope Z_scope.

(** Closed decidable goals are settled by evaluation. *)
Ltac by_compute := apply (bool_decide_unpack _); vm_compute; exact I.

(** ** Numbers *)

(** [Math.round]: the nearest integer, halves towards plus infinity. *)
Definition Math_round (x : Q) : Z := Qfloor (x + (1 # 2))%Q.

Definition clamp (n lo hi : Z) : Z := Z.max lo (Z.min hi n).

(** Template-literal interpolation of an integer. *)
Definition showZ (n : Z) : string := pretty n.

(** ** Dates *)

Definition MS_PER_DAY : Z := 86400000.

Definition startOfDay (d : Z) : Z := d / MS_PER_DAY * MS_PER_DAY.

Definition addDays (base days : Z) : Z := base + days * MS_PER_DAY.

Definition toYYYYMMDD (d : Z) : Z := d / MS_PER_DAY.

Definition parseYYYYMMDD (s : Z) : Z := s * MS_PER_DAY.

(** [Date.prototype.getDay]: 0 is Sunday; day 0 is a Thursday. *)
Definition getDay (d : Z) : Z := (d / MS_PER_DAY + 4) mod 7.

(** ** Rows of the store *)

Record AvailabilityRow := {
  av_user_id : string;
  av_weekday : Z;
  av_hours_available : Q
}.

Record AssessmentRow := {
  as_user_id : string;
  as_id : string;
  as_title : string;
  as_course_id : option string;
  as_due_date : Z;
  as_estimated_hours : Q;
  as_status : string
}.

Record CourseRow := {
  co_user_id : string;
  co_id : string;
  co_title : string;
  co_difficulty : Z
}.

Record PlanItem := {
  user_id : string;
  plan_date : Z;
  title : string;
  minutes : Z;
  assessment_id : string;
  done : bool
}.

Record PlanMeta := {
  shortfall_minutes : Z;
  updated_at : Z
}.

Record Store := {
  availability : list AvailabilityRow;
  assessments : list AssessmentRow;
  courses : list CourseRow;
  plan_items : list PlanItem;
  plan_meta : gmap string PlanMeta
}.

Record GeneratePlanResult := {
  planRowsCount : Z;
  shortfallMinutes : Z;
  message : option string;
  warning : option string
}.

(** ** Helpers of the generator *)

Definition minutesToShortfall (mins : Z) : string :=
  let h := mins / 60 in
  let m := Z.rem mins 60 in
  if h <=? 0 then showZ m +:+ " minutes"
  else if m =? 0 then showZ h +:+ " hours"
  else showZ h +:+ "h " +:+ showZ m +:+ "m".

(** A string is truthy when it is not empty. *)
Definition truthy (s : string) : bool :=
  match s with EmptyString => false | _ => true end.

(** The objects of [scored]: the assessment row spread out, and the four
    computed fields.  [remainingMinutes] is the one field assigned later. *)
Record Scored := {
  sc_a : AssessmentRow;
  difficulty : Z;
  daysLeft : Z;
  score : Q;
  remainingMinutes : Z
}.

Definition setRemaining (a : Scored) (r : Z) : Scored :=
  {| sc_a := sc_a a; difficulty := difficulty a; daysLeft := daysLeft a;
     score := score a; remainingMinutes := r |}.

Definition CHUNK_MINUTES : Z := 30.
Definition MAX_CHUNK_MINUTES : Z := 60.

(** ** Availability and capacity *)

Definition weekdays : list Z := [0; 1; 2; 3; 4; 5; 6].

Definition hoursByWeekday (availRows : list AvailabilityRow) : gmap Z Q :=
  foldl (fun m r => <[av_weekday r := av_hours_available r]> m)
        (foldl (fun m wd => <[wd := 2%Q]> m) ∅ weekdays)
        availRows.

Definition capacityOf (hbw : gmap Z Q) (d : Z) : Z :=
  let wd := getDay d in
  let hours := default 2%Q (hbw !! wd) in
  Math_round (hours * 60)%Q.

(** ** Scoring *)

Definition difficultyByCourseId (courseRows : list CourseRow) : gmap string Z :=
  foldl (fun m c => <[co_id c := co_difficulty c]> m) ∅ courseRows.

Definition courseTitleById (courseRows : list CourseRow) : gmap string string :=
  foldl (fun m c => <[co_id c := co_title c]> m) ∅ courseRows.

Definition mkScored (today : Z) (dbc : gmap string Z) (a : AssessmentRow) : Scored :=
  let due := startOfDay (parseYYYYMMDD (as_due_date a)) in
  let daysLeft :=
    Z.max 0 (Math_round (inject_Z (due - today) / inject_Z MS_PER_DAY)%Q) in
  let difficulty :=
    match as_course_id a with
    | Some c => if truthy c then default 3 (dbc !! c) else 3
    | None => 3
    end in
  let score := (inject_Z (difficulty + 1) / inject_Z (daysLeft + 1))%Q in
  let remainingMinutes :=
    Z.max 0 (Math_round (as_estimated_hours a * 60)%Q) in
  {| sc_a := a; difficulty := difficulty; daysLeft := daysLeft;
     score := score; remainingMinutes := remainingMinutes |}.

(** ** The allocation loops *)

(** What the three nested loops assign to: the [scored] objects (shared
    with [candidates], hence addressed by position), the rows pushed so
    far, and the capacity left on the current day. *)
Record LoopState := {
  scored : list Scored;
  planRows : list PlanItem;
  remainingCapacity : Z
}.

Section Allocation.

Variable userId : string.
Variable titles : gmap string string.

Definition courseNameOf (a : Scored) : option string :=
  match as_course_id (sc_a a) with
  | Some c => if truthy c then titles !! c else None
  | None => None
  end.

Definition blockTitle (a : Scored) : string :=
  match courseNameOf a with
  | Some courseName =>
      if truthy courseName
      then courseName +:+ " â€” " +:+ as_title (sc_a a)
      else as_title (sc_a a)
  | None => as_title (sc_a a)
  end.

Definition mkRow (currentDate : Z) (a : Scored) (mins : Z) : PlanItem :=
  {| user_id := userId; plan_date := currentDate; title := blockTitle a;
     minutes := mins; assessment_id := as_id (sc_a a); done := false |}.

(** One turn of the [while] loop for the candidate at position [i];
    [None] when the loop is left (by its condition or by [break]). *)
Definition whileBody (currentDate : Z) (i : nat) (st : LoopState)
  : option LoopState :=
  match scored st !! i with
  | None => None
  | Some a =>
      if (0 <? remainingMinutes a) && (0 <? remainingCapacity st) then
        let chunk := clamp CHUNK_MINUTES 15 MAX_CHUNK_MINUTES in
        let mins :=
          Z.min (Z.min chunk (remainingMinutes a)) (remainingCapacity st) in
        if mins <=? 0 then None
        else Some {|
          scored := <[i := setRemaining a (remainingMinutes a - mins)]> (scored st);
          planRows := planRows st ++ [mkRow currentDate a mins];
          remainingCapacity := remainingCapacity st - mins |}
      else None
  end.

Fixpoint whileLoop (fuel : nat) (currentDate : Z) (i : nat) (st : LoopState)
  : LoopState :=
  match fuel with
  | O => st
  | S fuel' =>
      match whileBody currentDate i st with
      | None => st
      | Some st' => whileLoop fuel' currentDate i st'
      end
  end.

(** Every turn takes at least one minute off the candidate, so its
    remaining minutes bound the number of turns. *)
Definition fuelFor (i : nat) (st : LoopState) : nat :=
  match scored st !! i with
  | Some a => Z.to_nat (remainingMinutes a)
  | None => O
  end.

Fixpoint forCandidates (currentDate : Z) (candidates : list nat)
    (st : LoopState) : LoopState :=
  match candidates with
  | [] => st
  | i :: rest =>
      if remainingCapacity st <=? 0 then st
      else forCandidates currentDate rest
             (whileLoop (fuelFor i st) currentDate i st)
  end.

(** [filter] keeps the positions of the objects that pass the test. *)
Definition isCandidate (currentDate : Z) (a : Scored) : bool :=
  (0 <? remainingMinutes a) && (currentDate <=? as_due_date (sc_a a)).

Fixpoint filterPositions (currentDate : Z) (sc : list Scored) (i : nat)
  : list nat :=
  match sc with
  | [] => []
  | a :: rest =>
      if isCandidate currentDate a
      then i :: filterPositions currentDate rest (S i)
      else filterPositions currentDate rest (S i)
  end.

Definition scoreAt (sc : list Scored) (i : nat) : Q :=
  match sc !! i with Some a => score a | None => 0%Q end.

(** [sort((a, b) => b.score - a.score)] is stable: an object goes in
    front of the first one whose score is not larger than its own. *)
Fixpoint insertByScore (sc : list Scored) (x : nat) (l : list nat)
  : list nat :=
  match l with
  | [] => [x]
  | y :: ys =>
      if Qle_bool (scoreAt sc y) (scoreAt sc x) then x :: y :: ys
      else y :: insertByScore sc x ys
  end.

Definition sortByScore (sc : list Scored) (l : list nat) : list nat :=
  foldr (insertByScore sc) [] l.

Definition candidatesOf (currentDate : Z) (sc : list Scored) : list nat :=
  sortByScore sc (filterPositions currentDate sc 0).

Variable dayDates : list Z.
Variable capacityByDayMinutes : list Z.

(** The body of [for (let dayIndex = 0; dayIndex < 7; dayIndex++)]. *)
Definition dayBody (st : LoopState) (dayIndex : nat) : LoopState :=
  match capacityByDayMinutes !! dayIndex, dayDates !! dayIndex with
  | Some cap, Some currentDate =>
      if cap <=? 0 then st
      else
        forCandidates currentDate (candidatesOf currentDate (scored st))
          {| scored := scored st; planRows := planRows st;
             remainingCapacity := cap |}
  | _, _ => st
  end.

(** The state when the first [n] days are done. *)
Definition daysLoop (n : nat) (sc : list Scored) : LoopState :=
  foldl dayBody
    {| scored := sc; planRows := []; remainingCapacity := 0 |}
    (seq 0 n).


End Allocation.

(** ** The store *)

Definition inWindow (userId : string) (dayDates : list Z) (r : PlanItem) : bool :=
  bool_decide (user_id r = userId) && bool_decide (plan_date r ∈ dayDates).

Definition deletePlanItems (userId : string) (dayDates : list Z) (s : Store)
  : Store :=
  {| availability := availability s; assessments := assessments s;
     courses := courses s;
     plan_items := filter (fun r => inWindow userId dayDates r = false) (plan_items s);
     plan_meta := plan_meta s |}.

Definition insertPlanItems (rows : list PlanItem) (s : Store) : Store :=
  {| availability := availability s; assessments := assessments s;
     courses := courses s;
     plan_items := plan_items s ++ rows;
     plan_meta := plan_meta s |}.

Definition upsertPlanMeta (userId : string) (shortfall stamp : Z) (s : Store)
  : Store :=
  {| availability := availability s; assessments := assessments s;
     courses := courses s;
     plan_items := plan_items s;
     plan_meta := <[userId := {| shortfall_minutes := shortfall;
                                 updated_at := stamp |}]> (plan_meta s) |}.

(** ** [generatePlanForUser] *)

Definition sumZ (l : list Z) : Z := foldl Z.add 0 l.

Section Generate.

Variable userId : string.
(** The two readings of the clock. *)
Variable now : Z.
Variable stamp : Z.

Definition today : Z := startOfDay now.
Definition days : list Z := map (fun i => addDays today (Z.of_nat i)) (seq 0 7).
Definition dayDates : list Z := map toYYYYMMDD days.

Definition availRowsOf (s : Store) : list AvailabilityRow :=
  filter (fun r => av_user_id r = userId) (availability s).

Definition capacityByDayMinutes (s : Store) : list Z :=
  map (capacityOf (hoursByWeekday (availRowsOf s))) days.

Definition totalCapacity (s : Store) : Z := sumZ (capacityByDayMinutes s).

Definition assessmentRowsOf (s : Store) : list AssessmentRow :=
  filter (fun a => as_user_id a = userId ∧ as_status a ≠ "done")
         (assessments s).

Definition dueInWindow (a : AssessmentRow) : bool :=
  (default 0 (dayDates !! 0%nat) <=? as_due_date a)
  && (as_due_date a <=? default 0 (last dayDates)).

Definition assessmentsOf (s : Store) : list AssessmentRow :=
  filter (fun a => dueInWindow a = true) (assessmentRowsOf s).

Definition courseRowsOf (s : Store) : list CourseRow :=
  filter (fun c => co_user_id c = userId) (courses s).

Definition scoredOf (s : Store) : list Scored :=
  map (mkScored today (difficultyByCourseId (courseRowsOf s)))
      (assessmentsOf s).

(** The state of the loops when the first [n] days are done, and when
    the last day is done. *)
Definition planAfterDays (n : nat) (s : Store) : LoopState :=
  daysLoop userId (courseTitleById (courseRowsOf s))
           dayDates (capacityByDayMinutes s) n (scoredOf s).

Definition planOf (s : Store) : LoopState := planAfterDays 7 s.

Definition remainingWork (st : LoopState) : Z :=
  sumZ (map remainingMinutes (scored st)).

Definition shortfallOf (st : LoopState) : Z :=
  if 0 <? remainingWork st then remainingWork st else 0.

Definition generatePlanForUser (s : Store) : Store * GeneratePlanResult :=
  match assessmentsOf s with
  | [] =>
      (upsertPlanMeta userId 0 stamp s,
       {| planRowsCount := 0; shortfallMinutes := 0;
          message := Some "No assessments due in the next 7 days.";
          warning := None |})
  | _ :: _ =>
      let s1 := deletePlanItems userId dayDates s in
      let st := planOf s in
      let shortfall := shortfallOf st in
      match planRows st with
      | [] =>
          (upsertPlanMeta userId shortfall stamp s1,
           {| planRowsCount := 0; shortfallMinutes := shortfall;
              message :=
                Some "No time available in the next 7 days to schedule tasks.";
              warning :=
                Some ("Overload shortfall: "
                      +:+ minutesToShortfall
                            (if shortfall =? 0 then 0 else shortfall)
                      +:+ ".") |})
      | _ :: _ =>
          let n := Z.of_nat (length (planRows st)) in
          let s2 := insertPlanItems (planRows st) s1 in
          let s3 := upsertPlanMeta userId shortfall stamp s2 in
          let warning :=
            if 0 <? shortfall then
              Some ("Overload: you're short by "
                    +:+ minutesToShortfall shortfall
                    +:+ " within the next 7 days. "
                    +:+ "Increase availability or reduce estimated hours.")
            else if (0 <? n) && (totalCapacity s =? 0) then
              Some "Overload: availability is 0 for all 7 days."
            else None in
          (s3,
           {| planRowsCount := n; shortfallMinutes := shortfall;
              message :=
                Some ("Generated " +:+ showZ n
                      +:+ " blocks across the next 7 days.");
              warning := warning |})
      end
  end.

End Generate.

(** ** Scenarios *)

Module Scenario.

Definition essay (est : Q) (due : Z) : AssessmentRow :=
  {| as_user_id := "u"; as_id := "a1"; as_title := "Essay";
     as_course_id := Some "c1"; as_due_date := due;
     as_estimated_hours := est; as_status := "todo" |}.

Definition quiz (est : Q) (due : Z) : AssessmentRow :=
  {| as_user_id := "u"; as_id := "a2"; as_title := "Quiz";
     as_course_id := Some "c2"; as_due_date := due;
     as_estimated_hours := est; as_status := "todo" |}.

Definition history : CourseRow :=
  {| co_user_id := "u"; co_id := "c1"; co_title := "History";
     co_difficulty := 5 |}.

Definition music : CourseRow :=
  {| co_user_id := "u"; co_id := "c2"; co_title := "Music";
     co_difficulty := 1 |}.

(** The same hours on every weekday. *)
Definition everyDay (h : Q) : list AvailabilityRow :=
  map (fun wd => {| av_user_id := "u"; av_weekday := wd;
                    av_hours_available := h |}) weekdays.

(** The hours of Sunday, Monday, ..., Saturday. *)
Definition week (hs : list Q) : list AvailabilityRow :=
  zip_with (fun wd h => {| av_user_id := "u"; av_weekday := wd;
                           av_hours_available := h |}) weekdays hs.

Definition store (avail : list AvailabilityRow)
    (todo : list AssessmentRow) (old : list PlanItem) : Store :=
  {| availability := avail; assessments := todo;
     courses := [history; music];
     plan_items := old; plan_meta := ∅ |}.

Definition oldBlock (d : Z) : PlanItem :=
  {| user_id := "u"; plan_date := d; title := "History â€” Notes";
     minutes := 30; assessment_id := "a0"; done := true |}.

Definition block (d m : Z) (aid ttl : string) : PlanItem :=
  {| user_id := "u"; plan_date := d; title := ttl;
     minutes := m; assessment_id := aid; done := false |}.

End Scenario.

(** ** Measures on the generated rows *)

(** Minutes of the rows that reference the assessment [aid]. *)
Definition minutesFor (aid : string) (rows : list PlanItem) : Z :=
  sumZ (map minutes (filter (fun r => assessment_id r = aid) rows)).

(** Minutes of the rows dated [d]. *)
Definition minutesOn (d : Z) (rows : list PlanItem) : Z :=
  sumZ (map minutes (filter (fun r => plan_date r = d) rows)).

(** The fields of a scored object that are never assigned. *)
Definition static (a : Scored) : Scored := setRemaining a 0.

Definition frame (sc sc' : list Scored) : Prop :=
  map static sc = map static sc'.

Definition idOf (a : Scored) : string := as_id (sc_a a).
Definition dueOf (a : Scored) : Z := as_due_date (sc_a a).

(** What one turn of the [while] loop does to the state: the candidate at
    position [i] gets a block of [m] minutes dated [d]. *)
Definition afterTurn (userId : string) (titles : gmap string string)
    (d : Z) (i : nat) (a : Scored) (m : Z) (st : LoopState) : LoopState :=
  {| scored := <[i := setRemaining a (remainingMinutes a - m)]> (scored st);
     planRows := planRows st ++ [mkRow userId titles d a m];
     remainingCapacity := remainingCapacity st - m |}.

Inductive Turn (userId : string) (titles : gmap string string)
    (d : Z) (i : nat) (st st' : LoopState) : Prop :=
| Turn_intro (a : Scored) (m : Z) :
    scored st !! i = Some a ->
    0 < m -> m <= 30 ->
    m <= remainingMinutes a -> m <= remainingCapacity st ->
    (m < 30 -> m = remainingMinutes a \/ m = remainingCapacity st) ->
    st' = afterTurn userId titles d i a m st ->
    Turn userId titles d i st st'.

(** What every generated row satisfies: it belongs to the user, is dated
    on a day of the window that has capacity, is at most one chunk long and
    references an assessment that is not yet past due on its date. *)
Definition rowOK (userId : string) (dates caps : list Z) (sc0 : list Scored)
    (r : PlanItem) : Prop :=
  user_id r = userId /\ done r = false
  /\ 0 < minutes r <= CHUNK_MINUTES
  /\ (exists j c, dates !! j = Some (plan_date r) /\ caps !! j = Some c /\ 0 < c)
  /\ (exists i a0, sc0 !! i = Some a0 /\ assessment_id r = idOf a0
                  /\ plan_date r <= dueOf a0).

(** The minutes of an assessment are either in its rows or still in its
    counter. *)
Definition conserved (sc0 sc : list Scored) (rows : list PlanItem) : Prop :=
  forall i a0 a, sc0 !! i = Some a0 -> sc !! i = Some a ->
    0 <= remainingMinutes a
    /\ minutesFor (idOf a0) rows + remainingMinutes a = remainingMinutes a0.

(** The minutes dated on each day of the window while day [k] is in
    progress ([cur] is the capacity left on it) or about to start
    ([cur = None]). *)
Definition withinCapacity (dates caps : list Z) (k : nat)
    (rows : list PlanItem) (cur : option Z) : Prop :=
  forall j d c, dates !! j = Some d -> caps !! j = Some c ->
    ((j < k)%nat -> minutesOn d rows <= Z.max 0 c)
    /\ ((k < j)%nat -> minutesOn d rows = 0)
    /\ (j = k ->
        match cur with
        | None => minutesOn d rows = 0
        | Some rc => 0 <= rc /\ minutesOn d rows + rc = c
        end).

(** The durations of the rows of assessment [aid] dated [d], in the order
    they were pushed. *)
Definition minutesOf (aid : string) (d : Z) (rows : list PlanItem) : list Z :=
  map minutes
      (filter (fun r => assessment_id r = aid /\ plan_date r = d) rows).

(** Every duration but the last is a whole chunk. *)
Fixpoint fullButLast (l : list Z) : bool :=
  match l with
  | [] => true
  | x :: rest =>
      match rest with
      | [] => true
      | _ :: _ => (x =? CHUNK_MINUTES) && fullButLast rest
      end
  end.

Definition isFragment (x : Z) : bool := negb (x mod CHUNK_MINUTES =? 0).

(** The granularity of the rows while day [k] is in progress: a candidate
    that can still take a turn has only whole chunks on that day. *)
Definition granular (dates : list Z) (k : nat) (st : LoopState) : Prop :=
  (forall aid d, fullButLast (minutesOf aid d (planRows st)) = true)
  /\ (forall j d aid, dates !! j = Some d -> (k < j)%nat ->
        minutesOf aid d (planRows st) = [])
  /\ (forall i a d, dates !! k = Some d -> scored st !! i = Some a ->
        0 < remainingMinutes a -> 0 < remainingCapacity st ->
        Forall (fun x => x = CHUNK_MINUTES) (minutesOf (idOf a) d (planRows st))).

Definition granularOut (dates : list Z) (k : nat) (rows : list PlanItem) : Prop :=
  (forall aid d, fullButLast (minutesOf aid d rows) = true)
  /\ (forall j d aid, dates !! j = Some d -> (k <= j)%nat ->
        minutesOf aid d rows = []).

(** ** The availability profile, as the specification reads it *)

(** The weekday of a calendar day. *)
Definition weekdayOf (d : Z) : Z := (d + 4) mod 7.

(** Hours available on weekday [wd]: the entry of the profile for that
    weekday (the latest one, should there be several), 2.0 when there is
    none. *)
Definition hoursAvailable (rows : list AvailabilityRow) (wd : Z) : Q :=
  match last (filter (fun r => av_weekday r = wd) rows) with
  | Some r => av_hours_available r
  | None => 2%Q
  end.

(** The row of user [u] for weekday [w] that the readers of the table end
    with: the latest one. *)
Definition entryOf (u : string) (w : Z) (table : list AvailabilityRow)
  : option AvailabilityRow :=
  last (filter (fun r => av_weekday r = w /\ av_user_id r = u) table).

(** The rows of assessment [aid] whose duration is not a multiple of the
    chunk: over the whole plan, and on the date [d]. *)
Definition fragmentsOf (aid : string) (rows : list PlanItem) : list PlanItem :=
  filter (fun r => assessment_id r = aid /\ isFragment (minutes r) = true) rows.

Definition fragmentsOn (aid : string) (d : Z) (rows : list PlanItem)
  : list PlanItem :=
  filter (fun r => assessment_id r = aid /\ plan_date r = d
                   /\ isFragment (minutes r) = true) rows.

(** The rows of the store that lie in the window of a user. *)
Definition storedInWindow (userId : string) (dates : list Z) (s : Store)
  : list PlanItem :=
  filter (fun r => inWindow userId dates r = true) (plan_items s).

(** The order the sort puts the candidates in: [x] may stand in front of
    [y] when its score is not smaller. *)
Definition byScore (sc : list Scored) (x y : nat) : Prop :=
  (scoreAt sc y <= scoreAt sc x)%Q.

(** What a walk over the candidates [l], started in [s], has done when it
    is in [s']: the rows pushed since reference candidates of [l], and no
    object outside [l] has been touched. *)
Definition served (l : list nat) (s s' : LoopState) (new : list PlanItem) : Prop :=
  planRows s' = planRows s ++ new
  /\ Forall (fun r => exists p a, p ∈ l /\ scored s !! p = Some a
                                  /\ assessment_id r = idOf a) new
  /\ frame (scored s) (scored s')
  /\ (forall p, p ∉ l -> scored s' !! p = scored s !! p)
  /\ remainingCapacity s' <= remainingCapacity s.

(** The score, as the README states it. *)
Definition scoreFormula (a : Scored) : Q :=
  (inject_Z (difficulty a + 1) / inject_Z (daysLeft a + 1))%Q.

(** ** Totals over a whole run *)

(** The counters only go down, and nothing else of the objects changes. *)
Definition shrinks (sc sc' : list Scored) : Prop :=
  frame sc sc'
  /\ forall i a a', sc !! i = Some a -> sc' !! i = Some a' ->
       remainingMinutes a' <= remainingMinutes a.

(** The minutes the eligible assessments ask for, and the minutes of a list
    of rows. *)
Definition totalWork (l : list AssessmentRow) : Z :=
  sumZ (map (fun a => Z.max 0 (Math_round (as_estimated_hours a * 60)%Q)) l).

Definition totalMinutes (rows : list PlanItem) : Z := sumZ (map minutes rows).

(** Rows and counters together hold the minutes the run started with. *)
Definition balanced (sc0 sc : list Scored) (rows : list PlanItem) : Prop :=
  Forall (fun a => 0 <= remainingMinutes a) sc
  /\ totalMinutes rows + sumZ (map remainingMinutes sc)
     = sumZ (map remainingMinutes sc0).

(** ** Titles and order, as a reader of the plan sees them *)

(** The title of the blocks of an assessment: the title of its course (the
    latest row with its course id), a dash and its own title; its own title
    alone when it has no course, an unknown one or one without a title. *)
Definition titleFor (courseRows : list CourseRow) (a : AssessmentRow) : string :=
  match as_course_id a with
  | Some c =>
      if truthy c then
        match last (filter (fun r => co_id r = c) courseRows) with
        | Some r =>
            if truthy (co_title r)
            then co_title r +:+ " â€” " +:+ as_title a
            else as_title a
        | None => as_title a
        end
      else as_title a
  | None => as_title a
  end.

(** [x] is served before [y]: its score is higher, or the scores are equal
    and it stands earlier in [scored]. *)
Definition servedBefore (sc : list Scored) (x y : nat) : Prop :=
  (scoreAt sc y < scoreAt sc x)%Q
  \/ ((scoreAt sc y == scoreAt sc x)%Q /\ (x < y)%nat).

(** * The pages around the generator

    The pure parts of the pages that show the plan ([app/plan/page.tsx],
    [app/page.tsx]), of the availability form ([app/availability/page.tsx])
    and of the timer ([components/pomodorotimer.tsx]).  A list of items on
    a page is a list of [plan_items] rows; [x.minutes || 0] is [orZero]. *)

Definition orZero (m : Z) : Z := if m =? 0 then 0 else m.

(** [formatShortfall], the same function on the plan page and on the
    dashboard. *)
Definition formatShortfall (mins : Z) : string :=
  let h := mins / 60 in
  let m := Z.rem mins 60 in
  if mins <=? 0 then "0m"
  else if h <=? 0 then showZ m +:+ "m"
  else if m =? 0 then showZ h +:+ "h"
  else showZ h +:+ "h " +:+ showZ m +:+ "m".

Definition isDigit (c : ascii) : bool :=
  match c with
  | "0" | "1" | "2" | "3" | "4" | "5" | "6" | "7" | "8" | "9" => true
  | _ => false
  end%char.

Fixpoint allDigits (s : string) : bool :=
  match s with
  | EmptyString => true
  | String c r => isDigit c && allDigits r
  end.

Module PlanPage.

Record Stats := {
  totalTasks : Z;
  doneTasks : Z;
  totalMinutes : Z;
  doneMinutes : Z;
  pct : Z
}.

Definition progressStats (dayItems : list PlanItem) : Stats :=
  let totalTasks := Z.of_nat (length dayItems) in
  let doneTasks := Z.of_nat (length (filter (fun x => done x = true) dayItems)) in
  let totalMinutes := foldl (fun sum x => sum + orZero (minutes x)) 0 dayItems in
  let doneMinutes :=
    foldl (fun sum x => sum + (if done x then orZero (minutes x) else 0))
          0 dayItems in
  let pct :=
    if totalTasks =? 0 then 0
    else Math_round (inject_Z doneTasks / inject_Z totalTasks * 100)%Q in
  {| totalTasks := totalTasks; doneTasks := doneTasks;
     totalMinutes := totalMinutes; doneMinutes := doneMinutes; pct := pct |}.

(** The rows the page loads: those of the user dated in the window. *)
Definition loadPlan (userId : string) (dayDates : list Z) (s : Store)
  : list PlanItem :=
  filter (fun r => inWindow userId dayDates r = true) (plan_items s).

(** [clearWeek]: the delete of the generator, on its own. *)
Definition clearWeek (userId : string) (dayDates : list Z) (s : Store) : Store :=
  deletePlanItems userId dayDates s.

(** An item of the page: the row and the id the store gave it. *)
Record Item := { item_id : string; item_row : PlanItem }.

Definition setDone (b : bool) (r : PlanItem) : PlanItem :=
  {| user_id := user_id r; plan_date := plan_date r; title := title r;
     minutes := minutes r; assessment_id := assessment_id r; done := b |}.

(** The optimistic update of [toggleDone]. *)
Definition toggleDone (item : Item) (prev : list Item) : list Item :=
  map (fun x =>
         if decide (item_id x = item_id item)
         then {| item_id := item_id x;
                 item_row := setDone (negb (done (item_row x))) (item_row x) |}
         else x) prev.

(** The rollback of [toggleDone] when the store refuses the update. *)
Definition rollback (item : Item) (prev : list Item) : list Item :=
  map (fun x =>
         if decide (item_id x = item_id item)
         then {| item_id := item_id x;
                 item_row := setDone (done (item_row item)) (item_row x) |}
         else x) prev.

End PlanPage.

Module Dashboard.

(** [weekTotals]: the planned minutes of each date. *)
Definition weekTotals (dayDates : list Z) (items : list PlanItem) : gmap Z Z :=
  foldl (fun totals it =>
           let prev := default 0 (totals !! plan_date it) in
           <[plan_date it := prev + orZero (minutes it)]> totals)
        (foldl (fun totals d => <[d := 0]> totals) ∅ dayDates)
        items.

End Dashboard.

Module AvailabilityPage.

(** The rows [saveAvailability] builds from the seven sliders. *)
Definition saveRows (userId : string) (hours : list Q) : list AvailabilityRow :=
  imap (fun weekday h => {| av_user_id := userId;
                            av_weekday := Z.of_nat weekday;
                            av_hours_available := h |}) hours.

Definition sameKey (r x : AvailabilityRow) : bool :=
  bool_decide (av_user_id x = av_user_id r)
  && bool_decide (av_weekday x = av_weekday r).

(** [upsert(rows, { onConflict: "user_id,weekday" })]: a row whose user and
    weekday are in the table replaces the one there, another is added. *)
Definition upsertOne (table : list AvailabilityRow) (r : AvailabilityRow)
  : list AvailabilityRow :=
  if existsb (sameKey r) table
  then map (fun x => if sameKey r x then r else x) table
  else table ++ [r].

Definition upsertAvailability (rows table : list AvailabilityRow)
  : list AvailabilityRow :=
  foldl upsertOne table rows.

Definition saveAvailability (userId : string) (hours : list Q) (s : Store)
  : Store :=
  {| availability := upsertAvailability (saveRows userId hours) (availability s);
     assessments := assessments s; courses := courses s;
     plan_items := plan_items s; plan_meta := plan_meta s |}.

(** [loadAvailability]: defaults, overwritten by the rows read. *)
Definition loadAvailability (data : list AvailabilityRow) : list Q :=
  foldl (fun next row =>
           let wd := av_weekday row in
           let ha := av_hours_available row in
           if (0 <=? wd) && (wd <=? 6) then <[Z.to_nat wd := ha]> next else next)
        [2; 2; 2; 2; 2; 2; 2]%Q data.

End AvailabilityPage.

Module Pomodoro.

Inductive Mode := focus | break.

Record State := {
  mode : Mode;
  secondsLeft : Z;
  running : bool;
  focusSessions : Z
}.

Definition FOCUS_MIN : Z := 30.
Definition BREAK_MIN : Z := 10.
Definition focusSeconds : Z := FOCUS_MIN * 60.
Definition breakSeconds : Z := BREAK_MIN * 60.

Definition initial : State :=
  {| mode := focus; secondsLeft := focusSeconds; running := false;
     focusSessions := 0 |}.

Definition totalSecondsThisMode (m : Mode) : Z :=
  match m with focus => focusSeconds | break => breakSeconds end.

Definition pct (st : State) : Z :=
  let total := totalSecondsThisMode (mode st) in
  if total =? 0 then 0
  else Math_round (inject_Z (total - secondsLeft st) / inject_Z total * 100)%Q.

(** The updater the interval applies every second. *)
Definition tick (st : State) : State :=
  {| mode := mode st;
     secondsLeft := if secondsLeft st <=? 1 then 0 else secondsLeft st - 1;
     running := running st; focusSessions := focusSessions st |}.

(** The effect on [secondsLeft] and [running]: a running timer that has
    reached zero moves to the next phase. *)
Definition phaseEffect (st : State) : State :=
  if negb (running st) then st
  else if 0 <? secondsLeft st then st
  else match mode st with
       | focus => {| mode := break; secondsLeft := breakSeconds;
                     running := running st;
                     focusSessions := focusSessions st + 1 |}
       | break => {| mode := focus; secondsLeft := focusSeconds;
                     running := running st;
                     focusSessions := focusSessions st |}
       end.

Definition toggleRun (st : State) : State :=
  {| mode := mode st; secondsLeft := secondsLeft st;
     running := negb (running st); focusSessions := focusSessions st |}.

Definition reset (st : State) : State :=
  {| mode := focus; secondsLeft := focusSeconds; running := false;
     focusSessions := focusSessions st |}.

Definition skip (st : State) : State :=
  match mode st with
  | focus => {| mode := break; secondsLeft := breakSeconds;
                running := running st; focusSessions := focusSessions st |}
  | break => {| mode := focus; secondsLeft := focusSeconds;
                running := running st; focusSessions := focusSessions st |}
  end.

(** What can happen to the timer: the interval fires (it exists only while
    the timer runs) or a button is pressed; the effect runs after each. *)
Inductive Event := Tick | ToggleRun | Reset | Skip.

Definition step (st : State) (e : Event) : State :=
  phaseEffect
    match e with
    | Tick => if running st then tick st else st
    | ToggleRun => toggleRun st
    | Reset => reset st
    | Skip => skip st
    end.

Definition run (st : State) (es : list Event) : State := foldl step st es.

(** The seconds the interval has counted in a list of events. *)
Definition isTick (e : Event) : bool :=
  match e with Tick => true | _ => false end.

Definition ticks (es : list Event) : Z :=
  Z.of_nat (length (filter (fun e => isTick e = true) es)).

(** The states the timer is meant to be in: some seconds are left, no more
    than the phase has, and the count of sessions is not negative. *)
Definition wellFormed (st : State) : Prop :=
  0 < secondsLeft st <= totalSecondsThisMode (mode st)
  /\ 0 <= focusSessions st.

(** The seconds of focus the state accounts for: those of the sessions
    counted and those gone of a focus phase under way. *)
Definition focusSpent (st : State) : Z :=
  focusSessions st * focusSeconds
  + match mode st with
    | focus => focusSeconds - secondsLeft st
    | break => 0
    end.

(** The state after the phase of [st] has run out. *)
Definition nextPhase (st : State) : State :=
  match mode st with
  | focus => {| mode := break; secondsLeft := breakSeconds; running := true;
                focusSessions := focusSessions st + 1 |}
  | break => {| mode := focus; secondsLeft := focusSeconds; running := true;
                focusSessions := focusSessions st |}
  end.

End Pomodoro.

(** * Properties *)

(** ** Sums *)

Lemma foldl_add_shift (l : list Z) (x : Z) : foldl Z.add x l = x + foldl Z.add 0 l.
Proof.
  revert x. induction l as [|y l IH]; intros x; simpl.
  - lia.
  - rewrite (IH (x + y)), (IH (0 + y)). lia.
Qed.

Lemma sumZ_nil : sumZ [] = 0.
Proof. reflexivity. Qed.

Lemma sumZ_cons (x : Z) (l : list Z) : sumZ (x :: l) = x + sumZ l.
Proof. unfold sumZ. simpl. rewrite foldl_add_shift. lia. Qed.

Lemma sumZ_app (l k : list Z) : sumZ (l ++ k) = sumZ l + sumZ k.
Proof.
  induction l as [|x l IH]; simpl.
  - rewrite sumZ_nil. lia.
  - rewrite !sumZ_cons, IH. lia.
Qed.

Lemma sumZ_nonneg (l : list Z) : Forall (fun x => 0 <= x) l -> 0 <= sumZ l.
Proof.
  induction 1 as [|x l Hx _ IH].
  - rewrite sumZ_nil. lia.
  - rewrite sumZ_cons. lia.
Qed.

Lemma sumZ_zero (l : list Z) :
  Forall (fun x => 0 <= x) l -> sumZ l = 0 -> Forall (fun x => x = 0) l.
Proof.
  induction 1 as [|x l Hx Hl IH]; intros Hs.
  - constructor.
  - rewrite sumZ_cons in Hs. pose proof (sumZ_nonneg l Hl).
    constructor; [lia | apply IH; lia].
Qed.

Lemma minutesFor_snoc (aid : string) (rows : list PlanItem) (r : PlanItem) :
  minutesFor aid (rows ++ [r])
  = minutesFor aid rows + (if decide (assessment_id r = aid) then minutes r else 0).
Proof.
  unfold minutesFor. rewrite filter_app, map_app, sumZ_app. f_equal.
  rewrite filter_cons, filter_nil. destruct (decide _); simpl.
  - rewrite sumZ_cons, sumZ_nil. lia.
  - apply sumZ_nil.
Qed.

Lemma minutesOn_snoc (d : Z) (rows : list PlanItem) (r : PlanItem) :
  minutesOn d (rows ++ [r])
  = minutesOn d rows + (if decide (plan_date r = d) then minutes r else 0).
Proof.
  unfold minutesOn. rewrite filter_app, map_app, sumZ_app. f_equal.
  rewrite filter_cons, filter_nil. destruct (decide _); simpl.
  - rewrite sumZ_cons, sumZ_nil. lia.
  - apply sumZ_nil.
Qed.

Lemma minutesFor_nonneg (aid : string) (rows : list PlanItem) :
  Forall (fun r => 0 < minutes r) rows -> 0 <= minutesFor aid rows.
Proof.
  intros H. unfold minutesFor. apply sumZ_nonneg.
  induction H as [|r rows Hr _ IH]; [constructor|].
  rewrite filter_cons. destruct (decide _); [|exact IH].
  constructor; [lia | exact IH].
Qed.

(** Rows last a positive time: an assessment with no minutes has no row. *)
Lemma minutesFor_zero (aid : string) (rows : list PlanItem) :
  Forall (fun r => 0 < minutes r) rows -> minutesFor aid rows = 0 ->
  forall r, r ∈ rows -> assessment_id r <> aid.
Proof.
  induction 1 as [|x rows Hx Hrows IH]; intros Hz r Hr.
  - apply elem_of_nil in Hr. contradiction.
  - unfold minutesFor in Hz. rewrite filter_cons in Hz.
    pose proof (minutesFor_nonneg aid rows Hrows) as Hnn.
    destruct (decide (assessment_id x = aid)) as [E|E].
    + simpl in Hz. rewrite sumZ_cons in Hz. unfold minutesFor in Hnn. lia.
    + apply elem_of_cons in Hr. destruct Hr as [->|Hr]; [exact E|].
      apply IH; [exact Hz | exact Hr].
Qed.

(** ** The frame of the loops: only [remainingMinutes] is assigned *)

Lemma static_setRemaining (a : Scored) (r : Z) : static (setRemaining a r) = static a.
Proof. reflexivity. Qed.

Lemma static_sc_a (a b : Scored) : static a = static b -> sc_a a = sc_a b.
Proof. intros H. apply (f_equal sc_a) in H. exact H. Qed.

Lemma static_score (a b : Scored) : static a = static b -> score a = score b.
Proof. intros H. apply (f_equal score) in H. exact H. Qed.

Lemma frame_refl (sc : list Scored) : frame sc sc.
Proof. reflexivity. Qed.

Lemma frame_trans (sc1 sc2 sc3 : list Scored) :
  frame sc1 sc2 -> frame sc2 sc3 -> frame sc1 sc3.
Proof. unfold frame. congruence. Qed.

Lemma frame_insert (sc : list Scored) (i : nat) (a : Scored) (r : Z) :
  sc !! i = Some a -> frame sc (<[i := setRemaining a r]> sc).
Proof.
  intros Hi. unfold frame.
  change (static <$> sc = static <$> <[i := setRemaining a r]> sc).
  rewrite list_fmap_insert, static_setRemaining.
  symmetry. apply list_insert_id. rewrite list_lookup_fmap, Hi. reflexivity.
Qed.

Lemma frame_lookup (sc sc' : list Scored) (i : nat) (a : Scored) :
  frame sc sc' -> sc !! i = Some a ->
  exists a', sc' !! i = Some a' /\ static a = static a'.
Proof.
  unfold frame. intros Hf Hi.
  assert (H : (static <$> sc') !! i = Some (static a)).
  { change (static <$> sc') with (map static sc'). rewrite <- Hf.
    change (map static sc) with (static <$> sc).
    rewrite list_lookup_fmap, Hi. reflexivity. }
  rewrite list_lookup_fmap in H.
  destruct (sc' !! i) as [a'|]; simpl in H; [|discriminate].
  exists a'. split; [reflexivity | congruence].
Qed.

Lemma frame_sym (sc sc' : list Scored) : frame sc sc' -> frame sc' sc.
Proof. unfold frame. congruence. Qed.

Lemma frame_ids (sc sc' : list Scored) :
  frame sc sc' -> map idOf sc = map idOf sc'.
Proof.
  unfold frame. intros H.
  assert (E : forall l, map idOf l = map idOf (map static l)).
  { intros l. rewrite map_map. reflexivity. }
  rewrite (E sc), (E sc'), H. reflexivity.
Qed.

(** ** The loops, turn by turn *)

Section Loops.

Variable userId : string.
Variable titles : gmap string string.

Lemma whileBody_Turn (d : Z) (i : nat) (st st' : LoopState) :
  whileBody userId titles d i st = Some st' -> Turn userId titles d i st st'.
Proof.
  unfold whileBody. destruct (scored st !! i) as [a|] eqn:Hi; [|discriminate].
  destruct (0 <? remainingMinutes a) eqn:Hr; simpl; [|discriminate].
  destruct (0 <? remainingCapacity st) eqn:Hc; simpl; [|discriminate].
  change (clamp CHUNK_MINUTES 15 MAX_CHUNK_MINUTES) with 30.
  destruct (_ <=? 0) eqn:Hm; [discriminate|].
  intros [= <-].
  apply Z.ltb_lt in Hr, Hc. apply Z.leb_gt in Hm.
  eapply (Turn_intro _ _ _ _ _ _ a); eauto; lia.
Qed.

Lemma whileBody_None (d : Z) (i : nat) (st : LoopState) (a : Scored) :
  whileBody userId titles d i st = None -> scored st !! i = Some a ->
  remainingMinutes a <= 0 \/ remainingCapacity st <= 0.
Proof.
  unfold whileBody. intros H Hi. rewrite Hi in H.
  destruct (0 <? remainingMinutes a) eqn:Hr; simpl in H.
  - destruct (0 <? remainingCapacity st) eqn:Hc; simpl in H.
    + change (clamp CHUNK_MINUTES 15 MAX_CHUNK_MINUTES) with 30 in H.
      destruct (_ <=? 0) eqn:Hm; [|discriminate].
      apply Z.ltb_lt in Hr, Hc. apply Z.leb_le in Hm. lia.
    + apply Z.ltb_ge in Hc. lia.
  - apply Z.ltb_ge in Hr. lia.
Qed.

Lemma afterTurn_lookup (d : Z) (i : nat) (a : Scored) (m : Z) (st : LoopState) :
  scored st !! i = Some a ->
  scored (afterTurn userId titles d i a m st) !! i
  = Some (setRemaining a (remainingMinutes a - m)).
Proof.
  intros Hi. simpl. apply list_lookup_insert_eq.
  apply lookup_lt_Some in Hi. exact Hi.
Qed.

(** The fuel given to the [while] loop is enough: the loop stops because
    its condition fails, never because the fuel is spent. *)
Lemma whileLoop_exit (d : Z) (i : nat) (fuel : nat) (st : LoopState) :
  (fuelFor i st <= fuel)%nat ->
  whileBody userId titles d i (whileLoop userId titles fuel d i st) = None.
Proof.
  revert st. induction fuel as [|fuel IH]; intros st Hf; simpl.
  - unfold fuelFor in Hf. unfold whileBody.
    destruct (scored st !! i) as [a|]; [|reflexivity].
    destruct (0 <? remainingMinutes a) eqn:Hr; [|reflexivity].
    apply Z.ltb_lt in Hr. lia.
  - destruct (whileBody userId titles d i st) as [st'|] eqn:Hb; [|exact Hb].
    apply IH. apply whileBody_Turn in Hb.
    destruct Hb as [a m Hi Hm0 _ Hma _ _ ->].
    unfold fuelFor in *. rewrite Hi in Hf.
    rewrite (afterTurn_lookup d i a m st Hi). simpl. lia.
Qed.

Lemma whileLoop_rule (P : LoopState -> Prop) (d : Z) (i : nat) :
  (forall st st', P st -> Turn userId titles d i st st' -> P st') ->
  forall fuel st, P st -> P (whileLoop userId titles fuel d i st).
Proof.
  intros Hstep. induction fuel as [|fuel IH]; intros st HP; simpl.
  - exact HP.
  - destruct (whileBody userId titles d i st) as [st'|] eqn:Hb; [|exact HP].
    apply IH. eapply Hstep; [exact HP|]. apply whileBody_Turn. exact Hb.
Qed.

Lemma forCandidates_rule (P : LoopState -> Prop) (d : Z) (cands : list nat) :
  (forall i st st', i ∈ cands -> P st -> Turn userId titles d i st st' -> P st') ->
  forall st, P st -> P (forCandidates userId titles d cands st).
Proof.
  induction cands as [|i rest IH]; intros Hstep st HP; simpl.
  - exact HP.
  - destruct (remainingCapacity st <=? 0); [exact HP|].
    apply IH.
    + intros j s1 s2 Hj. apply Hstep. right. exact Hj.
    + apply whileLoop_rule; [|exact HP].
      intros s1 s2. apply Hstep. left.
Qed.

(** *** The candidates of a day *)

Lemma elem_of_insertByScore (sc : list Scored) (x y : nat) (l : list nat) :
  y ∈ insertByScore sc x l <-> y = x \/ y ∈ l.
Proof.
  induction l as [|z l IH]; simpl.
  - rewrite list_elem_of_singleton. rewrite elem_of_nil. tauto.
  - destruct (Qle_bool _ _).
    + rewrite elem_of_cons. tauto.
    + rewrite !elem_of_cons, IH. tauto.
Qed.

Lemma elem_of_sortByScore (sc : list Scored) (y : nat) (l : list nat) :
  y ∈ sortByScore sc l <-> y ∈ l.
Proof.
  induction l as [|x l IH]; simpl.
  - reflexivity.
  - rewrite elem_of_insertByScore, elem_of_cons, IH. tauto.
Qed.

Lemma elem_of_filterPositions (d : Z) (sc : list Scored) (k j : nat) :
  j ∈ filterPositions d sc k <->
  exists a, (k <= j)%nat /\ sc !! (j - k)%nat = Some a /\ isCandidate d a = true.
Proof.
  revert k. induction sc as [|b sc IH]; intros k; simpl.
  - rewrite elem_of_nil. split; [tauto|]. intros (a & _ & H & _). discriminate.
  - assert (Hrest : j ∈ filterPositions d sc (S k) <->
      exists a, (S k <= j)%nat /\ (b :: sc) !! (j - k)%nat = Some a
                /\ isCandidate d a = true).
    { rewrite IH. split; intros (a & Hk & Ha & Hc); exists a.
      - split; [lia|]. split; [|exact Hc].
        replace (j - k)%nat with (S (j - S k)) by lia. exact Ha.
      - split; [lia|]. split; [|exact Hc].
        replace (j - k)%nat with (S (j - S k)) in Ha by lia. exact Ha. }
    destruct (isCandidate d b) eqn:Hb.
    + rewrite elem_of_cons, Hrest. split.
      * intros [-> | (a & Hk & Ha & Hc)].
        -- exists b. rewrite Nat.sub_diag. auto.
        -- exists a. split; [lia|]. auto.
      * intros (a & Hk & Ha & Hc).
        destruct (decide (j = k)) as [->|Hne]; [left; reflexivity|].
        right. exists a. split; [lia|]. auto.
    + rewrite Hrest. split.
      * intros (a & Hk & Ha & Hc). exists a. split; [lia|]. auto.
      * intros (a & Hk & Ha & Hc). exists a. split; [|auto].
        destruct (decide (j = k)) as [->|Hne]; [|lia].
        rewrite Nat.sub_diag in Ha. simpl in Ha. congruence.
Qed.

Lemma elem_of_candidatesOf (d : Z) (sc : list Scored) (j : nat) :
  j ∈ candidatesOf d sc <->
  exists a, sc !! j = Some a /\ isCandidate d a = true.
Proof.
  unfold candidatesOf. rewrite elem_of_sortByScore, elem_of_filterPositions.
  rewrite Nat.sub_0_r. split.
  - intros (a & _ & H). exists a. exact H.
  - intros (a & H). exists a. split; [lia | exact H].
Qed.

End Loops.

(** ** A proof rule for the loop over the seven days

    [Out k] is what holds of [scored] and [planRows] when day [k] is about
    to start; [In k] is what holds inside day [k], between two turns of
    the [while] loop.  The rule reduces a property of the whole run to the
    effect of one turn. *)

Section DayRule.

Variable userId : string.
Variable titles : gmap string string.
Variable dates caps : list Z.
Variable sc0 : list Scored.
Variable Out : nat -> list Scored -> list PlanItem -> Prop.
Variable In : nat -> LoopState -> Prop.

Hypothesis Henter : forall k d c sc rows,
  dates !! k = Some d -> caps !! k = Some c -> 0 < c ->
  frame sc0 sc -> Out k sc rows ->
  In k {| scored := sc; planRows := rows; remainingCapacity := c |}.

Hypothesis Hturn : forall k d c i a m st,
  dates !! k = Some d -> caps !! k = Some c -> 0 < c ->
  frame sc0 (scored st) -> In k st ->
  scored st !! i = Some a -> d <= dueOf a ->
  0 < m -> m <= 30 ->
  m <= remainingMinutes a -> m <= remainingCapacity st ->
  (m < 30 -> m = remainingMinutes a \/ m = remainingCapacity st) ->
  In k (afterTurn userId titles d i a m st).

Hypothesis Hleave : forall k d c st,
  dates !! k = Some d -> caps !! k = Some c -> 0 < c ->
  frame sc0 (scored st) -> In k st ->
  Out (S k) (scored st) (planRows st).

Hypothesis Hskip : forall k sc rows,
  frame sc0 sc -> Out k sc rows ->
  (forall d c, dates !! k = Some d -> caps !! k = Some c -> c <= 0) ->
  Out (S k) sc rows.

Lemma dayBody_rule (k : nat) (st : LoopState) :
  frame sc0 (scored st) -> Out k (scored st) (planRows st) ->
  frame sc0 (scored (dayBody userId titles dates caps st k))
  /\ Out (S k) (scored (dayBody userId titles dates caps st k))
             (planRows (dayBody userId titles dates caps st k)).
Proof.
  intros Hf Ho. unfold dayBody.
  destruct (caps !! k) as [c|] eqn:Hc;
    [|split; [exact Hf | apply Hskip; [exact Hf | exact Ho | congruence]]].
  destruct (dates !! k) as [d|] eqn:Hd;
    [|split; [exact Hf | apply Hskip; [exact Hf | exact Ho | congruence]]].
  destruct (c <=? 0) eqn:Hc0.
  { apply Z.leb_le in Hc0. split; [exact Hf|].
    apply Hskip; [exact Hf | exact Ho |]. intros d' c' _ Hc'. rewrite Hc in Hc'. injection Hc' as <-. exact Hc0. }
  apply Z.leb_gt in Hc0.
  set (st0 := {| scored := scored st; planRows := planRows st;
                 remainingCapacity := c |}).
  set (cands := candidatesOf d (scored st)).
  assert (H : frame sc0 (scored (forCandidates userId titles d cands st0))
              /\ In k (forCandidates userId titles d cands st0)).
  { apply (forCandidates_rule userId titles
             (fun s => frame sc0 (scored s) /\ In k s)).
    - intros i s1 s2 Hi [Hf1 Hin1] [a m Ha Hm0 Hm30 Hma Hmc Hlt ->].
      apply elem_of_candidatesOf in Hi. destruct Hi as (a_s & Has & Hcand).
      assert (Hdue : d <= dueOf a).
      { destruct (frame_lookup _ _ _ _ (frame_sym _ _ Hf) Has) as (a0 & Ha0 & E0).
        destruct (frame_lookup _ _ _ _ Hf1 Ha0) as (a1 & Ha1 & E1).
        assert (a1 = a) by congruence. subst a1.
        unfold dueOf. rewrite <- (static_sc_a _ _ E1), <- (static_sc_a _ _ E0).
        unfold isCandidate in Hcand. apply andb_true_iff in Hcand.
        destruct Hcand as [_ Hle]. apply Z.leb_le in Hle. exact Hle. }
      split.
      + eapply frame_trans; [exact Hf1|]. simpl. apply frame_insert. exact Ha.
      + eapply Hturn; eauto.
    - split; [exact Hf|]. apply Henter with (d := d); assumption. }
  destruct H as [Hf' Hin']. split; [exact Hf'|].
  eapply Hleave; eauto.
Qed.

Lemma days_rule (n k : nat) (st : LoopState) :
  frame sc0 (scored st) -> Out k (scored st) (planRows st) ->
  frame sc0 (scored (foldl (dayBody userId titles dates caps) st (seq k n)))
  /\ Out (k + n)
         (scored (foldl (dayBody userId titles dates caps) st (seq k n)))
         (planRows (foldl (dayBody userId titles dates caps) st (seq k n))).
Proof.
  revert k st. induction n as [|n IH]; intros k st Hf Ho; simpl.
  - rewrite Nat.add_0_r. auto.
  - destruct (dayBody_rule k st Hf Ho) as [Hf' Ho'].
    replace (k + S n)%nat with (S k + n)%nat by lia.
    apply IH; assumption.
Qed.

Lemma daysLoop_rule (n : nat) :
  Out 0 sc0 [] ->
  frame sc0 (scored (daysLoop userId titles dates caps n sc0))
  /\ Out n (scored (daysLoop userId titles dates caps n sc0))
           (planRows (daysLoop userId titles dates caps n sc0)).
Proof.
  intros Ho. unfold daysLoop.
  apply (days_rule n 0); [apply frame_refl | exact Ho].
Qed.

Lemma daysLoop_out (n : nat) :
  Out 0 sc0 [] ->
  Out n (scored (daysLoop userId titles dates caps n sc0))
        (planRows (daysLoop userId titles dates caps n sc0)).
Proof. intros Ho. apply (daysLoop_rule n). exact Ho. Qed.

End DayRule.

Lemma daysLoop_frame (userId : string) (titles : gmap string string)
    (dates caps : list Z) (n : nat) (sc0 : list Scored) :
  frame sc0 (scored (daysLoop userId titles dates caps n sc0)).
Proof.
  apply (daysLoop_rule userId titles dates caps sc0
           (fun _ _ _ => True) (fun _ _ => True)); auto.
Qed.

(** ** Every generated row is well formed *)

Section Rows.

Variable userId : string.
Variable titles : gmap string string.
Variable dates caps : list Z.
Variable sc0 : list Scored.

Lemma daysLoop_rowOK (n : nat) :
  Forall (rowOK userId dates caps sc0)
         (planRows (daysLoop userId titles dates caps n sc0)).
Proof.
  apply (daysLoop_out userId titles dates caps sc0
           (fun _ _ rows => Forall (rowOK userId dates caps sc0) rows)
           (fun _ st => Forall (rowOK userId dates caps sc0) (planRows st))).
  - intros k d c sc rows _ _ _ _ H. exact H.
  - intros k d c i a m st Hd Hc Hc0 Hf Hin Ha Hdue Hm0 Hm30 _ _ _. simpl.
    apply Forall_app. split; [exact Hin|]. constructor; [|constructor].
    destruct (frame_lookup _ _ _ _ (frame_sym _ _ Hf) Ha) as (a0 & Ha0 & E).
    unfold rowOK, CHUNK_MINUTES. simpl.
    split; [reflexivity|]. split; [reflexivity|]. split; [lia|]. split.
    + exists k, c. auto.
    + exists i, a0. split; [exact Ha0|].
      unfold idOf, dueOf in *. rewrite <- (static_sc_a _ _ E). auto.
  - intros k d c st _ _ _ _ H. exact H.
  - intros k sc rows _ H _. exact H.
  - constructor.
Qed.

End Rows.

(** ** Identifiers are keys *)

Lemma distinct_ids_lookup (sc : list Scored) (i j : nat) (a b : Scored) :
  NoDup (map idOf sc) ->
  sc !! i = Some a -> sc !! j = Some b -> idOf a = idOf b -> i = j.
Proof.
  intros Hnd Ha Hb E.
  apply (NoDup_lookup (map idOf sc) i j (idOf a)); [exact Hnd| |].
  - change (map idOf sc) with (idOf <$> sc).
    rewrite list_lookup_fmap, Ha. reflexivity.
  - change (map idOf sc) with (idOf <$> sc).
    rewrite list_lookup_fmap, Hb, E. reflexivity.
Qed.

(** ** Conservation of the minutes of each assessment *)

Section Conservation.

Variable userId : string.
Variable titles : gmap string string.
Variable dates caps : list Z.
Variable sc0 : list Scored.

Hypothesis ids_distinct : NoDup (map idOf sc0).
Hypothesis remaining_nonneg : Forall (fun a => 0 <= remainingMinutes a) sc0.

Lemma ids_distinct_lookup (i j : nat) (a b : Scored) :
  sc0 !! i = Some a -> sc0 !! j = Some b -> idOf a = idOf b -> i = j.
Proof. apply distinct_ids_lookup. exact ids_distinct. Qed.

Lemma daysLoop_conserved (n : nat) :
  conserved sc0 (scored (daysLoop userId titles dates caps n sc0))
            (planRows (daysLoop userId titles dates caps n sc0)).
Proof.
  apply (daysLoop_rule userId titles dates caps sc0
           (fun _ sc rows => conserved sc0 sc rows)
           (fun _ st => conserved sc0 (scored st) (planRows st))).
  - intros k d c sc rows _ _ _ _ H. exact H.
  - intros k d c i a m st _ _ _ Hf Hin Ha _ Hm0 _ Hma _ _.
    intros j b0 b Hb0 Hb. simpl in Hb. simpl planRows.
    rewrite minutesFor_snoc. simpl assessment_id.
    destruct (frame_lookup _ _ _ _ (frame_sym _ _ Hf) Ha) as (a0 & Ha0 & E).
    destruct (decide (i = j)) as [->|Hne].
    + rewrite list_lookup_insert_eq in Hb by (eapply lookup_lt_Some; eauto).
      injection Hb as <-. assert (b0 = a0) by congruence. subst b0.
      destruct (Hin j a0 a Ha0 Ha) as [H0 Hsum]. simpl.
      unfold idOf in *. rewrite (static_sc_a _ _ E).
      rewrite decide_True by reflexivity. lia.
    + rewrite list_lookup_insert_ne in Hb by exact Hne.
      destruct (Hin j b0 b Hb0 Hb) as [H0 Hsum].
      rewrite decide_False; [lia|].
      intros Heq. apply Hne.
      apply (ids_distinct_lookup i j a0 b0 Ha0 Hb0).
      unfold idOf in *. rewrite <- Heq. symmetry. f_equal.
      apply (static_sc_a _ _ E).
  - intros k d c st _ _ _ _ H. exact H.
  - intros k sc rows _ H _. exact H.
  - intros i a0 a Ha0 Ha. assert (a = a0) by congruence. subst a.
    split.
    + rewrite Forall_forall in remaining_nonneg. apply remaining_nonneg.
      eapply list_elem_of_lookup_2. exact Ha0.
    + unfold minutesFor. simpl. rewrite sumZ_nil. lia.
Qed.

End Conservation.

(** ** No day is filled beyond its capacity *)

Section Capacity.

Variable userId : string.
Variable titles : gmap string string.
Variable dates caps : list Z.
Variable sc0 : list Scored.

Hypothesis dates_distinct : NoDup dates.

Lemma daysLoop_withinCapacity (n : nat) :
  withinCapacity dates caps n
    (planRows (daysLoop userId titles dates caps n sc0)) None.
Proof.
  apply (daysLoop_out userId titles dates caps sc0
           (fun k _ rows => withinCapacity dates caps k rows None)
           (fun k st => withinCapacity dates caps k (planRows st)
                          (Some (remainingCapacity st)))).
  - intros k d c sc rows Hd Hc Hc0 _ H j d' c' Hd' Hc'.
    destruct (H j d' c' Hd' Hc') as (H1 & H2 & H3).
    split; [exact H1|]. split; [exact H2|].
    intros ->. simpl. specialize (H3 eq_refl). simpl in H3.
    assert (c' = c) by congruence. lia.
  - intros k d c i a m st Hd Hc Hc0 _ Hin _ _ Hm0 _ _ Hmc _ j d' c' Hd' Hc'.
    destruct (Hin j d' c' Hd' Hc') as (H1 & H2 & H3).
    simpl planRows. simpl remainingCapacity. rewrite minutesOn_snoc. simpl.
    destruct (decide (d = d')) as [<-|Hne].
    + assert (j = k) by (eapply NoDup_lookup; eauto). subst j.
      split; [lia|]. split; [lia|]. intros _.
      specialize (H3 eq_refl). simpl in H3. lia.
    + split; [intros Hlt; specialize (H1 Hlt); lia|].
      split; [intros Hlt; specialize (H2 Hlt); lia|].
      intros ->. congruence.
  - intros k d c st Hd Hc Hc0 _ Hin j d' c' Hd' Hc'.
    destruct (Hin j d' c' Hd' Hc') as (H1 & H2 & H3).
    split; [|split].
    + intros Hlt. destruct (decide (j = k)) as [->|Hne].
      * specialize (H3 eq_refl). simpl in H3. lia.
      * apply H1. lia.
    + intros Hlt. apply H2. lia.
    + intros ->. apply H2. lia.
  - intros k sc rows _ H _ j d' c' Hd' Hc'.
    destruct (H j d' c' Hd' Hc') as (H1 & H2 & H3).
    split; [|split].
    + intros Hlt. destruct (decide (j = k)) as [->|Hne].
      * specialize (H3 eq_refl). simpl in H3. lia.
      * apply H1. lia.
    + intros Hlt. apply H2. lia.
    + intros ->. apply H2. lia.
  - intros j d c _ _. unfold minutesOn. simpl. rewrite sumZ_nil.
    split; [lia|]. split; [reflexivity|]. reflexivity.
Qed.

End Capacity.

(** ** Granularity of the rows *)

Lemma minutesOf_snoc (aid : string) (d : Z) (rows : list PlanItem) (r : PlanItem) :
  minutesOf aid d (rows ++ [r])
  = minutesOf aid d rows
    ++ (if decide (assessment_id r = aid /\ plan_date r = d) then [minutes r] else []).
Proof.
  unfold minutesOf. rewrite filter_app, map_app. f_equal.
  rewrite filter_cons, filter_nil. destruct (decide _); reflexivity.
Qed.

Lemma fullButLast_full (l : list Z) :
  Forall (fun x => x = CHUNK_MINUTES) l -> fullButLast l = true.
Proof.
  induction 1 as [|x l Hx Hl IH]; simpl; [reflexivity|].
  destruct l; [reflexivity|]. rewrite IH. subst x. reflexivity.
Qed.

Lemma fullButLast_snoc (l : list Z) (m : Z) :
  Forall (fun x => x = CHUNK_MINUTES) l -> fullButLast (l ++ [m]) = true.
Proof.
  induction 1 as [|x l Hx Hl IH]; [reflexivity|].
  change ((x :: l) ++ [m]) with (x :: (l ++ [m])).
  simpl. destruct (l ++ [m]) eqn:E; [reflexivity|].
  rewrite IH. subst x. reflexivity.
Qed.

Lemma fullButLast_fragments (l : list Z) :
  fullButLast l = true -> (length (List.filter isFragment l) <= 1)%nat.
Proof.
  induction l as [|x l IH]; simpl; [lia|].
  destruct l as [|y l].
  - intros _. simpl. destruct (isFragment x); simpl; lia.
  - intros H. apply andb_true_iff in H. destruct H as [Hx Hl].
    apply Z.eqb_eq in Hx. subst x.
    change (isFragment CHUNK_MINUTES) with false. cbv iota. exact (IH Hl).
Qed.

Section Granularity.

Variable userId : string.
Variable titles : gmap string string.
Variable dates caps : list Z.
Variable sc0 : list Scored.

Hypothesis dates_distinct : NoDup dates.
Hypothesis ids_distinct : NoDup (map idOf sc0).

Lemma daysLoop_granular (n : nat) :
  granularOut dates n (planRows (daysLoop userId titles dates caps n sc0)).
Proof.
  apply (daysLoop_out userId titles dates caps sc0
           (fun k _ rows => granularOut dates k rows)
           (fun k st => granular dates k st)).
  - intros k d c sc rows Hd _ _ _ [H1 H2]. split; [exact H1|]. split.
    + intros j d' aid Hd' Hlt. apply (H2 j); [exact Hd' | lia].
    + intros i a d' Hd' _ _ _. simpl. rewrite (H2 k d' (idOf a) Hd'); [|lia].
      constructor.
  - intros k d c i a m st Hd _ _ Hf (H1 & H2 & H3) Ha _ Hm0 Hm30 Hma Hmc Hlt.
    assert (Hfull := H3 i a d Hd Ha ltac:(lia) ltac:(lia)).
    assert (Hids : NoDup (map idOf (scored st))).
    { rewrite <- (frame_ids _ _ Hf). exact ids_distinct. }
    split; [|split].
    + intros aid d'. simpl planRows. rewrite minutesOf_snoc. simpl.
      destruct (decide _) as [[<- <-]|Hne].
      * apply fullButLast_snoc. exact Hfull.
      * rewrite app_nil_r. apply H1.
    + intros j d' aid Hd' Hkj. simpl planRows. rewrite minutesOf_snoc. simpl.
      rewrite decide_False.
      * rewrite app_nil_r. apply (H2 j); assumption.
      * intros [_ E]. rewrite <- E in Hd'.
        pose proof (NoDup_lookup dates k j d dates_distinct Hd Hd'). lia.
    + intros i' a' d' Hd' Ha' Hr Hc'. simpl in Ha', Hc'.
      assert (d' = d) by congruence. subst d'.
      simpl planRows. rewrite minutesOf_snoc. simpl.
      destruct (decide (i = i')) as [<-|Hne].
      * rewrite list_lookup_insert_eq in Ha' by (eapply lookup_lt_Some; eauto).
        injection Ha' as <-. simpl in Hr. unfold idOf at 1. simpl.
        rewrite decide_True by (split; reflexivity).
        apply Forall_app. split; [exact Hfull|].
        constructor; [|constructor]. unfold CHUNK_MINUTES. lia.
      * rewrite list_lookup_insert_ne in Ha' by exact Hne.
        rewrite decide_False.
        -- rewrite app_nil_r. apply (H3 i'); [exact Hd | exact Ha' | exact Hr | lia].
        -- intros [E _]. apply Hne.
           apply (distinct_ids_lookup (scored st) i i' a a' Hids Ha Ha').
           exact E.
  - intros k d c st _ _ _ _ (H1 & H2 & _). split; [exact H1|].
    intros j d' aid Hd' Hle. apply (H2 j); [exact Hd' | lia].
  - intros k sc rows _ [H1 H2] _. split; [exact H1|].
    intros j d' aid Hd' Hle. apply (H2 j); [exact Hd' | lia].
  - split; intros; reflexivity.
Qed.

End Granularity.

(** ** The planning window *)

Lemma day_of_addDays (now k : Z) :
  toYYYYMMDD (addDays (startOfDay now) k) = now / MS_PER_DAY + k.
Proof.
  unfold toYYYYMMDD, addDays, startOfDay.
  rewrite Z.div_add by (unfold MS_PER_DAY; lia).
  rewrite Z.div_mul by (unfold MS_PER_DAY; lia). reflexivity.
Qed.

Lemma dayDates_eq (now : Z) :
  dayDates now = (fun i : nat => now / MS_PER_DAY + Z.of_nat i) <$> seq 0 7.
Proof.
  unfold dayDates, days, today. rewrite map_map. apply map_ext.
  intros i. apply day_of_addDays.
Qed.

Lemma dayDates_lookup (now : Z) (k : nat) (d : Z) :
  dayDates now !! k = Some d <-> d = now / MS_PER_DAY + Z.of_nat k /\ (k < 7)%nat.
Proof.
  rewrite dayDates_eq, list_lookup_fmap. split.
  - destruct (seq 0 7 !! k) as [i|] eqn:E; simpl; [|discriminate].
    apply lookup_seq in E. destruct E as [-> Hk]. intros [= <-]. auto.
  - intros [-> Hk]. rewrite lookup_seq_lt by exact Hk. reflexivity.
Qed.

Lemma dayDates_distinct (now : Z) : NoDup (dayDates now).
Proof.
  rewrite dayDates_eq. apply NoDup_fmap_2_strong; [|apply NoDup_seq].
  intros i j _ _ H. lia.
Qed.

Lemma elem_of_dayDates (now d : Z) :
  d ∈ dayDates now <-> now / MS_PER_DAY <= d <= now / MS_PER_DAY + 6.
Proof.
  rewrite list_elem_of_lookup. split.
  - intros [k Hk]. apply dayDates_lookup in Hk. lia.
  - intros Hd. exists (Z.to_nat (d - now / MS_PER_DAY)).
    apply dayDates_lookup. lia.
Qed.

Lemma capacity_lookup (userId : string) (now : Z) (s : Store) (k : nat) (c : Z) :
  capacityByDayMinutes userId now s !! k = Some c <->
  (k < 7)%nat
  /\ c = capacityOf (hoursByWeekday (availRowsOf userId s))
                    (addDays (today now) (Z.of_nat k)).
Proof.
  unfold capacityByDayMinutes, days.
  change (map ?f ?l) with (f <$> l). rewrite !list_lookup_fmap. split.
  - destruct (seq 0 7 !! k) as [i|] eqn:E; simpl; [|discriminate].
    apply lookup_seq in E. destruct E as [-> Hk]. intros [= <-]. auto.
  - intros [Hk ->]. rewrite lookup_seq_lt by exact Hk. reflexivity.
Qed.

Lemma getDay_addDays (now k : Z) :
  getDay (addDays (startOfDay now) k) = weekdayOf (now / MS_PER_DAY + k).
Proof.
  unfold getDay, weekdayOf. f_equal. f_equal. apply day_of_addDays.
Qed.

(** ** The availability map *)

Lemma weekdays_default (wd : Z) :
  default 2%Q (foldl (fun m w => <[w := 2%Q]> m) (∅ : gmap Z Q) weekdays !! wd)
  = 2%Q.
Proof.
  unfold weekdays. simpl.
  repeat (rewrite lookup_insert; case_decide; [reflexivity|]).
  rewrite lookup_empty. reflexivity.
Qed.

Lemma hoursByWeekday_lookup (rows : list AvailabilityRow) (wd : Z) :
  default 2%Q (hoursByWeekday rows !! wd) = hoursAvailable rows wd.
Proof.
  unfold hoursByWeekday, hoursAvailable.
  induction rows as [|r rows IH] using rev_ind.
  - simpl foldl at 1. rewrite weekdays_default. reflexivity.
  - rewrite foldl_app. simpl. rewrite filter_app, filter_cons, filter_nil.
    destruct (decide (av_weekday r = wd)) as [E|E].
    + rewrite last_snoc. rewrite E, lookup_insert_eq. reflexivity.
    + rewrite app_nil_r, lookup_insert_ne by exact E. exact IH.
Qed.

Lemma Math_round_nonneg (x : Q) : (0 <= x)%Q -> 0 <= Math_round x.
Proof.
  intros Hx. unfold Math_round.
  change 0 with (Qfloor 0). apply Qfloor_resp_le.
  apply Qle_trans with (y := x); [exact Hx|].
  rewrite <- (Qplus_0_r x) at 1. apply Qplus_le_r. discriminate.
Qed.

Lemma hoursAvailable_nonneg (rows : list AvailabilityRow) (wd : Z) :
  Forall (fun r => (0 <= av_hours_available r)%Q) rows ->
  (0 <= hoursAvailable rows wd)%Q.
Proof.
  intros H. unfold hoursAvailable.
  destruct (last _) as [r|] eqn:E; [|discriminate].
  rewrite Forall_forall in H. apply H.
  assert (Hin : r ∈ filter (fun r => av_weekday r = wd) rows).
  { rewrite last_lookup in E. eapply list_elem_of_lookup_2. exact E. }
  apply list_elem_of_filter in Hin. tauto.
Qed.

Lemma capacity_of_day (userId : string) (now : Z) (s : Store) (k : nat) (d c : Z) :
  dayDates now !! k = Some d ->
  capacityByDayMinutes userId now s !! k = Some c ->
  c = Math_round (hoursAvailable (availRowsOf userId s) (weekdayOf d) * 60)%Q.
Proof.
  intros Hd Hc. apply dayDates_lookup in Hd. destruct Hd as [-> Hk].
  apply capacity_lookup in Hc. destruct Hc as [_ ->].
  unfold capacityOf, today. rewrite getDay_addDays, hoursByWeekday_lookup.
  reflexivity.
Qed.

(** ** The scored objects *)

Lemma idOf_mkScored (t : Z) (dbc : gmap string Z) (a : AssessmentRow) :
  idOf (mkScored t dbc a) = as_id a.
Proof. reflexivity. Qed.

Lemma remaining_mkScored (t : Z) (dbc : gmap string Z) (a : AssessmentRow) :
  remainingMinutes (mkScored t dbc a)
  = Z.max 0 (Math_round (as_estimated_hours a * 60)%Q).
Proof. reflexivity. Qed.

Lemma scoredOf_lookup (userId : string) (now : Z) (s : Store) (i : nat) :
  scoredOf userId now s !! i
  = mkScored (today now) (difficultyByCourseId (courseRowsOf userId s))
    <$> assessmentsOf userId now s !! i.
Proof. unfold scoredOf. apply list_lookup_fmap. Qed.

Lemma scoredOf_ids (userId : string) (now : Z) (s : Store) :
  map idOf (scoredOf userId now s) = map as_id (assessmentsOf userId now s).
Proof. unfold scoredOf. rewrite map_map. reflexivity. Qed.

Lemma scoredOf_nonneg (userId : string) (now : Z) (s : Store) :
  Forall (fun a => 0 <= remainingMinutes a) (scoredOf userId now s).
Proof.
  unfold scoredOf. apply Forall_forall. intros sa Hsa.
  apply list_elem_of_fmap in Hsa. destruct Hsa as (a & -> & _).
  simpl. lia.
Qed.

Lemma assessment_by_id (userId : string) (now : Z) (s : Store)
    (i j : nat) (a b : AssessmentRow) :
  NoDup (map as_id (assessmentsOf userId now s)) ->
  assessmentsOf userId now s !! i = Some a ->
  assessmentsOf userId now s !! j = Some b ->
  as_id a = as_id b -> i = j.
Proof.
  intros Hnd Ha Hb E.
  apply (NoDup_lookup _ i j (as_id a) Hnd).
  - change (map as_id ?l) with (as_id <$> l).
    rewrite list_lookup_fmap, Ha. reflexivity.
  - change (map as_id ?l) with (as_id <$> l).
    rewrite list_lookup_fmap, Hb, E. reflexivity.
Qed.

Lemma planOf_eq (userId : string) (now : Z) (s : Store) :
  planOf userId now s = planAfterDays userId now 7 s.
Proof. reflexivity. Qed.

Lemma planAfterDays_frame (userId : string) (now : Z) (n : nat) (s : Store) :
  frame (scoredOf userId now s) (scored (planAfterDays userId now n s)).
Proof. unfold planAfterDays. apply daysLoop_frame. Qed.

(** The object at position [i] after [n] days is the object made for the
    [i]-th eligible assessment, up to its counter. *)
Lemma daysLoop_scored (userId : string) (now : Z) (s : Store)
    (n i : nat) (a : AssessmentRow) :
  assessmentsOf userId now s !! i = Some a ->
  exists sa,
    scored (planAfterDays userId now n s) !! i = Some sa
    /\ sc_a sa = a.
Proof.
  intros Ha.
  assert (H0 : scoredOf userId now s !! i
               = Some (mkScored (today now)
                         (difficultyByCourseId (courseRowsOf userId s)) a)).
  { rewrite scoredOf_lookup, Ha. reflexivity. }
  destruct (frame_lookup _ _ _ _ (planAfterDays_frame userId now n s) H0)
    as (sa & Hsa & E).
  exists sa. split; [exact Hsa|].
  symmetry. apply (static_sc_a _ _ E).
Qed.

Lemma generate_shortfall (userId : string) (now stamp : Z) (s : Store) :
  assessmentsOf userId now s <> [] ->
  shortfallMinutes (snd (generatePlanForUser userId now stamp s))
  = shortfallOf (planOf userId now s).
Proof.
  intros Hne. unfold generatePlanForUser.
  destruct (assessmentsOf userId now s); [congruence|].
  destruct (planRows (planOf userId now s)); reflexivity.
Qed.

Lemma shortfallOf_sum (st : LoopState) :
  Forall (fun a => 0 <= remainingMinutes a) (scored st) ->
  shortfallOf st = sumZ (map remainingMinutes (scored st)).
Proof.
  intros H. unfold shortfallOf, remainingWork.
  assert (0 <= sumZ (map remainingMinutes (scored st))).
  { apply sumZ_nonneg. apply Forall_fmap. exact H. }
  destruct (0 <? _) eqn:E; [reflexivity|]. apply Z.ltb_ge in E. lia.
Qed.

Lemma planOf_conserved (userId : string) (now : Z) (s : Store) (n : nat) :
  NoDup (map as_id (assessmentsOf userId now s)) ->
  conserved (scoredOf userId now s)
    (scored (planAfterDays userId now n s))
    (planRows (planAfterDays userId now n s)).
Proof.
  intros Hnd. unfold planAfterDays. apply daysLoop_conserved.
  - rewrite scoredOf_ids. exact Hnd.
  - apply scoredOf_nonneg.
Qed.

Lemma planOf_remaining_nonneg (userId : string) (now : Z) (s : Store) :
  NoDup (map as_id (assessmentsOf userId now s)) ->
  Forall (fun a => 0 <= remainingMinutes a) (scored (planOf userId now s)).
Proof.
  intros Hnd. rewrite planOf_eq. apply Forall_forall. intros sa Hsa.
  apply list_elem_of_lookup in Hsa. destruct Hsa as [i Hi].
  pose proof (planAfterDays_frame userId now 7 s) as Hf.
  destruct (frame_lookup _ _ _ _ (frame_sym _ _ Hf) Hi) as (a0 & Ha0 & _).
  exact (proj1 (planOf_conserved userId now s 7 Hnd i a0 sa Ha0 Hi)).
Qed.

(** ** C1: conservation of work *)

(** C1.  For every eligible assessment with a positive estimate, the
    durations of the blocks generated for it plus what is left in its
    counter add up to round(estimatedHours x 60), and the shortfall the run
    reports is the sum of those counters. *)
Theorem conservation (userId : string) (now stamp : Z) (s : Store)
    (i : nat) (a : AssessmentRow) :
  NoDup (map as_id (assessmentsOf userId now s)) ->
  assessmentsOf userId now s !! i = Some a ->
  (0 < as_estimated_hours a)%Q ->
  exists sa,
    scored (planOf userId now s) !! i = Some sa /\ sc_a sa = a
    /\ 0 <= remainingMinutes sa
    /\ minutesFor (as_id a) (planRows (planOf userId now s))
       + remainingMinutes sa
       = Math_round (as_estimated_hours a * 60)%Q
    /\ shortfallMinutes (snd (generatePlanForUser userId now stamp s))
       = sumZ (map remainingMinutes (scored (planOf userId now s))).
Proof.
  intros Hnd Ha Hest. rewrite (planOf_eq userId now s).
  destruct (daysLoop_scored userId now s 7 i a Ha) as (sa & Hsa & Esa).
  exists sa. split; [exact Hsa|]. split; [exact Esa|].
  assert (H0 : scoredOf userId now s !! i
               = Some (mkScored (today now)
                         (difficultyByCourseId (courseRowsOf userId s)) a)).
  { rewrite scoredOf_lookup, Ha. reflexivity. }
  destruct (planOf_conserved userId now s 7 Hnd i _ sa H0 Hsa) as [Hpos Hsum].
  split; [exact Hpos|]. split.
  - rewrite idOf_mkScored, remaining_mkScored in Hsum. rewrite Hsum.
    apply Z.max_r. apply Math_round_nonneg.
    apply Qmult_le_0_compat; [apply Qlt_le_weak; exact Hest | discriminate].
  - rewrite generate_shortfall.
    + rewrite <- (planOf_eq userId now s).
      apply shortfallOf_sum. apply planOf_remaining_nonneg. exact Hnd.
    + intros E. rewrite E in Ha. discriminate.
Qed.

Lemma conservation_witness :
  exists sa,
    scored (planOf "u" 0 (Scenario.store [] [Scenario.essay 4 3] [])) !! 0%nat
    = Some sa
    /\ minutesFor "a1" (planRows (planOf "u" 0
                          (Scenario.store [] [Scenario.essay 4 3] [])))
       + remainingMinutes sa = 240.
Proof.
  destruct (conservation "u" 0 5 (Scenario.store [] [Scenario.essay 4 3] [])
              0%nat (Scenario.essay 4 3)) as (sa & H1 & _ & _ & H2 & _).
  - by_compute.
  - reflexivity.
  - reflexivity.
  - exists sa. split; [exact H1 | exact H2].
Defined.

Lemma planAfterDays_rowOK (userId : string) (now : Z) (n : nat) (s : Store) :
  Forall (rowOK userId (dayDates now) (capacityByDayMinutes userId now s)
            (scoredOf userId now s))
         (planRows (planAfterDays userId now n s)).
Proof. unfold planAfterDays. apply daysLoop_rowOK. Qed.

Lemma planOf_rowOK (userId : string) (now : Z) (s : Store) :
  Forall (rowOK userId (dayDates now) (capacityByDayMinutes userId now s)
            (scoredOf userId now s))
         (planRows (planOf userId now s)).
Proof. rewrite planOf_eq. apply planAfterDays_rowOK. Qed.

(** ** C7: the due-date boundary *)

(** C7.  A generated block that references an assessment is dated on or
    before the due date of that assessment. *)
Theorem due_date_boundary (userId : string) (now : Z) (s : Store)
    (r : PlanItem) (a : AssessmentRow) :
  NoDup (map as_id (assessmentsOf userId now s)) ->
  r ∈ planRows (planOf userId now s) ->
  a ∈ assessmentsOf userId now s ->
  assessment_id r = as_id a ->
  plan_date r <= as_due_date a.
Proof.
  intros Hnd Hr Ha Hid.
  pose proof (planOf_rowOK userId now s) as Hok.
  rewrite Forall_forall in Hok.
  destruct (Hok r Hr) as (_ & _ & _ & _ & (i & a0 & Ha0 & Hid0 & Hdue)).
  rewrite scoredOf_lookup in Ha0.
  destruct (assessmentsOf userId now s !! i) as [b|] eqn:Hb; [|discriminate].
  injection Ha0 as <-. unfold idOf, dueOf in *. simpl in Hid0, Hdue.
  apply list_elem_of_lookup in Ha. destruct Ha as [j Hj].
  assert (i = j).
  { apply (assessment_by_id userId now s i j b a Hnd Hb Hj). congruence. }
  subst j. assert (b = a) by congruence. subst b. exact Hdue.
Qed.

Lemma due_date_boundary_witness :
  plan_date (Scenario.block 0 30 "a1" "History â€” Essay")
  <= as_due_date (Scenario.essay 6 1).
Proof.
  apply (due_date_boundary "u" 0
           (Scenario.store [] [Scenario.essay 6 1; Scenario.quiz 1 5] [])).
  - by_compute.
  - apply (list_elem_of_lookup_2 _ 0%nat). vm_compute. reflexivity.
  - apply (list_elem_of_lookup_2 _ 0%nat). vm_compute. reflexivity.
  - reflexivity.
Defined.

(** ** C10: estimates that round to no minutes *)

(** C10.  An eligible assessment whose estimate rounds to zero minutes or
    fewer has its counter clamped to 0; the counter is 0 before every day
    and at the end, so the assessment is not a candidate on any day, no
    block references it and it adds nothing to the shortfall. *)
Theorem zero_estimate (userId : string) (now : Z) (s : Store)
    (i : nat) (a : AssessmentRow) :
  NoDup (map as_id (assessmentsOf userId now s)) ->
  assessmentsOf userId now s !! i = Some a ->
  Math_round (as_estimated_hours a * 60)%Q <= 0 ->
  (forall n, exists sa,
      scored (planAfterDays userId now n s) !! i = Some sa
      /\ sc_a sa = a /\ remainingMinutes sa = 0
      /\ forall d, isCandidate d sa = false)
  /\ (forall r, r ∈ planRows (planOf userId now s) -> assessment_id r <> as_id a).
Proof.
  intros Hnd Ha Hest.
  assert (H0 : scoredOf userId now s !! i
               = Some (mkScored (today now)
                         (difficultyByCourseId (courseRowsOf userId s)) a)).
  { rewrite scoredOf_lookup, Ha. reflexivity. }
  assert (Hpos : forall n,
    Forall (fun r => 0 < minutes r) (planRows (planAfterDays userId now n s))).
  { intros n. eapply Forall_impl; [apply planAfterDays_rowOK|].
    intros r (_ & _ & Hm & _). lia. }
  assert (Hcount : forall n sa,
    scored (planAfterDays userId now n s) !! i = Some sa ->
    remainingMinutes sa = 0
    /\ minutesFor (as_id a) (planRows (planAfterDays userId now n s)) = 0).
  { intros n sa Hsa.
    destruct (planOf_conserved userId now s n Hnd i _ sa H0 Hsa) as [Hrem Hsum].
    rewrite idOf_mkScored, remaining_mkScored in Hsum.
    rewrite Z.max_l in Hsum by exact Hest.
    pose proof (minutesFor_nonneg (as_id a) _ (Hpos n)). lia. }
  split.
  - intros n. destruct (daysLoop_scored userId now s n i a Ha) as (sa & Hsa & Esa).
    exists sa. split; [exact Hsa|]. split; [exact Esa|].
    destruct (Hcount n sa Hsa) as [Hrem _]. split; [exact Hrem|].
    intros d. unfold isCandidate. rewrite Hrem. reflexivity.
  - rewrite planOf_eq. generalize 7%nat. intros n r Hr.
    destruct (daysLoop_scored userId now s n i a Ha) as (sa & Hsa & _).
    destruct (Hcount n sa Hsa) as [_ Hzero].
    apply (minutesFor_zero (as_id a) _ (Hpos n) Hzero r Hr).
Qed.

Lemma zero_estimate_witness :
  exists sa,
    scored (planOf "u" 0
      (Scenario.store [] [Scenario.essay (1 # 200) 1; Scenario.quiz 1 5] []))
      !! 0%nat = Some sa
    /\ remainingMinutes sa = 0.
Proof.
  destruct (zero_estimate "u" 0
           (Scenario.store [] [Scenario.essay (1 # 200) 1; Scenario.quiz 1 5] [])
           0%nat (Scenario.essay (1 # 200) 1)) as [H _].
  - by_compute.
  - reflexivity.
  - vm_compute. discriminate.
  - destruct (H 7%nat) as (sa & H1 & _ & H2 & _).
    exists sa. split; [exact H1 | exact H2].
Defined.

(** ** C2: the capacity of a day *)

Lemma planAfterDays_withinCapacity (userId : string) (now : Z) (n : nat)
    (s : Store) :
  withinCapacity (dayDates now) (capacityByDayMinutes userId now s) n
    (planRows (planAfterDays userId now n s)) None.
Proof.
  unfold planAfterDays. apply daysLoop_withinCapacity. apply dayDates_distinct.
Qed.

Lemma planOf_withinCapacity (userId : string) (now : Z) (s : Store) :
  withinCapacity (dayDates now) (capacityByDayMinutes userId now s) 7
    (planRows (planOf userId now s)) None.
Proof. rewrite planOf_eq. apply planAfterDays_withinCapacity. Qed.

Lemma capacity_defined (userId : string) (now : Z) (s : Store) (k : nat) :
  (k < 7)%nat -> exists c, capacityByDayMinutes userId now s !! k = Some c.
Proof. intros Hk. eexists. apply capacity_lookup. split; [exact Hk | reflexivity]. Qed.

(** C2.  With a profile of non-negative hours, the blocks generated for a
    date of the window last together at most round(hoursAvailable x 60)
    minutes, hoursAvailable being the profile entry of the weekday of that
    date, or 2.0 when the profile has none. *)
Theorem capacity_invariant (userId : string) (now : Z) (s : Store) (d : Z) :
  Forall (fun r => (0 <= av_hours_available r)%Q) (availRowsOf userId s) ->
  d ∈ dayDates now ->
  minutesOn d (planRows (planOf userId now s))
  <= Math_round (hoursAvailable (availRowsOf userId s) (weekdayOf d) * 60)%Q.
Proof.
  intros Hav Hd. apply list_elem_of_lookup in Hd. destruct Hd as [k Hk].
  assert (Hk7 : (k < 7)%nat) by (apply dayDates_lookup in Hk; tauto).
  destruct (capacity_defined userId now s k Hk7) as [c Hc].
  destruct (planOf_withinCapacity userId now s k d c Hk Hc) as (Hle & _ & _).
  specialize (Hle Hk7).
  rewrite <- (capacity_of_day userId now s k d c Hk Hc).
  assert (0 <= c).
  { rewrite (capacity_of_day userId now s k d c Hk Hc).
    apply Math_round_nonneg. apply Qmult_le_0_compat; [|discriminate].
    apply hoursAvailable_nonneg. exact Hav. }
  lia.
Qed.

Lemma capacity_invariant_witness :
  minutesOn 2 (planRows (planOf "u" 0
     (Scenario.store (Scenario.everyDay (3 # 4)) [Scenario.essay 6 6] [])))
  <= 45.
Proof.
  apply (capacity_invariant "u" 0
           (Scenario.store (Scenario.everyDay (3 # 4)) [Scenario.essay 6 6] []) 2).
  - vm_compute. repeat constructor; discriminate.
  - apply (list_elem_of_lookup_2 _ 2%nat). reflexivity.
Defined.

(** ** C9: days without capacity *)

Lemma capacity_nonneg (userId : string) (now : Z) (s : Store) :
  Forall (fun r => (0 <= av_hours_available r)%Q) (availRowsOf userId s) ->
  Forall (fun c => 0 <= c) (capacityByDayMinutes userId now s).
Proof.
  intros Hav. apply Forall_forall. intros c Hc.
  apply list_elem_of_lookup in Hc. destruct Hc as [k Hk].
  assert (Hk7 : (k < 7)%nat) by (apply capacity_lookup in Hk; tauto).
  assert (Hd : dayDates now !! k = Some (now / MS_PER_DAY + Z.of_nat k)).
  { apply dayDates_lookup. auto. }
  rewrite (capacity_of_day userId now s k _ c Hd Hk).
  apply Math_round_nonneg. apply Qmult_le_0_compat; [|discriminate].
  apply hoursAvailable_nonneg. exact Hav.
Qed.

Lemma row_day_has_capacity (userId : string) (now : Z) (s : Store) (r : PlanItem) :
  r ∈ planRows (planOf userId now s) ->
  exists k c, dayDates now !! k = Some (plan_date r)
              /\ capacityByDayMinutes userId now s !! k = Some c /\ 0 < c.
Proof.
  intros Hr. pose proof (planOf_rowOK userId now s) as Hok.
  rewrite Forall_forall in Hok.
  destruct (Hok r Hr) as (_ & _ & _ & H & _). exact H.
Qed.

(** C9.  With a profile of non-negative hours: a date whose capacity is
    zero or less gets no block; when the capacities of the seven days add
    up to zero no block is produced at all; and the run never returns the
    warning kept for blocks that exist despite a total capacity of zero. *)
Theorem zero_capacity_safety (userId : string) (now stamp : Z) (s : Store) :
  Forall (fun r => (0 <= av_hours_available r)%Q) (availRowsOf userId s) ->
  (forall d r, d ∈ dayDates now ->
      Math_round (hoursAvailable (availRowsOf userId s) (weekdayOf d) * 60)%Q <= 0 ->
      r ∈ planRows (planOf userId now s) -> plan_date r <> d)
  /\ (totalCapacity userId now s = 0 -> planRows (planOf userId now s) = [])
  /\ warning (snd (generatePlanForUser userId now stamp s))
     <> Some "Overload: availability is 0 for all 7 days.".
Proof.
  intros Hav.
  assert (Hday : forall d r, d ∈ dayDates now ->
      Math_round (hoursAvailable (availRowsOf userId s) (weekdayOf d) * 60)%Q <= 0 ->
      r ∈ planRows (planOf userId now s) -> plan_date r <> d).
  { intros d r Hd Hcap Hr E.
    destruct (row_day_has_capacity userId now s r Hr) as (k & c & Hk & Hc & Hpos).
    rewrite E in Hk.
    rewrite (capacity_of_day userId now s k d c Hk Hc) in Hpos. lia. }
  assert (Htotal : totalCapacity userId now s = 0 ->
                   planRows (planOf userId now s) = []).
  { intros Hsum. unfold totalCapacity in Hsum.
    apply sumZ_zero in Hsum; [|apply capacity_nonneg; exact Hav].
    destruct (planRows (planOf userId now s)) as [|r rows] eqn:E; [reflexivity|].
    destruct (row_day_has_capacity userId now s r) as (k & c & _ & Hc & Hpos).
    { rewrite E. left. }
    rewrite Forall_forall in Hsum.
    assert (c = 0) by (apply Hsum; eapply list_elem_of_lookup_2; exact Hc).
    lia. }
  split; [exact Hday|]. split; [exact Htotal|].
  unfold generatePlanForUser.
  destruct (assessmentsOf userId now s) as [|a0 rest]; [discriminate|].
  destruct (planRows (planOf userId now s)) as [|r rows] eqn:E.
  - simpl. discriminate.
  - cbn [snd warning].
    destruct (0 <? shortfallOf (planOf userId now s)); [simpl; discriminate|].
    destruct (totalCapacity userId now s =? 0) eqn:Ht.
    + apply Z.eqb_eq in Ht. specialize (Htotal Ht). discriminate.
    + rewrite andb_false_r. discriminate.
Qed.

Lemma zero_capacity_safety_witness :
  planRows (planOf "u" 0
     (Scenario.store (Scenario.everyDay 0) [Scenario.essay 2 2] [])) = [].
Proof.
  destruct (zero_capacity_safety "u" 0 5
     (Scenario.store (Scenario.everyDay 0) [Scenario.essay 2 2] []))
    as (_ & H & _).
  - vm_compute. repeat constructor; discriminate.
  - apply H. reflexivity.
Defined.

(** ** C5: the granularity of the blocks *)

Lemma fragmentsOn_length (aid : string) (d : Z) (rows : list PlanItem) :
  length (fragmentsOn aid d rows)
  = length (List.filter isFragment (minutesOf aid d rows)).
Proof.
  unfold fragmentsOn, minutesOf.
  induction rows as [|r rows IH]; [reflexivity|].
  rewrite !filter_cons.
  destruct (decide (assessment_id r = aid /\ plan_date r = d)) as [[E1 E2]|Hne].
  - simpl. destruct (isFragment (minutes r)) eqn:Ef.
    + rewrite decide_True by auto. simpl. rewrite IH. reflexivity.
    + rewrite decide_False by (intros (_ & _ & H); discriminate). exact IH.
  - rewrite decide_False by tauto. exact IH.
Qed.

Lemma planAfterDays_granular (userId : string) (now : Z) (n : nat) (s : Store) :
  NoDup (map as_id (assessmentsOf userId now s)) ->
  granularOut (dayDates now) n (planRows (planAfterDays userId now n s)).
Proof.
  intros Hnd. unfold planAfterDays.
  apply daysLoop_granular; [apply dayDates_distinct|].
  rewrite scoredOf_ids. exact Hnd.
Qed.

(** C5, as the code has it.  Every generated block lasts a positive number
    of minutes, at most one chunk; for every assessment and every date the
    blocks of that assessment on that date are whole chunks except possibly
    the last, so at most one of them is not a multiple of the chunk. *)
Theorem block_granularity (userId : string) (now : Z) (s : Store) :
  NoDup (map as_id (assessmentsOf userId now s)) ->
  (forall r, r ∈ planRows (planOf userId now s) ->
     0 < minutes r <= CHUNK_MINUTES)
  /\ (forall aid d,
        fullButLast (minutesOf aid d (planRows (planOf userId now s))) = true)
  /\ (forall aid d,
        (length (fragmentsOn aid d (planRows (planOf userId now s))) <= 1)%nat).
Proof.
  intros Hnd.
  assert (Hg : granularOut (dayDates now) 7 (planRows (planOf userId now s))).
  { rewrite planOf_eq. apply planAfterDays_granular. exact Hnd. }
  destruct Hg as [Hfull _].
  split; [|split].
  - intros r Hr. pose proof (planOf_rowOK userId now s) as Hok.
    rewrite Forall_forall in Hok. destruct (Hok r Hr) as (_ & _ & Hm & _).
    exact Hm.
  - exact Hfull.
  - intros aid d. rewrite fragmentsOn_length.
    apply fullButLast_fragments. apply Hfull.
Qed.

Lemma block_granularity_witness :
  fullButLast (minutesOf "a1" 0 (planRows (planOf "u" 0
     (Scenario.store (Scenario.everyDay (3 # 4)) [Scenario.essay 2 6] []))))
  = true.
Proof.
  destruct (block_granularity "u" 0
     (Scenario.store (Scenario.everyDay (3 # 4)) [Scenario.essay 2 6] []))
    as (_ & H & _).
  - by_compute.
  - apply H.
Defined.

(** With 45 minutes a day, a two-hour assessment gets a 15-minute block on
    each of the first two days: two blocks that are not multiples of the
    chunk, not one. *)
Lemma block_granularity_counterexample :
  NoDup (map as_id (assessmentsOf "u" 0
     (Scenario.store (Scenario.everyDay (3 # 4)) [Scenario.essay 2 6] [])))
  /\ map (fun r => (plan_date r, minutes r))
       (planRows (planOf "u" 0
          (Scenario.store (Scenario.everyDay (3 # 4)) [Scenario.essay 2 6] [])))
     = [(0, 30); (0, 15); (1, 30); (1, 15); (2, 30)]
  /\ ~ (length (fragmentsOf "a1" (planRows (planOf "u" 0
          (Scenario.store (Scenario.everyDay (3 # 4)) [Scenario.essay 2 6] []))))
        <= 1)%nat.
Proof.
  split; [by_compute|]. split; [vm_compute; reflexivity|].
  vm_compute. intros H. inversion H as [|n H1]. inversion H1.
Qed.

(** ** The store before and after a run *)

Lemma generate_store (userId : string) (now stamp : Z) (s : Store) :
  fst (generatePlanForUser userId now stamp s)
  = match assessmentsOf userId now s with
    | [] => upsertPlanMeta userId 0 stamp s
    | _ :: _ =>
        upsertPlanMeta userId (shortfallOf (planOf userId now s)) stamp
          (insertPlanItems (planRows (planOf userId now s))
             (deletePlanItems userId (dayDates now) s))
    end.
Proof.
  unfold generatePlanForUser.
  destruct (assessmentsOf userId now s); [reflexivity|].
  destruct (planRows (planOf userId now s)); [|reflexivity].
  simpl. unfold upsertPlanMeta, insertPlanItems. simpl.
  rewrite app_nil_r. reflexivity.
Qed.

Lemma generate_inputs (userId : string) (now stamp : Z) (s : Store) :
  availability (fst (generatePlanForUser userId now stamp s)) = availability s
  /\ assessments (fst (generatePlanForUser userId now stamp s)) = assessments s
  /\ courses (fst (generatePlanForUser userId now stamp s)) = courses s.
Proof.
  rewrite generate_store. destruct (assessmentsOf userId now s); auto.
Qed.

(** A run reads the clock only through [today], and the store only through
    the three tables the user fills in. *)
Lemma planning_inputs (userId : string) (now1 now2 : Z) (s1 s2 : Store) :
  today now1 = today now2 ->
  availability s1 = availability s2 ->
  assessments s1 = assessments s2 ->
  courses s1 = courses s2 ->
  dayDates now1 = dayDates now2
  /\ assessmentsOf userId now1 s1 = assessmentsOf userId now2 s2
  /\ planOf userId now1 s1 = planOf userId now2 s2
  /\ totalCapacity userId now1 s1 = totalCapacity userId now2 s2.
Proof.
  intros Ht Hav Has Hco.
  assert (Hdays : days now1 = days now2).
  { unfold days. rewrite Ht. reflexivity. }
  assert (Hdates : dayDates now1 = dayDates now2).
  { unfold dayDates. rewrite Hdays. reflexivity. }
  assert (Hcaps : capacityByDayMinutes userId now1 s1
                  = capacityByDayMinutes userId now2 s2).
  { unfold capacityByDayMinutes, availRowsOf. rewrite Hdays, Hav. reflexivity. }
  assert (Hass : assessmentsOf userId now1 s1 = assessmentsOf userId now2 s2).
  { unfold assessmentsOf, assessmentRowsOf, dueInWindow.
    rewrite Hdates, Has. reflexivity. }
  split; [exact Hdates|]. split; [exact Hass|]. split.
  - rewrite !planOf_eq. generalize 7%nat. intros n.
    unfold planAfterDays, scoredOf, courseRowsOf.
    rewrite Hdates, Hcaps, Hass, Hco, Ht. reflexivity.
  - unfold totalCapacity. rewrite Hcaps. reflexivity.
Qed.

Lemma generate_result (userId : string) (now1 now2 stamp1 stamp2 : Z)
    (s1 s2 : Store) :
  assessmentsOf userId now1 s1 = assessmentsOf userId now2 s2 ->
  planOf userId now1 s1 = planOf userId now2 s2 ->
  totalCapacity userId now1 s1 = totalCapacity userId now2 s2 ->
  snd (generatePlanForUser userId now1 stamp1 s1)
  = snd (generatePlanForUser userId now2 stamp2 s2).
Proof.
  intros Hass Hplan Htot. unfold generatePlanForUser.
  rewrite Hass, Hplan, Htot.
  destruct (assessmentsOf userId now2 s2); [reflexivity|].
  destruct (planRows (planOf userId now2 s2)); reflexivity.
Qed.

Lemma rows_inWindow (userId : string) (now : Z) (s : Store) (r : PlanItem) :
  r ∈ planRows (planOf userId now s) -> inWindow userId (dayDates now) r = true.
Proof.
  intros Hr. pose proof (planOf_rowOK userId now s) as Hok.
  rewrite Forall_forall in Hok.
  destruct (Hok r Hr) as (Hu & _ & _ & (j & c & Hj & _) & _).
  unfold inWindow. apply andb_true_iff. split; apply bool_decide_eq_true.
  - exact Hu.
  - eapply list_elem_of_lookup_2. exact Hj.
Qed.

Lemma filter_all (A : Type) (P : A -> Prop) `{!forall x, Decision (P x)}
    (l : list A) :
  (forall x, x ∈ l -> P x) -> filter P l = l.
Proof.
  induction l as [|x l IH]; intros Hall; [reflexivity|].
  rewrite filter_cons, decide_True by (apply Hall; left).
  f_equal. apply IH. intros y Hy. apply Hall. right. exact Hy.
Qed.

Lemma filter_none (A : Type) (P : A -> Prop) `{!forall x, Decision (P x)}
    (l : list A) :
  (forall x, x ∈ l -> ~ P x) -> filter P l = [].
Proof.
  induction l as [|x l IH]; intros Hall; [reflexivity|].
  rewrite filter_cons, decide_False by (apply Hall; left).
  apply IH. intros y Hy. apply Hall. right. exact Hy.
Qed.

Lemma filter_twice (A : Type) (P : A -> Prop) `{!forall x, Decision (P x)}
    (l : list A) :
  filter P (filter P l) = filter P l.
Proof.
  apply filter_all. intros x Hx. apply list_elem_of_filter in Hx. tauto.
Qed.

Lemma filter_opposite (A : Type) (f : A -> bool) (l : list A) :
  filter (fun x => f x = true) (filter (fun x => f x = false) l) = [].
Proof.
  apply filter_none. intros x Hx. apply list_elem_of_filter in Hx.
  destruct Hx as [Hx _]. congruence.
Qed.

Lemma rows_survive_nothing (userId : string) (now : Z) (s : Store) :
  filter (fun r => inWindow userId (dayDates now) r = false)
         (planRows (planOf userId now s)) = [].
Proof.
  apply filter_none. intros r Hr. rewrite (rows_inWindow userId now s r Hr).
  discriminate.
Qed.

Lemma rows_all_inWindow (userId : string) (now : Z) (s : Store) :
  filter (fun r => inWindow userId (dayDates now) r = true)
         (planRows (planOf userId now s)) = planRows (planOf userId now s).
Proof. apply filter_all. intros r Hr. apply (rows_inWindow userId now s r Hr). Qed.

(** ** C3: what a run leaves in the window *)

(** C3, as the code has it.  A run for which no assessment qualifies
    leaves the stored blocks as they are.  Every other run deletes the
    blocks of the user dated in the window and then inserts the blocks it
    produced, so that afterwards the stored blocks of that user in the
    window are exactly the produced ones. *)
Theorem window_replacement (userId : string) (now stamp : Z) (s : Store) :
  (assessmentsOf userId now s = [] ->
     plan_items (fst (generatePlanForUser userId now stamp s)) = plan_items s)
  /\ (assessmentsOf userId now s <> [] ->
       plan_items (fst (generatePlanForUser userId now stamp s))
       = filter (fun r => inWindow userId (dayDates now) r = false) (plan_items s)
         ++ planRows (planOf userId now s)
       /\ storedInWindow userId (dayDates now)
            (fst (generatePlanForUser userId now stamp s))
          = planRows (planOf userId now s)).
Proof.
  rewrite generate_store. split.
  - intros ->. reflexivity.
  - intros Hne. destruct (assessmentsOf userId now s); [congruence|].
    split; [reflexivity|].
    unfold storedInWindow. simpl.
    rewrite filter_app, filter_opposite, rows_all_inWindow. reflexivity.
Qed.

Lemma window_replacement_witness :
  storedInWindow "u" (dayDates 0)
    (fst (generatePlanForUser "u" 0 5
            (Scenario.store [] [Scenario.essay 1 0] [Scenario.oldBlock 3])))
  = planRows (planOf "u" 0
            (Scenario.store [] [Scenario.essay 1 0] [Scenario.oldBlock 3])).
Proof.
  apply (window_replacement "u" 0 5
           (Scenario.store [] [Scenario.essay 1 0] [Scenario.oldBlock 3])).
  vm_compute. discriminate.
Defined.

(** A block stored for day 3 outlives a run made on day 0 when no
    assessment qualifies: the run produces no block, and the window still
    holds the old one. *)
Lemma window_replacement_counterexample :
  assessmentsOf "u" 0 (Scenario.store [] [] [Scenario.oldBlock 3]) = []
  /\ planRows (planOf "u" 0 (Scenario.store [] [] [Scenario.oldBlock 3])) = []
  /\ storedInWindow "u" (dayDates 0)
       (fst (generatePlanForUser "u" 0 5
               (Scenario.store [] [] [Scenario.oldBlock 3])))
     = [Scenario.oldBlock 3]
  /\ storedInWindow "u" (dayDates 0)
       (fst (generatePlanForUser "u" 0 5
               (Scenario.store [] [] [Scenario.oldBlock 3])))
     <> planRows (planOf "u" 0 (Scenario.store [] [] [Scenario.oldBlock 3])).
Proof.
  split; [reflexivity|]. split; [reflexivity|].
  split; [vm_compute; reflexivity|]. vm_compute. discriminate.
Qed.

(** ** C8: running the generator twice *)

Lemma generate_today (userId : string) (now1 now2 stamp : Z) (s : Store) :
  today now1 = today now2 ->
  generatePlanForUser userId now1 stamp s = generatePlanForUser userId now2 stamp s.
Proof.
  intros Ht.
  destruct (planning_inputs userId now1 now2 s s Ht eq_refl eq_refl eq_refl)
    as (Hd & Ha & Hp & Htot).
  unfold generatePlanForUser. rewrite Hd, Ha, Hp, Htot. reflexivity.
Qed.

Lemma upsert_twice (userId : string) (x1 x2 t1 t2 : Z) (s : Store) :
  upsertPlanMeta userId x2 t2 (upsertPlanMeta userId x1 t1 s)
  = upsertPlanMeta userId x2 t2 s.
Proof.
  unfold upsertPlanMeta. simpl. f_equal. apply insert_insert_eq.
Qed.

Lemma replace_twice (userId : string) (dates : list Z) (rows : list PlanItem)
    (x t : Z) (s : Store) :
  filter (fun r => inWindow userId dates r = false) rows = [] ->
  insertPlanItems rows
    (deletePlanItems userId dates
       (upsertPlanMeta userId x t
          (insertPlanItems rows (deletePlanItems userId dates s))))
  = upsertPlanMeta userId x t
      (insertPlanItems rows (deletePlanItems userId dates s)).
Proof.
  intros Hrows.
  unfold insertPlanItems, deletePlanItems, upsertPlanMeta. simpl. f_equal.
  rewrite filter_app, filter_twice, Hrows, app_nil_r. reflexivity.
Qed.

Lemma run_twice (userId : string) (now stamp1 stamp2 : Z) (s : Store) :
  fst (generatePlanForUser userId now stamp2
         (fst (generatePlanForUser userId now stamp1 s)))
  = fst (generatePlanForUser userId now stamp2 s)
  /\ planOf userId now (fst (generatePlanForUser userId now stamp1 s))
     = planOf userId now s
  /\ snd (generatePlanForUser userId now stamp2
            (fst (generatePlanForUser userId now stamp1 s)))
     = snd (generatePlanForUser userId now stamp1 s).
Proof.
  destruct (generate_inputs userId now stamp1 s) as (Hav & Has & Hco).
  destruct (planning_inputs userId now now
              (fst (generatePlanForUser userId now stamp1 s)) s
              eq_refl Hav Has Hco) as (_ & Ha & Hp & Htot).
  split; [|split].
  - rewrite (generate_store userId now stamp2
               (fst (generatePlanForUser userId now stamp1 s))).
    rewrite Ha, Hp. rewrite !generate_store.
    destruct (assessmentsOf userId now s).
    + apply upsert_twice.
    + rewrite replace_twice by apply rows_survive_nothing.
      apply upsert_twice.
  - exact Hp.
  - apply generate_result; assumption.
Qed.

(** C8.  Two runs in a row on the same day, with nothing changed in
    between: the second run leaves the store as a single run leaves it,
    stores the same blocks as the first, produces the same blocks and
    returns the same result, shortfall included.  The summary carries the
    stamp of the latest run, so the two stores coincide entirely when the
    stamps do. *)
Theorem idempotence (userId : string) (now1 now2 stamp1 stamp2 : Z) (s : Store) :
  today now1 = today now2 ->
  fst (generatePlanForUser userId now2 stamp2
         (fst (generatePlanForUser userId now1 stamp1 s)))
  = fst (generatePlanForUser userId now2 stamp2 s)
  /\ plan_items (fst (generatePlanForUser userId now2 stamp2
                        (fst (generatePlanForUser userId now1 stamp1 s))))
     = plan_items (fst (generatePlanForUser userId now1 stamp1 s))
  /\ planRows (planOf userId now2 (fst (generatePlanForUser userId now1 stamp1 s)))
     = planRows (planOf userId now1 s)
  /\ snd (generatePlanForUser userId now2 stamp2
            (fst (generatePlanForUser userId now1 stamp1 s)))
     = snd (generatePlanForUser userId now1 stamp1 s)
  /\ (stamp1 = stamp2 ->
      fst (generatePlanForUser userId now2 stamp2
             (fst (generatePlanForUser userId now1 stamp1 s)))
      = fst (generatePlanForUser userId now1 stamp1 s)).
Proof.
  intros Ht.
  rewrite (generate_today userId now1 now2 stamp1 s Ht).
  destruct (planning_inputs userId now1 now2 s s Ht eq_refl eq_refl eq_refl)
    as (_ & _ & Hp1 & _).
  rewrite Hp1.
  destruct (run_twice userId now2 stamp1 stamp2 s) as (Hst & Hp & Hres).
  split; [exact Hst|]. split; [|split; [|split]].
  - rewrite Hst, !generate_store.
    destruct (assessmentsOf userId now2 s); reflexivity.
  - rewrite Hp. reflexivity.
  - exact Hres.
  - intros <-. rewrite Hst. reflexivity.
Qed.

Lemma idempotence_witness :
  snd (generatePlanForUser "u" 86400001 7
         (fst (generatePlanForUser "u" 86400000 5
                 (Scenario.store [] [Scenario.essay 4 3] [Scenario.oldBlock 2]))))
  = snd (generatePlanForUser "u" 86400000 5
           (Scenario.store [] [Scenario.essay 4 3] [Scenario.oldBlock 2])).
Proof.
  apply (idempotence "u" 86400000 86400001 5 7
           (Scenario.store [] [Scenario.essay 4 3] [Scenario.oldBlock 2])).
  reflexivity.
Defined.

(** ** C4: the result of a run that schedules nothing *)

(** When assessments qualify and no block is produced, the run stores the
    shortfall, counts no block, says that no time is available, and always
    fills in the warning with the shortfall. *)
Lemma zero_block_shape (userId : string) (now stamp : Z) (s : Store) :
  assessmentsOf userId now s <> [] ->
  planRows (planOf userId now s) = [] ->
  plan_meta (fst (generatePlanForUser userId now stamp s)) !! userId
  = Some {| shortfall_minutes := shortfallOf (planOf userId now s);
            updated_at := stamp |}
  /\ snd (generatePlanForUser userId now stamp s)
     = {| planRowsCount := 0;
          shortfallMinutes := shortfallOf (planOf userId now s);
          message := Some "No time available in the next 7 days to schedule tasks.";
          warning :=
            Some ("Overload shortfall: "
                  +:+ minutesToShortfall (shortfallOf (planOf userId now s))
                  +:+ ".") |}.
Proof.
  intros Hne Hrows. unfold generatePlanForUser.
  destruct (assessmentsOf userId now s); [congruence|].
  rewrite Hrows. simpl. split.
  - apply lookup_insert_eq.
  - destruct (shortfallOf (planOf userId now s) =? 0) eqn:E; [|reflexivity].
    apply Z.eqb_eq in E. rewrite E. reflexivity.
Qed.

(** C4, at an input where it fails.  One assessment, due tomorrow, whose
    estimate of 0.005 hours rounds to no minutes: it qualifies, no block is
    produced, the shortfall is 0, and the warning is a string, not null. *)
Theorem zero_block_warning_at_zero_shortfall :
  assessmentsOf "u" 0 (Scenario.store [] [Scenario.essay (1 # 200) 1] [])
  = [Scenario.essay (1 # 200) 1]
  /\ planRows (planOf "u" 0 (Scenario.store [] [Scenario.essay (1 # 200) 1] []))
     = []
  /\ snd (generatePlanForUser "u" 0 5
            (Scenario.store [] [Scenario.essay (1 # 200) 1] []))
     = {| planRowsCount := 0; shortfallMinutes := 0;
          message := Some "No time available in the next 7 days to schedule tasks.";
          warning := Some "Overload shortfall: 0 minutes." |}.
Proof.
  split; [reflexivity|]. split; [reflexivity|]. vm_compute. reflexivity.
Qed.

(** ** C6: the order in which the candidates of a day are served *)

Section Sorting.

Variable sc : list Scored.

Lemma insertByScore_perm (x : nat) (l : list nat) :
  insertByScore sc x l ≡ₚ x :: l.
Proof.
  induction l as [|y l IH]; simpl; [reflexivity|].
  destruct (Qle_bool _ _); [reflexivity|].
  rewrite IH. apply Permutation_swap.
Qed.

Lemma sortByScore_perm (l : list nat) : sortByScore sc l ≡ₚ l.
Proof.
  induction l as [|x l IH]; simpl; [reflexivity|].
  rewrite insertByScore_perm, IH. reflexivity.
Qed.

Lemma insertByScore_sorted (x : nat) (l : list nat) :
  StronglySorted (byScore sc) l ->
  StronglySorted (byScore sc) (insertByScore sc x l).
Proof.
  induction l as [|y l IH]; intros Hs; simpl.
  - repeat constructor.
  - apply StronglySorted_cons in Hs. destruct Hs as [Hy Hl].
    destruct (Qle_bool (scoreAt sc y) (scoreAt sc x)) eqn:E.
    + apply Qle_bool_iff in E.
      apply StronglySorted_cons. split.
      * constructor; [exact E|].
        eapply Forall_impl; [exact Hy|]. intros z Hz. unfold byScore in *.
        eapply Qle_trans; eauto.
      * apply StronglySorted_cons. auto.
    + assert (Hxy : (scoreAt sc x <= scoreAt sc y)%Q).
      { apply Qlt_le_weak. apply Qnot_le_lt. intros H.
        apply Qle_bool_iff in H. congruence. }
      apply StronglySorted_cons. split; [|apply IH; exact Hl].
      apply Forall_forall. intros z Hz.
      apply elem_of_insertByScore in Hz. destruct Hz as [->|Hz].
      * exact Hxy.
      * rewrite Forall_forall in Hy. apply Hy. exact Hz.
Qed.

Lemma sortByScore_sorted (l : list nat) :
  StronglySorted (byScore sc) (sortByScore sc l).
Proof.
  induction l as [|x l IH]; simpl; [constructor|].
  apply insertByScore_sorted. exact IH.
Qed.

End Sorting.

Lemma filterPositions_NoDup (d : Z) (sc : list Scored) (k : nat) :
  NoDup (filterPositions d sc k).
Proof.
  revert k. induction sc as [|a sc IH]; intros k; simpl; [constructor|].
  destruct (isCandidate d a); [|apply IH].
  apply NoDup_cons. split; [|apply IH].
  intros H. apply elem_of_filterPositions in H.
  destruct H as (_ & Hk & _). lia.
Qed.

Lemma candidatesOf_NoDup (d : Z) (sc : list Scored) : NoDup (candidatesOf d sc).
Proof.
  unfold candidatesOf. rewrite sortByScore_perm. apply filterPositions_NoDup.
Qed.

(** The candidate with the strictly higher score stands in front. *)
Lemma candidatesOf_order (d : Z) (sc : list Scored) (i j : nat) (a b : Scored) :
  sc !! i = Some a -> sc !! j = Some b ->
  isCandidate d a = true -> isCandidate d b = true ->
  (score b < score a)%Q ->
  exists l1 l2, candidatesOf d sc = l1 ++ i :: l2 /\ j ∈ l2.
Proof.
  intros Ha Hb Hca Hcb Hlt.
  assert (Hi : i ∈ candidatesOf d sc) by (apply elem_of_candidatesOf; eauto).
  assert (Hj : j ∈ candidatesOf d sc) by (apply elem_of_candidatesOf; eauto).
  destruct (list_elem_of_split _ _ Hi) as (l1 & l2 & E).
  exists l1, l2. split; [exact E|].
  rewrite E in Hj. apply elem_of_app in Hj. destruct Hj as [Hj|Hj].
  - exfalso.
    assert (Hs : StronglySorted (byScore sc) (l1 ++ i :: l2)).
    { rewrite <- E. apply sortByScore_sorted. }
    assert (R : byScore sc j i).
    { eapply StronglySorted_app_1_elem_of; [exact Hs | exact Hj | left]. }
    unfold byScore, scoreAt in R. rewrite Ha, Hb in R.
    exact (Qlt_not_le _ _ Hlt R).
  - apply elem_of_cons in Hj. destruct Hj as [->|Hj]; [|exact Hj].
    exfalso. assert (a = b) by congruence. subst b.
    exact (Qlt_irrefl _ Hlt).
Qed.

Lemma frame_idOf (sc sc' : list Scored) (p : nat) (a' : Scored) :
  frame sc sc' -> sc' !! p = Some a' ->
  exists a, sc !! p = Some a /\ idOf a = idOf a'.
Proof.
  intros Hf Hp.
  destruct (frame_lookup _ _ _ _ (frame_sym _ _ Hf) Hp) as (a & Ha & E).
  exists a. split; [exact Ha|]. unfold idOf.
  rewrite (static_sc_a _ _ E). reflexivity.
Qed.

Section Served.

Variable userId : string.
Variable titles : gmap string string.

Lemma forCandidates_stop (d : Z) (l : list nat) (st : LoopState) :
  remainingCapacity st <= 0 -> forCandidates userId titles d l st = st.
Proof.
  intros H. destruct l as [|i l]; simpl; [reflexivity|].
  destruct (remainingCapacity st <=? 0) eqn:E; [reflexivity|].
  apply Z.leb_gt in E. lia.
Qed.

Lemma forCandidates_app (d : Z) (l1 l2 : list nat) (st : LoopState) :
  forCandidates userId titles d (l1 ++ l2) st
  = forCandidates userId titles d l2 (forCandidates userId titles d l1 st).
Proof.
  revert st. induction l1 as [|i l1 IH]; intros st; simpl; [reflexivity|].
  destruct (remainingCapacity st <=? 0) eqn:E; [|apply IH].
  symmetry. apply forCandidates_stop. apply Z.leb_le. exact E.
Qed.

Lemma forCandidates_served (d : Z) (l : list nat) (s : LoopState) :
  exists new, served l s (forCandidates userId titles d l s) new.
Proof.
  apply (forCandidates_rule userId titles (fun s' => exists new, served l s s' new)).
  - intros i s1 s2 Hi (new & Hrows & Hnew & Hf & Hout & Hcap)
           [a m Ha Hm0 _ _ _ _ ->].
    exists (new ++ [mkRow userId titles d a m]). split; [|split; [|split; [|split]]].
    + simpl. rewrite Hrows, app_assoc. reflexivity.
    + apply Forall_app. split; [exact Hnew|]. constructor; [|constructor].
      destruct (frame_idOf _ _ _ _ Hf Ha) as (a0 & Ha0 & E).
      exists i, a0. simpl. auto.
    + eapply frame_trans; [exact Hf|]. simpl. apply frame_insert. exact Ha.
    + intros p Hp. simpl. rewrite list_lookup_insert_ne; [apply Hout; exact Hp|].
      intros ->. contradiction.
    + simpl. lia.
  - exists []. split; [|split; [|split; [|split]]].
    + rewrite app_nil_r. reflexivity.
    + constructor.
    + apply frame_refl.
    + reflexivity.
    + lia.
Qed.

(** Rows pushed for the candidates of [l] do not reference an
    assessment that stands outside [l]. *)
Lemma served_other (sc : list Scored) (l : list nat) (s s' : LoopState)
    (new : list PlanItem) (q : nat) (x : Scored) :
  NoDup (map idOf sc) -> frame sc (scored s) ->
  served l s s' new -> sc !! q = Some x -> q ∉ l ->
  Forall (fun r => assessment_id r <> idOf x) new.
Proof.
  intros Hnd Hf (_ & Hnew & _) Hq Hout.
  eapply Forall_impl; [exact Hnew|].
  intros r (p & a & Hp & Ha & Hid) E.
  destruct (frame_idOf _ _ _ _ Hf Ha) as (a0 & Ha0 & E0).
  assert (p = q).
  { apply (distinct_ids_lookup sc p q a0 x Hnd Ha0 Hq). congruence. }
  subst p. contradiction.
Qed.

(** The walk over a single candidate: its counter stays non-negative,
    loses what the day's capacity loses, and the walk ends with the
    counter or the capacity at zero. *)
Lemma single_candidate (d : Z) (i : nat) (s : LoopState) (a : Scored) :
  scored s !! i = Some a -> 0 <= remainingMinutes a ->
  exists a',
    scored (forCandidates userId titles d [i] s) !! i = Some a'
    /\ 0 <= remainingMinutes a'
    /\ (0 < remainingCapacity s ->
        remainingMinutes a'
        - remainingCapacity (forCandidates userId titles d [i] s)
        = remainingMinutes a - remainingCapacity s
        /\ (remainingMinutes a' <= 0
            \/ remainingCapacity (forCandidates userId titles d [i] s) <= 0)).
Proof.
  intros Ha Hpos. simpl.
  destruct (remainingCapacity s <=? 0) eqn:E.
  { apply Z.leb_le in E. exists a. split; [exact Ha|].
    split; [exact Hpos|]. intros H. lia. }
  assert (H : exists a',
    scored (whileLoop userId titles (fuelFor i s) d i s) !! i = Some a'
    /\ 0 <= remainingMinutes a'
    /\ remainingMinutes a'
       - remainingCapacity (whileLoop userId titles (fuelFor i s) d i s)
       = remainingMinutes a - remainingCapacity s).
  { apply (whileLoop_rule userId titles
             (fun s' => exists a', scored s' !! i = Some a'
                /\ 0 <= remainingMinutes a'
                /\ remainingMinutes a' - remainingCapacity s'
                   = remainingMinutes a - remainingCapacity s)).
    - intros s1 s2 (a1 & Ha1 & Hp1 & Hd1) [a2 m Ha2 Hm0 _ Hma _ _ ->].
      assert (a2 = a1) by congruence. subst a2.
      eexists. split; [apply afterTurn_lookup; exact Ha1|].
      simpl. split; lia.
    - exists a. split; [exact Ha|]. split; [exact Hpos | reflexivity]. }
  destruct H as (a' & Ha' & Hp' & Hd'). exists a'.
  split; [exact Ha'|]. split; [exact Hp'|]. intros _. split; [exact Hd'|].
  eapply whileBody_None; [|exact Ha'].
  apply whileLoop_exit. apply Nat.le_refl.
Qed.

End Served.

Lemma planAfterDays_S (userId : string) (now : Z) (n : nat) (s : Store) :
  planAfterDays userId now (S n) s
  = dayBody userId (courseTitleById (courseRowsOf userId s)) (dayDates now)
      (capacityByDayMinutes userId now s) (planAfterDays userId now n s) n.
Proof.
  unfold planAfterDays, daysLoop. rewrite seq_S, foldl_app. reflexivity.
Qed.

Lemma score_formula (userId : string) (now : Z) (n : nat) (s : Store)
    (i : nat) (sa : Scored) :
  scored (planAfterDays userId now n s) !! i = Some sa ->
  score sa = scoreFormula sa.
Proof.
  intros Hsa.
  destruct (frame_lookup _ _ _ _
              (frame_sym _ _ (planAfterDays_frame userId now n s)) Hsa)
    as (a0 & Ha0 & E).
  rewrite scoredOf_lookup in Ha0.
  destruct (assessmentsOf userId now s !! i) as [a|]; [|discriminate].
  injection Ha0 as <-. unfold static, setRemaining in E.
  injection E as _ Ed El Es. unfold scoreFormula.
  rewrite Ed, El, Es. reflexivity.
Qed.


(** * Further properties of the generator *)

(** ** The minutes of a whole run *)

Lemma sumZ_insert_remaining (sc : list Scored) (i : nat) (a : Scored) (r : Z) :
  sc !! i = Some a ->
  sumZ (map remainingMinutes (<[i := setRemaining a r]> sc))
  = sumZ (map remainingMinutes sc) - remainingMinutes a + r.
Proof.
  revert i. induction sc as [|b sc IH]; intros i Hi; [discriminate|].
  destruct i as [|i]; simpl in Hi.
  - injection Hi as ->. simpl. rewrite !sumZ_cons. simpl. lia.
  - simpl. rewrite !sumZ_cons, (IH i Hi). lia.
Qed.

Lemma totalMinutes_snoc (rows : list PlanItem) (r : PlanItem) :
  totalMinutes (rows ++ [r]) = totalMinutes rows + minutes r.
Proof.
  unfold totalMinutes. rewrite map_app, sumZ_app. simpl.
  rewrite sumZ_cons, sumZ_nil. lia.
Qed.

Lemma totalMinutes_app (rows new : list PlanItem) :
  totalMinutes (rows ++ new) = totalMinutes rows + totalMinutes new.
Proof. unfold totalMinutes. rewrite map_app, sumZ_app. reflexivity. Qed.

Lemma daysLoop_balanced (userId : string) (titles : gmap string string)
    (dates caps : list Z) (sc0 : list Scored) (n : nat) :
  Forall (fun a => 0 <= remainingMinutes a) sc0 ->
  balanced sc0 (scored (daysLoop userId titles dates caps n sc0))
           (planRows (daysLoop userId titles dates caps n sc0)).
Proof.
  intros Hnn.
  apply (daysLoop_out userId titles dates caps sc0
           (fun _ sc rows => balanced sc0 sc rows)
           (fun _ st => balanced sc0 (scored st) (planRows st))).
  - intros k d c sc rows _ _ _ _ H. exact H.
  - intros k d c i a m st _ _ _ _ [Hpos Hsum] Ha _ Hm0 _ Hma _ _.
    split.
    + simpl. apply Forall_insert; [exact Hpos|]. simpl. lia.
    + simpl scored. simpl planRows.
      rewrite totalMinutes_snoc, (sumZ_insert_remaining _ _ _ _ Ha). simpl. lia.
  - intros k d c st _ _ _ _ H. exact H.
  - intros k sc rows _ H _. exact H.
  - split; [exact Hnn|]. unfold totalMinutes. simpl. rewrite sumZ_nil. lia.
Qed.

Lemma planAfterDays_balanced (userId : string) (now : Z) (n : nat) (s : Store) :
  balanced (scoredOf userId now s)
           (scored (planAfterDays userId now n s))
           (planRows (planAfterDays userId now n s)).
Proof. unfold planAfterDays. apply daysLoop_balanced. apply scoredOf_nonneg. Qed.

Lemma scoredOf_work (userId : string) (now : Z) (s : Store) :
  sumZ (map remainingMinutes (scoredOf userId now s))
  = totalWork (assessmentsOf userId now s).
Proof. unfold scoredOf, totalWork. rewrite map_map. reflexivity. Qed.

Lemma totalMinutes_nonneg (rows : list PlanItem) :
  Forall (fun r => 0 < minutes r) rows -> 0 <= totalMinutes rows.
Proof.
  intros H. unfold totalMinutes. apply sumZ_nonneg.
  induction H as [|r rows Hr _ IH]; constructor; [lia | exact IH].
Qed.

Lemma planAfterDays_positive (userId : string) (now : Z) (n : nat) (s : Store) :
  Forall (fun r => 0 < minutes r) (planRows (planAfterDays userId now n s)).
Proof.
  eapply Forall_impl; [apply planAfterDays_rowOK|].
  intros r (_ & _ & Hm & _). lia.
Qed.

Lemma generate_result_shortfall (userId : string) (now stamp : Z) (s : Store) :
  shortfallMinutes (snd (generatePlanForUser userId now stamp s))
  = match assessmentsOf userId now s with
    | [] => 0
    | _ :: _ => shortfallOf (planOf userId now s)
    end.
Proof.
  unfold generatePlanForUser.
  destruct (assessmentsOf userId now s); [reflexivity|].
  destruct (planRows (planOf userId now s)); reflexivity.
Qed.

(** X1.  Over a whole run no minute is lost, whatever the identifiers: the
    minutes of all generated blocks plus the returned shortfall are the
    minutes the eligible assessments ask for. *)
Theorem total_conservation (userId : string) (now stamp : Z) (s : Store) :
  totalMinutes (planRows (planOf userId now s))
  + shortfallMinutes (snd (generatePlanForUser userId now stamp s))
  = totalWork (assessmentsOf userId now s).
Proof.
  rewrite generate_result_shortfall, planOf_eq. generalize 7%nat. intros n.
  destruct (planAfterDays_balanced userId now n s) as [Hpos Hsum].
  rewrite scoredOf_work in Hsum.
  pose proof (totalMinutes_nonneg _ (planAfterDays_positive userId now n s)) as Hrows.
  assert (Hrem : 0 <= sumZ (map remainingMinutes
                              (scored (planAfterDays userId now n s)))).
  { apply sumZ_nonneg. apply Forall_fmap. exact Hpos. }
  destruct (assessmentsOf userId now s) as [|a rest] eqn:E.
  - unfold totalWork in *. simpl in *. rewrite sumZ_nil in *. lia.
  - rewrite <- Hsum. f_equal. apply shortfallOf_sum. exact Hpos.
Qed.

(** ** A day is filled before work is left over *)

Lemma shrinks_refl (sc : list Scored) : shrinks sc sc.
Proof.
  split; [apply frame_refl|]. intros i a a' Ha Ha'.
  assert (a' = a) by congruence. subst a'. lia.
Qed.

Lemma shrinks_trans (sc1 sc2 sc3 : list Scored) :
  shrinks sc1 sc2 -> shrinks sc2 sc3 -> shrinks sc1 sc3.
Proof.
  intros [F1 H1] [F2 H2]. split; [eapply frame_trans; eauto|].
  intros i a a' Ha Ha'.
  destruct (frame_lookup _ _ _ _ F1 Ha) as (b & Hb & _).
  specialize (H1 i a b Ha Hb). specialize (H2 i b a' Hb Ha'). lia.
Qed.

Lemma shrinks_turn (userId : string) (titles : gmap string string) (d : Z)
    (i : nat) (a : Scored) (m : Z) (st : LoopState) :
  scored st !! i = Some a -> 0 < m ->
  shrinks (scored st) (scored (afterTurn userId titles d i a m st)).
Proof.
  intros Ha Hm. split; [simpl; apply frame_insert; exact Ha|].
  intros j b b' Hb Hb'. simpl in Hb'.
  destruct (decide (i = j)) as [<-|Hne].
  - rewrite list_lookup_insert_eq in Hb' by (eapply lookup_lt_Some; eauto).
    injection Hb' as <-. assert (b = a) by congruence. subst b. simpl. lia.
  - rewrite list_lookup_insert_ne in Hb' by exact Hne.
    assert (b' = b) by congruence. subst b'. lia.
Qed.

Lemma minutesOn_app (d : Z) (rows new : list PlanItem) :
  minutesOn d (rows ++ new) = minutesOn d rows + minutesOn d new.
Proof. unfold minutesOn. rewrite filter_app, map_app, sumZ_app. reflexivity. Qed.

Lemma minutesOn_same_day (d : Z) (rows : list PlanItem) :
  Forall (fun r => plan_date r = d) rows -> minutesOn d rows = totalMinutes rows.
Proof.
  intros H. unfold minutesOn, totalMinutes. f_equal. f_equal.
  apply filter_all. apply Forall_forall. exact H.
Qed.

Lemma minutesOn_other_day (d d' : Z) (rows : list PlanItem) :
  Forall (fun r => plan_date r = d') rows -> d <> d' -> minutesOn d rows = 0.
Proof.
  intros H Hne. unfold minutesOn.
  rewrite filter_none; [apply sumZ_nil|].
  rewrite Forall_forall in H. intros r Hr E. apply Hne.
  rewrite <- E. apply H. exact Hr.
Qed.

(** What a walk over candidates does to the day: the rows it pushes are
    dated on it and take their minutes from its capacity, which stays
    non-negative. *)
Lemma forCandidates_account (userId : string) (titles : gmap string string)
    (d : Z) (l : list nat) (s : LoopState) :
  exists new,
    planRows (forCandidates userId titles d l s) = planRows s ++ new
    /\ Forall (fun r => plan_date r = d) new
    /\ totalMinutes new + remainingCapacity (forCandidates userId titles d l s)
       = remainingCapacity s
    /\ (0 <= remainingCapacity s ->
        0 <= remainingCapacity (forCandidates userId titles d l s))
    /\ shrinks (scored s) (scored (forCandidates userId titles d l s)).
Proof.
  apply (forCandidates_rule userId titles
           (fun s' => exists new,
              planRows s' = planRows s ++ new
              /\ Forall (fun r => plan_date r = d) new
              /\ totalMinutes new + remainingCapacity s' = remainingCapacity s
              /\ (0 <= remainingCapacity s -> 0 <= remainingCapacity s')
              /\ shrinks (scored s) (scored s'))).
  - intros i s1 s2 _ (new & Hrows & Hdate & Hsum & Hpos & Hsh)
           [a m Ha Hm0 _ _ Hmc _ ->].
    exists (new ++ [mkRow userId titles d a m]).
    split; [|split; [|split; [|split]]].
    + simpl. rewrite Hrows, app_assoc. reflexivity.
    + apply Forall_app. split; [exact Hdate|]. constructor; [reflexivity|constructor].
    + rewrite totalMinutes_snoc. simpl. lia.
    + intros H0. specialize (Hpos H0). simpl. lia.
    + eapply shrinks_trans; [exact Hsh|]. apply shrinks_turn; assumption.
  - exists []. split; [rewrite app_nil_r; reflexivity|].
    split; [constructor|]. split; [unfold totalMinutes; simpl; rewrite sumZ_nil; lia|].
    split; [auto|]. apply shrinks_refl.
Qed.

(** A walk over candidates ends with the day's capacity used up or with
    no minute left in any of them. *)
Lemma forCandidates_exhausts (userId : string) (titles : gmap string string)
    (d : Z) (l : list nat) (s : LoopState) :
  remainingCapacity (forCandidates userId titles d l s) <= 0
  \/ forall i a', i ∈ l ->
       scored (forCandidates userId titles d l s) !! i = Some a' ->
       remainingMinutes a' <= 0.
Proof.
  revert s. induction l as [|i rest IH]; intros s.
  - right. intros i a' Hi. apply elem_of_nil in Hi. contradiction.
  - simpl. destruct (remainingCapacity s <=? 0) eqn:E.
    { left. apply Z.leb_le. exact E. }
    set (s1 := whileLoop userId titles (fuelFor i s) d i s).
    destruct (IH s1) as [Hcap|Hall]; [left; exact Hcap|].
    destruct (Z.le_gt_cases (remainingCapacity s1) 0) as [H1|H1].
    { left. rewrite forCandidates_stop by exact H1. exact H1. }
    right. intros j a' Hj Ha'.
    apply elem_of_cons in Hj. destruct Hj as [->|Hj]; [|apply (Hall j a' Hj Ha')].
    destruct (forCandidates_account userId titles d rest s1)
      as (_ & _ & _ & _ & _ & Hsh).
    destruct Hsh as [Hf Hle].
    destruct (frame_lookup _ _ _ _ (frame_sym _ _ Hf) Ha') as (a1 & Ha1 & _).
    specialize (Hle i a1 a' Ha1 Ha').
    assert (Hexit : whileBody userId titles d i s1 = None).
    { apply whileLoop_exit. apply Nat.le_refl. }
    destruct (whileBody_None userId titles d i s1 a1 Hexit Ha1); lia.
Qed.

(** ** C6: the higher score is served first *)

(** A candidate that outscores every other one stands first. *)
Lemma candidatesOf_top (d : Z) (sc : list Scored) (i : nat) (a : Scored)
    (l1 l2 : list nat) :
  sc !! i = Some a ->
  candidatesOf d sc = l1 ++ i :: l2 ->
  (forall p x, sc !! p = Some x -> p <> i -> isCandidate d x = true ->
     (score x < score a)%Q) ->
  l1 = [].
Proof.
  intros Ha E Htop. destruct l1 as [|p l1]; [reflexivity|]. exfalso.
  assert (Hp : p ∈ candidatesOf d sc) by (rewrite E; left).
  apply elem_of_candidatesOf in Hp. destruct Hp as (x & Hx & Hcx).
  assert (Hs : StronglySorted (byScore sc) ((p :: l1) ++ i :: l2)).
  { rewrite <- E. apply sortByScore_sorted. }
  assert (R : byScore sc p i).
  { eapply StronglySorted_app_1_elem_of; [exact Hs | left | left]. }
  assert (Hne : p <> i).
  { intros ->. pose proof (candidatesOf_NoDup d sc) as Hnd. rewrite E in Hnd.
    apply NoDup_app in Hnd. destruct Hnd as (_ & Hsep & _).
    apply (Hsep i); left. }
  unfold byScore, scoreAt in R. rewrite Ha, Hx in R.
  exact (Qlt_not_le _ _ (Htop p x Hx Hne Hcx) R).
Qed.

(** The rows a walk has pushed, with what they took from the capacity. *)
Lemma forCandidates_taken (userId : string) (titles : gmap string string)
    (d : Z) (l : list nat) (s : LoopState) (new : list PlanItem) :
  planRows (forCandidates userId titles d l s) = planRows s ++ new ->
  Forall (fun r => plan_date r = d) new
  /\ totalMinutes new + remainingCapacity (forCandidates userId titles d l s)
     = remainingCapacity s
  /\ (0 <= remainingCapacity s ->
      0 <= remainingCapacity (forCandidates userId titles d l s)).
Proof.
  intros Hrows.
  destruct (forCandidates_account userId titles d l s)
    as (new' & Hrows' & Hdate & Hsum & Hpos & _).
  rewrite Hrows in Hrows'. apply app_inv_head in Hrows'. subst new'. auto.
Qed.

(** The rows a walk over the one candidate [i] has pushed are rows of the
    object at [i]. *)
Lemma served_mine (sc : list Scored) (i : nat) (a : Scored) (s s' : LoopState)
    (new : list PlanItem) :
  served [i] s s' new -> scored s !! i = Some a ->
  Forall (fun r => assessment_id r = idOf a) new.
Proof.
  intros (_ & Hnew & _) Ha. eapply Forall_impl; [exact Hnew|].
  intros r (p & x & Hp & Hx & Hid).
  apply list_elem_of_singleton in Hp. subst p. congruence.
Qed.

Lemma dayBody_priority (userId : string) (titles : gmap string string)
    (dates caps : list Z) (st : LoopState) (k : nat) (d c : Z)
    (i j : nat) (a b : Scored) :
  NoDup (map idOf (scored st)) ->
  dates !! k = Some d -> caps !! k = Some c -> 0 < c ->
  scored st !! i = Some a -> scored st !! j = Some b ->
  isCandidate d a = true -> isCandidate d b = true ->
  (score b < score a)%Q ->
  exists before mine after a',
    planRows (dayBody userId titles dates caps st k)
    = planRows st ++ before ++ mine ++ after
    /\ scored (dayBody userId titles dates caps st k) !! i = Some a'
    /\ Forall (fun r => assessment_id r <> idOf a
                        /\ assessment_id r <> idOf b) before
    /\ Forall (fun r => assessment_id r = idOf a /\ assessment_id r <> idOf b
                        /\ plan_date r = d) mine
    /\ Forall (fun r => assessment_id r <> idOf a) after
    /\ 0 <= totalMinutes before <= c
    /\ totalMinutes mine
       = Z.min (remainingMinutes a) (c - totalMinutes before)
    /\ remainingMinutes a' = remainingMinutes a - totalMinutes mine
    /\ (after <> [] -> remainingMinutes a' = 0)
    /\ (c <= remainingMinutes a -> after = [])
    /\ ((forall p x, scored st !! p = Some x -> p <> i ->
           isCandidate d x = true -> (score x < score a)%Q) ->
        before = []).
Proof.
  intros Hnd Hd Hc Hc0 Ha Hb Hca Hcb Hlt.
  unfold dayBody. rewrite Hc, Hd.
  destruct (c <=? 0) eqn:E; [apply Z.leb_le in E; lia|]. clear E.
  destruct (candidatesOf_order d (scored st) i j a b Ha Hb Hca Hcb Hlt)
    as (l1 & l2 & Hcands & Hj2).
  pose proof (candidatesOf_NoDup d (scored st)) as Hnd'.
  pose proof (candidatesOf_top d (scored st) i a l1 l2 Ha Hcands) as Htop.
  rewrite Hcands in Hnd'. rewrite Hcands.
  apply NoDup_app in Hnd'. destruct Hnd' as (_ & Hsep & Hnd2).
  apply NoDup_cons in Hnd2. destruct Hnd2 as [Hi2 _].
  assert (Hi1 : i ∉ l1) by (intros H; apply (Hsep i H); left).
  assert (Hj1 : j ∉ l1) by (intros H; apply (Hsep j H); right; exact Hj2).
  assert (Hji : j ∉ [i]).
  { rewrite list_elem_of_singleton. intros ->. contradiction. }
  set (st0 := {| scored := scored st; planRows := planRows st;
                 remainingCapacity := c |}).
  change (l1 ++ i :: l2) with (l1 ++ [i] ++ l2).
  rewrite !forCandidates_app.
  set (s1 := forCandidates userId titles d l1 st0).
  set (s2 := forCandidates userId titles d [i] s1).
  set (s3 := forCandidates userId titles d l2 s2).
  destruct (forCandidates_served userId titles d l1 st0) as (new1 & S1).
  destruct (forCandidates_served userId titles d [i] s1) as (new2 & S2).
  destruct (forCandidates_served userId titles d l2 s2) as (new3 & S3).
  fold s1 in S1, S2. fold s2 in S2, S3. fold s3 in S3.
  assert (F1 : frame (scored st) (scored s1)) by apply S1.
  assert (F2 : frame (scored st) (scored s2)).
  { eapply frame_trans; [exact F1 | apply S2]. }
  assert (Ha1 : scored s1 !! i = Some a).
  { destruct S1 as (_ & _ & _ & Hout & _). rewrite (Hout i Hi1). exact Ha. }
  assert (Hrem : 0 < remainingMinutes a).
  { unfold isCandidate in Hca. apply andb_true_iff in Hca.
    destruct Hca as [Hr _]. apply Z.ltb_lt in Hr. exact Hr. }
  destruct (single_candidate userId titles d i s1 a Ha1 ltac:(lia))
    as (a2 & Ha2 & Hpos2 & Hexit).
  fold s2 in Ha2, Hexit.
  destruct (forCandidates_taken userId titles d l1 st0 new1 (proj1 S1))
    as (_ & T1 & P1).
  destruct (forCandidates_taken userId titles d [i] s1 new2 (proj1 S2))
    as (D2 & T2 & P2).
  fold s1 in T1, P1, T2, P2. fold s2 in T2, P2.
  change (remainingCapacity st0) with c in T1, P1.
  specialize (P1 ltac:(lia)). specialize (P2 P1).
  assert (Hcap1 : remainingCapacity s1 <= c) by apply S1.
  assert (Hmine : remainingMinutes a2 = remainingMinutes a - totalMinutes new2
                  /\ (remainingMinutes a2 <= 0 \/ remainingCapacity s2 <= 0)).
  { destruct (Z.lt_ge_cases 0 (remainingCapacity s1)) as [H|H].
    - destruct (Hexit H) as [Hdiff Hor]. split; [lia | exact Hor].
    - assert (Hsame : s2 = s1) by (apply forCandidates_stop; exact H).
      rewrite Hsame in Ha2, T2. rewrite Ha1 in Ha2. injection Ha2 as <-.
      split; [lia|]. right. rewrite Hsame. exact H. }
  destruct Hmine as [Hmine Hor].
  assert (Hback : new3 <> [] -> 0 < remainingCapacity s2).
  { intros Hne. destruct (Z.lt_ge_cases 0 (remainingCapacity s2)) as [H|H];
      [exact H|]. exfalso. apply Hne.
    destruct S3 as (Hrows & _). unfold s3 in Hrows.
    rewrite forCandidates_stop in Hrows by exact H.
    rewrite <- (app_nil_r (planRows s2)) in Hrows at 1.
    apply app_inv_head in Hrows. congruence. }
  exists new1, new2, new3, a2.
  split; [|split; [|split; [|split; [|split; [|split; [|split;
    [|split; [|split; [|split]]]]]]]]].
  - destruct S1 as (R1 & _), S2 as (R2 & _), S3 as (R3 & _).
    rewrite R3, R2, R1. simpl. rewrite <- !app_assoc. reflexivity.
  - destruct S3 as (_ & _ & _ & Hout & _). rewrite (Hout i Hi2). exact Ha2.
  - pose proof (served_other (scored st) l1 st0 s1 new1 i a Hnd
                  (frame_refl _) S1 Ha Hi1) as Hna.
    pose proof (served_other (scored st) l1 st0 s1 new1 j b Hnd
                  (frame_refl _) S1 Hb Hj1) as Hnb.
    rewrite Forall_forall in Hna, Hnb. apply Forall_forall.
    intros r Hr. split; [apply Hna | apply Hnb]; exact Hr.
  - pose proof (served_mine (scored st) i a s1 s2 new2 S2 Ha1) as Hm.
    pose proof (served_other (scored st) [i] s1 s2 new2 j b Hnd F1 S2 Hb Hji)
      as Hnb.
    rewrite Forall_forall in Hm, Hnb, D2. apply Forall_forall.
    intros r Hr. split; [apply Hm | split; [apply Hnb | apply D2]]; exact Hr.
  - apply (served_other (scored st) l2 s2 s3 new3 i a Hnd F2 S3 Ha Hi2).
  - lia.
  - lia.
  - exact Hmine.
  - intros Hne. specialize (Hback Hne). lia.
  - intros Hneed. destruct new3 as [|r new3]; [reflexivity|]. exfalso.
    assert (Hne : r :: new3 <> []) by discriminate.
    specialize (Hback Hne). lia.
  - intros Hall. specialize (Htop Hall). subst l1.
    destruct S1 as (R1 & _). unfold s1 in R1. simpl in R1.
    rewrite <- (app_nil_r (planRows st)) in R1 at 1.
    apply app_inv_head in R1. congruence.
Qed.

(** C6.  On a day of the run that has capacity, take two candidates (both
    with minutes left and not past due) of which [a] has the strictly
    higher score (difficulty + 1) / (daysLeft + 1).  The rows of that day
    come in three parts.  First the rows of candidates served before [a],
    none of them of [b]; then rows that are all of [a], which give [a] all
    it still needs or all that is left of the day's capacity, whichever is
    less; then the rest, which holds every row of [b] and is pushed only
    once [a] has no minute left.  When the day's capacity does not exceed what
    [a] needs, the rest is empty: [b] gets nothing that day.  And when [a]
    outscores every other candidate its rows are the first of the day and
    give it min(what it needs, the capacity) minutes, which is more than
    none. *)
Theorem priority_ordering (userId : string) (now : Z) (s : Store)
    (k : nat) (d c : Z) (i j : nat) (a b : Scored) :
  NoDup (map as_id (assessmentsOf userId now s)) ->
  dayDates now !! k = Some d ->
  capacityByDayMinutes userId now s !! k = Some c -> 0 < c ->
  scored (planAfterDays userId now k s) !! i = Some a ->
  scored (planAfterDays userId now k s) !! j = Some b ->
  isCandidate d a = true -> isCandidate d b = true ->
  (scoreFormula b < scoreFormula a)%Q ->
  exists before mine after a',
    planRows (planAfterDays userId now (S k) s)
    = planRows (planAfterDays userId now k s) ++ before ++ mine ++ after
    /\ scored (planAfterDays userId now (S k) s) !! i = Some a'
    /\ Forall (fun r => assessment_id r <> idOf a
                        /\ assessment_id r <> idOf b) before
    /\ Forall (fun r => assessment_id r = idOf a /\ assessment_id r <> idOf b
                        /\ plan_date r = d) mine
    /\ Forall (fun r => assessment_id r <> idOf a) after
    /\ 0 <= totalMinutes before <= c
    /\ totalMinutes mine
       = Z.min (remainingMinutes a) (c - totalMinutes before)
    /\ remainingMinutes a' = remainingMinutes a - totalMinutes mine
    /\ (after <> [] -> remainingMinutes a' = 0)
    /\ (c <= remainingMinutes a -> after = [])
    /\ ((forall p x, scored (planAfterDays userId now k s) !! p = Some x ->
           p <> i -> isCandidate d x = true ->
           (scoreFormula x < scoreFormula a)%Q) ->
        before = []
        /\ totalMinutes mine = Z.min (remainingMinutes a) c
        /\ 0 < totalMinutes mine).
Proof.
  intros Hnd Hd Hc Hc0 Ha Hb Hca Hcb Hlt.
  rewrite planAfterDays_S.
  destruct (dayBody_priority userId (courseTitleById (courseRowsOf userId s))
              (dayDates now) (capacityByDayMinutes userId now s)
              (planAfterDays userId now k s) k d c i j a b)
    as (before & mine & after & a' & Hrows & Ha' & Hbefore & Hmine & Hafter
        & Hcap & Hmin & Hrem & Hdone & Hfull & Htop); try assumption.
  - rewrite <- (frame_ids _ _ (planAfterDays_frame userId now k s)).
    rewrite scoredOf_ids. exact Hnd.
  - rewrite (score_formula userId now k s i a Ha).
    rewrite (score_formula userId now k s j b Hb). exact Hlt.
  - exists before, mine, after, a'.
    do 10 (split; [assumption|]).
    intros Hall.
    assert (Hb0 : before = []).
    { apply Htop. intros p x Hx Hne Hcx.
      rewrite (score_formula userId now k s i a Ha).
      rewrite (score_formula userId now k s p x Hx).
      apply (Hall p x); assumption. }
    split; [exact Hb0|]. subst before.
    assert (0 < remainingMinutes a).
    { unfold isCandidate in Hca. apply andb_true_iff in Hca.
      destruct Hca as [Hr _]. apply Z.ltb_lt in Hr. exact Hr. }
    change (totalMinutes []) with 0 in Hmin. lia.
Qed.

Lemma priority_ordering_witness :
  exists mine,
    planRows (planAfterDays "u" 0 2
      (Scenario.store (Scenario.week [0; 0; 0; 0; 0; 1; 0]%Q)
         [Scenario.quiz 1 1; Scenario.essay 1 1] []))
    = planRows (planAfterDays "u" 0 1
      (Scenario.store (Scenario.week [0; 0; 0; 0; 0; 1; 0]%Q)
         [Scenario.quiz 1 1; Scenario.essay 1 1] []))
      ++ mine
    /\ Forall (fun r => assessment_id r = "a1" /\ plan_date r = 1) mine
    /\ totalMinutes mine = 60.
Proof.
  destruct (priority_ordering "u" 0
              (Scenario.store (Scenario.week [0; 0; 0; 0; 0; 1; 0]%Q)
                 [Scenario.quiz 1 1; Scenario.essay 1 1] [])
              1 1 60 1 0
              (mkScored 0 (difficultyByCourseId [Scenario.history; Scenario.music])
                 (Scenario.essay 1 1))
              (mkScored 0 (difficultyByCourseId [Scenario.history; Scenario.music])
                 (Scenario.quiz 1 1)))
    as (before & mine & after & a' & Hrows & _ & _ & Hmine & _ & _ & _ & _
        & _ & Hfull & Htop).
  - by_compute.
  - reflexivity.
  - reflexivity.
  - reflexivity.
  - reflexivity.
  - reflexivity.
  - reflexivity.
  - reflexivity.
  - reflexivity.
  - destruct Htop as (Hbefore & Hsum & _).
    { intros p x Hx Hne Hcx. destruct p as [|[|p]].
      - vm_compute in Hx. injection Hx as <-. reflexivity.
      - contradiction.
      - vm_compute in Hx. discriminate. }
    exists mine. split; [|split; [|exact Hsum]].
    2:{ eapply Forall_impl; [exact Hmine|]. intros r (H1 & _ & H2).
        split; [exact H1 | exact H2]. }
    rewrite Hrows, Hbefore, Hfull, app_nil_r; [reflexivity|].
    vm_compute. discriminate.
Defined.

Lemma dayBody_skip (userId : string) (titles : gmap string string)
    (dates caps : list Z) (st : LoopState) (k : nat) :
  (forall d c, dates !! k = Some d -> caps !! k = Some c -> c <= 0) ->
  dayBody userId titles dates caps st k = st.
Proof.
  intros H. unfold dayBody.
  destruct (caps !! k) as [c|]; [|reflexivity].
  destruct (dates !! k) as [d|]; [|reflexivity].
  specialize (H d c eq_refl eq_refl).
  destruct (c <=? 0) eqn:E; [reflexivity|]. apply Z.leb_gt in E. lia.
Qed.

Lemma dayBody_run (userId : string) (titles : gmap string string)
    (dates caps : list Z) (st : LoopState) (k : nat) (d c : Z) :
  dates !! k = Some d -> caps !! k = Some c -> 0 < c ->
  dayBody userId titles dates caps st k
  = forCandidates userId titles d (candidatesOf d (scored st))
      {| scored := scored st; planRows := planRows st; remainingCapacity := c |}.
Proof.
  intros Hd Hc Hc0. unfold dayBody. rewrite Hc, Hd.
  destruct (c <=? 0) eqn:E; [apply Z.leb_le in E; lia | reflexivity].
Qed.

Lemma planAfterDays_shrinks (userId : string) (now : Z) (n : nat) (s : Store) :
  shrinks (scored (planAfterDays userId now n s))
          (scored (planAfterDays userId now (S n) s)).
Proof.
  rewrite planAfterDays_S.
  set (st := planAfterDays userId now n s).
  destruct (capacityByDayMinutes userId now s !! n) as [c|] eqn:Hc;
    [|rewrite dayBody_skip by congruence; apply shrinks_refl].
  destruct (dayDates now !! n) as [d|] eqn:Hd;
    [|rewrite dayBody_skip by congruence; apply shrinks_refl].
  destruct (Z.le_gt_cases c 0) as [H0|H0].
  { rewrite dayBody_skip; [apply shrinks_refl|].
    intros d' c' _ Hc'. congruence. }
  rewrite (dayBody_run _ _ _ _ _ _ d c Hd Hc) by lia.
  destruct (forCandidates_account userId (courseTitleById (courseRowsOf userId s))
              d (candidatesOf d (scored st))
              {| scored := scored st; planRows := planRows st;
                 remainingCapacity := c |}) as (_ & _ & _ & _ & _ & Hsh).
  exact Hsh.
Qed.

Lemma saturated_after (userId : string) (now : Z) (s : Store) (n : nat) :
  forall k d c i a,
    (k < n)%nat ->
    dayDates now !! k = Some d ->
    capacityByDayMinutes userId now s !! k = Some c -> 0 < c ->
    scored (planAfterDays userId now n s) !! i = Some a ->
    0 < remainingMinutes a -> d <= dueOf a ->
    minutesOn d (planRows (planAfterDays userId now n s)) = c.
Proof.
  induction n as [|n IH]; intros k d c i a Hk Hd Hc Hc0 Ha Hrem Hdue; [lia|].
  destruct (planAfterDays_shrinks userId now n s) as [Hf Hle].
  destruct (frame_lookup _ _ _ _ (frame_sym _ _ Hf) Ha) as (a0 & Ha0 & E).
  specialize (Hle i a0 a Ha0 Ha).
  assert (Hdue0 : d <= dueOf a0).
  { unfold dueOf in *. rewrite <- (static_sc_a _ _ E). exact Hdue. }
  revert Ha Hle. rewrite planAfterDays_S.
  set (st := planAfterDays userId now n s) in *.
  destruct (capacityByDayMinutes userId now s !! n) as [cn|] eqn:Hcn;
    [|rewrite dayBody_skip by congruence; intros Ha Hle;
      apply (IH k d c i a0); try assumption; [|lia];
      destruct (decide (k = n)) as [->|]; [congruence | lia]].
  destruct (dayDates now !! n) as [dn|] eqn:Hdn;
    [|rewrite dayBody_skip by congruence; intros Ha Hle;
      apply (IH k d c i a0); try assumption; [|lia];
      destruct (decide (k = n)) as [->|]; [congruence | lia]].
  destruct (Z.le_gt_cases cn 0) as [H0|H0].
  { rewrite dayBody_skip by (intros d' c' _ Hc'; congruence).
    intros Ha Hle. apply (IH k d c i a0); try assumption; [|lia].
    destruct (decide (k = n)) as [->|]; [|lia]. rewrite Hcn in Hc. injection Hc as ->. lia. }
  rewrite (dayBody_run _ _ _ _ _ _ dn cn Hdn Hcn) by lia.
  set (st0 := {| scored := scored st; planRows := planRows st;
                 remainingCapacity := cn |}).
  set (cands := candidatesOf dn (scored st)).
  destruct (forCandidates_account userId (courseTitleById (courseRowsOf userId s))
              dn cands st0) as (new & Hrows & Hdate & Hsum & Hpos & _).
  intros Ha Hle. rewrite Hrows. change (planRows st0) with (planRows st).
  rewrite minutesOn_app.
  destruct (decide (k = n)) as [->|Hne].
  - assert (d = dn) by congruence. assert (c = cn) by congruence. subst dn cn.
    rewrite (minutesOn_same_day d new Hdate).
    destruct (planAfterDays_withinCapacity userId now n s n d c Hd Hc)
      as (_ & _ & Hzero).
    specialize (Hzero eq_refl). simpl in Hzero. fold st in Hzero.
    destruct (forCandidates_exhausts userId
                (courseTitleById (courseRowsOf userId s)) d cands st0)
      as [Hcap|Hall].
    + simpl in Hsum, Hpos. lia.
    + exfalso. assert (Hi : i ∈ cands).
      { apply elem_of_candidatesOf. exists a0. split; [exact Ha0|].
        unfold isCandidate. apply andb_true_iff. split.
        - apply Z.ltb_lt. lia.
        - apply Z.leb_le. exact Hdue0. }
      specialize (Hall i a Hi Ha). lia.
  - assert (d <> dn).
    { intros ->. apply Hne.
      apply (NoDup_lookup (dayDates now) k n dn (dayDates_distinct now) Hd Hdn). }
    rewrite (minutesOn_other_day d dn new Hdate) by assumption.
    rewrite Z.add_0_r. apply (IH k d c i a0); try assumption; lia.
Qed.

(** X2.  The walk is greedy: an assessment that ends the run with minutes
    left finds every day of the window that has capacity, up to its due
    date, filled exactly to that capacity. *)
Theorem greedy_saturation (userId : string) (now : Z) (s : Store)
    (k : nat) (d c : Z) (i : nat) (a : Scored) :
  dayDates now !! k = Some d ->
  capacityByDayMinutes userId now s !! k = Some c -> 0 < c ->
  scored (planOf userId now s) !! i = Some a ->
  0 < remainingMinutes a -> d <= dueOf a ->
  minutesOn d (planRows (planOf userId now s)) = c.
Proof.
  intros Hd Hc Hc0. rewrite planOf_eq.
  assert (Hk : (k < 7)%nat) by (apply dayDates_lookup in Hd; tauto).
  revert Hk. generalize 7%nat. intros n Hk Ha Hrem Hdue.
  apply (saturated_after userId now s n k d c i a); assumption.
Qed.

Lemma greedy_saturation_witness :
  minutesOn 1 (planRows (planOf "u" 0
     (Scenario.store (Scenario.everyDay (3 # 4)) [Scenario.essay 6 1] [])))
  = 45.
Proof.
  apply (greedy_saturation "u" 0
           (Scenario.store (Scenario.everyDay (3 # 4)) [Scenario.essay 6 1] [])
           1 1 45 0
           (setRemaining
              (mkScored 0 (difficultyByCourseId [Scenario.history; Scenario.music])
                 (Scenario.essay 6 1)) 270)).
  - reflexivity.
  - reflexivity.
  - reflexivity.
  - vm_compute. reflexivity.
  - reflexivity.
  - vm_compute. discriminate.
Defined.

(** ** Enough capacity before the first deadline leaves no shortfall *)

Lemma sumZ_positive_member (l : list Z) : 0 < sumZ l -> exists x, x ∈ l /\ 0 < x.
Proof.
  induction l as [|x l IH]; [rewrite sumZ_nil; lia|].
  rewrite sumZ_cons. intros H.
  destruct (Z.lt_ge_cases 0 x) as [Hx|Hx].
  - exists x. split; [left | exact Hx].
  - destruct IH as (y & Hy & Hpos); [lia|].
    exists y. split; [right; exact Hy | exact Hpos].
Qed.

Lemma minutesOn_nonneg (d : Z) (rows : list PlanItem) :
  Forall (fun r => 0 < minutes r) rows -> 0 <= minutesOn d rows.
Proof.
  intros H. unfold minutesOn. apply sumZ_nonneg.
  induction H as [|r rows Hr _ IH]; [constructor|].
  rewrite filter_cons. destruct (decide _); [|exact IH].
  constructor; [lia | exact IH].
Qed.

Lemma totalMinutes_split (d : Z) (rows : list PlanItem) :
  totalMinutes rows
  = minutesOn d rows + totalMinutes (filter (fun r => plan_date r <> d) rows).
Proof.
  unfold totalMinutes, minutesOn.
  induction rows as [|r rows IH]; [reflexivity|].
  rewrite !filter_cons. simpl map at 1. rewrite sumZ_cons, IH.
  destruct (decide (plan_date r = d)) as [E|E].
  - rewrite decide_False by tauto. simpl. rewrite sumZ_cons. lia.
  - rewrite decide_True by exact E. simpl. rewrite sumZ_cons. lia.
Qed.

Lemma minutesOn_filter_other (d d0 : Z) (rows : list PlanItem) :
  d <> d0 ->
  minutesOn d (filter (fun r => plan_date r <> d0) rows) = minutesOn d rows.
Proof.
  intros Hne. unfold minutesOn. f_equal. f_equal.
  induction rows as [|r rows IH]; [reflexivity|].
  rewrite !filter_cons.
  destruct (decide (plan_date r <> d0)) as [E|E].
  - rewrite filter_cons. destruct (decide (plan_date r = d)); [f_equal|]; exact IH.
  - rewrite decide_False; [exact IH|]. intros E'. apply E. congruence.
Qed.

(** Each row is dated on one day: the minutes of distinct days add up to
    at most the minutes of all rows. *)
Lemma minutesOn_days (ds : list Z) (rows : list PlanItem) :
  NoDup ds -> Forall (fun r => 0 < minutes r) rows ->
  sumZ (map (fun d => minutesOn d rows) ds) <= totalMinutes rows.
Proof.
  intros Hnd. revert rows. induction Hnd as [|d0 ds Hd0 Hnd IH]; intros rows Hpos.
  - simpl. rewrite sumZ_nil. apply totalMinutes_nonneg. exact Hpos.
  - simpl. rewrite sumZ_cons, (totalMinutes_split d0 rows).
    assert (Hrest : sumZ (map (fun d => minutesOn d rows) ds)
                    <= totalMinutes (filter (fun r => plan_date r <> d0) rows)).
    { erewrite map_ext_in.
      - apply IH. apply Forall_forall. intros r Hr.
        apply list_elem_of_filter in Hr. destruct Hr as [_ Hr].
        rewrite Forall_forall in Hpos. apply Hpos. exact Hr.
      - intros d Hd. simpl. symmetry. apply minutesOn_filter_other.
        intros ->. apply Hd0. apply list_elem_of_In. exact Hd. }
    lia.
Qed.

Lemma sumZ_pointwise (A B : Type) (f : A -> Z) (g : B -> Z)
    (l : list A) (k : list B) :
  Forall2 (fun x y => f x <= g y) l k -> sumZ (map f l) <= sumZ (map g k).
Proof.
  induction 1 as [|x y l k Hxy _ IH]; simpl.
  - lia.
  - rewrite !sumZ_cons. lia.
Qed.

Lemma dayDates_length (now : Z) : length (dayDates now) = 7%nat.
Proof. rewrite dayDates_eq, length_fmap. reflexivity. Qed.

Lemma capacity_length (userId : string) (now : Z) (s : Store) :
  length (capacityByDayMinutes userId now s) = 7%nat.
Proof. unfold capacityByDayMinutes, days. rewrite !length_map. reflexivity. Qed.

(** X3.  When the capacity of the days up to a date [dk] covers all the
    work, and no eligible assessment is due before [dk], the run reports
    no shortfall. *)
Theorem enough_capacity (userId : string) (now stamp : Z) (s : Store)
    (k : nat) (dk : Z) :
  dayDates now !! k = Some dk ->
  (forall a, a ∈ assessmentsOf userId now s -> dk <= as_due_date a) ->
  totalWork (assessmentsOf userId now s)
  <= sumZ (map (Z.max 0) (take (S k) (capacityByDayMinutes userId now s))) ->
  shortfallMinutes (snd (generatePlanForUser userId now stamp s)) = 0.
Proof.
  intros Hdk Hdue Hcap. rewrite generate_result_shortfall.
  destruct (assessmentsOf userId now s) as [|a0 rest] eqn:Eas; [reflexivity|].
  rewrite <- Eas in *. clear a0 rest Eas.
  rewrite planOf_eq.
  assert (Hk : (k < 7)%nat) by (apply dayDates_lookup in Hdk; tauto).
  revert Hk. generalize 7%nat. intros n Hk.
  destruct (planAfterDays_balanced userId now n s) as [Hpos Hsum].
  rewrite scoredOf_work in Hsum.
  rewrite (shortfallOf_sum _ Hpos).
  pose proof (planAfterDays_positive userId now n s) as Hrows.
  assert (Hnn : 0 <= sumZ (map remainingMinutes
                             (scored (planAfterDays userId now n s)))).
  { apply sumZ_nonneg. apply Forall_fmap. exact Hpos. }
  destruct (Z.le_gt_cases (sumZ (map remainingMinutes
              (scored (planAfterDays userId now n s)))) 0) as [Hle|Hgt]; [lia|].
  exfalso.
  destruct (sumZ_positive_member _ Hgt) as (x & Hx & Hx0).
  apply list_elem_of_fmap in Hx. destruct Hx as (a & -> & Ha).
  apply list_elem_of_lookup in Ha. destruct Ha as [i Hi].
  assert (Hdue_a : dk <= dueOf a).
  { destruct (frame_lookup _ _ _ _
                (frame_sym _ _ (planAfterDays_frame userId now n s)) Hi)
      as (b & Hb & E).
    rewrite scoredOf_lookup in Hb.
    destruct (assessmentsOf userId now s !! i) as [a1|] eqn:Ha1; [|discriminate].
    injection Hb as <-. unfold dueOf. rewrite (static_sc_a _ _ E). simpl.
    apply Hdue. eapply list_elem_of_lookup_2. exact Ha1. }
  assert (Hfill : sumZ (map (Z.max 0) (take (S k) (capacityByDayMinutes userId now s)))
                  <= sumZ (map (fun d => minutesOn d
                                  (planRows (planAfterDays userId now n s)))
                               (take (S k) (dayDates now)))).
  { apply sumZ_pointwise. apply Forall2_same_length_lookup_2.
    - rewrite !length_take, capacity_length, dayDates_length. reflexivity.
    - intros j c d Hc Hd.
      apply lookup_take_Some in Hc. destruct Hc as [Hc Hj].
      apply lookup_take_Some in Hd. destruct Hd as [Hd _].
      destruct (Z.le_gt_cases c 0) as [H0|H0].
      + rewrite Z.max_l by exact H0. apply minutesOn_nonneg. exact Hrows.
      + rewrite Z.max_r by lia.
        rewrite (saturated_after userId now s n j d c i a); try assumption; try lia.
        apply dayDates_lookup in Hd. apply dayDates_lookup in Hdk. lia. }
  assert (Hpart : sumZ (map (fun d => minutesOn d
                                  (planRows (planAfterDays userId now n s)))
                            (take (S k) (dayDates now)))
                  <= totalMinutes (planRows (planAfterDays userId now n s))).
  { apply minutesOn_days; [|exact Hrows].
    eapply sublist_NoDup; [apply dayDates_distinct | apply sublist_take]. }
  lia.
Qed.

Lemma enough_capacity_witness :
  shortfallMinutes (snd (generatePlanForUser "u" 0 5
     (Scenario.store [] [Scenario.essay 3 1; Scenario.quiz 1 4] []))) = 0.
Proof.
  apply (enough_capacity "u" 0 5
           (Scenario.store [] [Scenario.essay 3 1; Scenario.quiz 1 4] []) 1 1).
  - reflexivity.
  - intros a Ha. vm_compute in Ha.
    apply elem_of_cons in Ha. destruct Ha as [->|Ha]; [vm_compute; discriminate|].
    apply elem_of_cons in Ha. destruct Ha as [->|Ha]; [vm_compute; discriminate|].
    apply elem_of_nil in Ha. contradiction.
  - vm_compute. discriminate.
Defined.


(** ** What a run leaves alone, and what it reports *)

(** X4.  A run writes nothing but the user's blocks in the window and the
    user's summary: the three input tables, the blocks of other users and
    of other dates, and the summaries of other users are as before. *)
Theorem run_touches_only_its_window (userId : string) (now stamp : Z) (s : Store) :
  availability (fst (generatePlanForUser userId now stamp s)) = availability s
  /\ assessments (fst (generatePlanForUser userId now stamp s)) = assessments s
  /\ courses (fst (generatePlanForUser userId now stamp s)) = courses s
  /\ filter (fun r => inWindow userId (dayDates now) r = false)
        (plan_items (fst (generatePlanForUser userId now stamp s)))
     = filter (fun r => inWindow userId (dayDates now) r = false) (plan_items s)
  /\ (forall u, u <> userId ->
        plan_meta (fst (generatePlanForUser userId now stamp s)) !! u
        = plan_meta s !! u).
Proof.
  destruct (generate_inputs userId now stamp s) as (H1 & H2 & H3).
  split; [exact H1|]. split; [exact H2|]. split; [exact H3|].
  rewrite generate_store. destruct (assessmentsOf userId now s); simpl.
  - split; [reflexivity|]. intros u Hu. apply lookup_insert_ne. congruence.
  - split.
    + rewrite filter_app, filter_twice, rows_survive_nothing, app_nil_r.
      reflexivity.
    + intros u Hu. apply lookup_insert_ne. congruence.
Qed.

Lemma no_rows_without_minutes (rows : list PlanItem) :
  Forall (fun r => 0 < minutes r) rows -> totalMinutes rows <= 0 -> rows = [].
Proof.
  intros H. destruct H as [|r rows Hr Hrows]; [reflexivity|].
  unfold totalMinutes. simpl. rewrite sumZ_cons.
  pose proof (totalMinutes_nonneg rows Hrows) as Hnn. unfold totalMinutes in Hnn.
  lia.
Qed.

Lemma no_assessment_no_rows (userId : string) (now : Z) (s : Store) :
  assessmentsOf userId now s = [] -> planRows (planOf userId now s) = [].
Proof.
  intros E. rewrite planOf_eq. generalize 7%nat. intros n.
  apply no_rows_without_minutes; [apply planAfterDays_positive|].
  destruct (planAfterDays_balanced userId now n s) as [Hpos Hsum].
  rewrite scoredOf_work, E in Hsum. unfold totalWork in Hsum. simpl in Hsum.
  rewrite sumZ_nil in Hsum.
  assert (0 <= sumZ (map remainingMinutes (scored (planAfterDays userId now n s)))).
  { apply sumZ_nonneg. apply Forall_fmap. exact Hpos. }
  lia.
Qed.

Lemma shortfallOf_nonneg (st : LoopState) : 0 <= shortfallOf st.
Proof.
  unfold shortfallOf. destruct (0 <? remainingWork st) eqn:E; [|lia].
  apply Z.ltb_lt in E. lia.
Qed.

(** X5.  What a run returns is what it stores: the summary of the user
    holds the returned shortfall and the stamp of the run; the shortfall is
    never negative; the count is the number of blocks produced; and a
    positive shortfall never comes without a warning. *)
Theorem summary_matches_result (userId : string) (now stamp : Z) (s : Store) :
  plan_meta (fst (generatePlanForUser userId now stamp s)) !! userId
  = Some {| shortfall_minutes :=
              shortfallMinutes (snd (generatePlanForUser userId now stamp s));
            updated_at := stamp |}
  /\ 0 <= shortfallMinutes (snd (generatePlanForUser userId now stamp s))
  /\ planRowsCount (snd (generatePlanForUser userId now stamp s))
     = Z.of_nat (length (planRows (planOf userId now s)))
  /\ (0 < shortfallMinutes (snd (generatePlanForUser userId now stamp s)) ->
      warning (snd (generatePlanForUser userId now stamp s)) <> None).
Proof.
  pose proof (no_assessment_no_rows userId now s) as Hnone.
  pose proof (shortfallOf_nonneg (planOf userId now s)) as Hnn.
  unfold generatePlanForUser.
  destruct (assessmentsOf userId now s) as [|a rest].
  - rewrite Hnone by reflexivity. simpl.
    split; [apply lookup_insert_eq|]. split; [lia|]. split; [reflexivity|].
    intros H. lia.
  - destruct (planRows (planOf userId now s)) as [|r rows] eqn:E.
    + simpl. split; [apply lookup_insert_eq|]. split; [exact Hnn|].
      split; [reflexivity|]. discriminate.
    + cbn [fst snd plan_meta upsertPlanMeta shortfallMinutes planRowsCount warning].
      split; [apply lookup_insert_eq|]. split; [exact Hnn|].
      split; [reflexivity|].
      intros Hpos. apply Z.ltb_lt in Hpos. rewrite Hpos. discriminate.
Qed.

Lemma summary_matches_result_witness :
  warning (snd (generatePlanForUser "u" 0 5
     (Scenario.store (Scenario.everyDay 0) [Scenario.essay 2 2] []))) <> None.
Proof.
  apply (summary_matches_result "u" 0 5
     (Scenario.store (Scenario.everyDay 0) [Scenario.essay 2 2] [])).
  vm_compute. reflexivity.
Defined.

(** ** Which assessments take part, and how urgent they are *)

Lemma dueInWindow_spec (now : Z) (a : AssessmentRow) :
  dueInWindow now a = true
  <-> now / MS_PER_DAY <= as_due_date a <= now / MS_PER_DAY + 6.
Proof.
  unfold dueInWindow. rewrite dayDates_eq.
  set (t := now / MS_PER_DAY). simpl.
  rewrite andb_true_iff, !Z.leb_le. lia.
Qed.

Lemma elem_of_assessmentsOf (userId : string) (now : Z) (s : Store)
    (a : AssessmentRow) :
  a ∈ assessmentsOf userId now s
  <-> a ∈ assessments s /\ as_user_id a = userId /\ as_status a <> "done"
      /\ now / MS_PER_DAY <= as_due_date a <= now / MS_PER_DAY + 6.
Proof.
  unfold assessmentsOf, assessmentRowsOf.
  rewrite !list_elem_of_filter, dueInWindow_spec. tauto.
Qed.

(** X6.  The assessments that take part in a run are the rows of the user
    that are not done and are due on one of the seven days from today, in
    the order of the table. *)
Theorem eligible_assessments (userId : string) (now : Z) (s : Store) :
  (forall a, a ∈ assessmentsOf userId now s
     <-> a ∈ assessments s /\ as_user_id a = userId /\ as_status a <> "done"
         /\ now / MS_PER_DAY <= as_due_date a <= now / MS_PER_DAY + 6)
  /\ assessmentsOf userId now s `sublist_of` assessments s.
Proof.
  split; [intros a; apply elem_of_assessmentsOf|].
  unfold assessmentsOf, assessmentRowsOf.
  etransitivity; apply sublist_filter.
Qed.

Lemma Math_round_integer (k : Z) : Math_round (inject_Z k) = k.
Proof.
  unfold Math_round, Qfloor, Qplus, inject_Z. simpl.
  rewrite Z.mul_1_r. replace (k * 2 + 1) with (1 + k * 2) by lia.
  rewrite Z.div_add by lia. reflexivity.
Qed.

Lemma Math_round_whole_days (k : Z) :
  Math_round (inject_Z (k * MS_PER_DAY) / inject_Z MS_PER_DAY)%Q = k.
Proof.
  rewrite <- (Math_round_integer k) at 2. unfold Math_round.
  apply Qfloor_comp. apply Qplus_comp; [|reflexivity].
  unfold MS_PER_DAY, Qeq, Qdiv, Qmult, Qinv, inject_Z. simpl. lia.
Qed.

Lemma daysLeft_formula (now : Z) (dbc : gmap string Z) (a : AssessmentRow) :
  daysLeft (mkScored (today now) dbc a)
  = Z.max 0 (as_due_date a - now / MS_PER_DAY).
Proof.
  unfold mkScored. cbn [daysLeft]. f_equal.
  replace (startOfDay (parseYYYYMMDD (as_due_date a)) - today now)
    with ((as_due_date a - now / MS_PER_DAY) * MS_PER_DAY).
  - apply Math_round_whole_days.
  - unfold parseYYYYMMDD, today, startOfDay.
    rewrite Z.div_mul by (unfold MS_PER_DAY; lia). ring.
Qed.

(** X7.  The days left of an eligible assessment are the days from today
    to its due date, a number from 0 to 6. *)
Theorem daysLeft_eligible (userId : string) (now : Z) (s : Store)
    (dbc : gmap string Z) (a : AssessmentRow) :
  a ∈ assessmentsOf userId now s ->
  daysLeft (mkScored (today now) dbc a) = as_due_date a - now / MS_PER_DAY
  /\ 0 <= daysLeft (mkScored (today now) dbc a) <= 6.
Proof.
  intros Ha. apply elem_of_assessmentsOf in Ha.
  destruct Ha as (_ & _ & _ & Hdue).
  rewrite daysLeft_formula. lia.
Qed.

Lemma daysLeft_eligible_witness :
  daysLeft (mkScored (today 90000000) ∅ (Scenario.essay 4 3)) = 2.
Proof.
  apply (daysLeft_eligible "u" 90000000
           (Scenario.store [] [Scenario.essay 4 3] []) ∅ (Scenario.essay 4 3)).
  apply (list_elem_of_lookup_2 _ 0%nat). reflexivity.
Defined.

(** ** The score *)

Lemma quotient_lt (x y p q : Z) :
  0 < p -> 0 < q ->
  (inject_Z x / inject_Z p < inject_Z y / inject_Z q)%Q <-> x * q < y * p.
Proof.
  intros Hp Hq.
  destruct p as [|p|p]; try lia. destruct q as [|q|q]; try lia.
  unfold Qlt, Qdiv, Qmult, Qinv, inject_Z. simpl. lia.
Qed.

Lemma daysLeft_nonneg (t : Z) (dbc : gmap string Z) (a : AssessmentRow) :
  0 <= daysLeft (mkScored t dbc a).
Proof. simpl. lia. Qed.

Lemma score_mkScored (t : Z) (dbc : gmap string Z) (a : AssessmentRow) :
  score (mkScored t dbc a) = scoreFormula (mkScored t dbc a).
Proof. reflexivity. Qed.

(** X8.  Harder and more urgent work scores higher: with the same days
    left the higher difficulty has the strictly higher score, and with the
    same (non-negative) difficulty the fewer days left have it. *)
Theorem score_monotone (t : Z) (dbc : gmap string Z) (a b : AssessmentRow) :
  (daysLeft (mkScored t dbc a) = daysLeft (mkScored t dbc b) ->
   difficulty (mkScored t dbc a) < difficulty (mkScored t dbc b) ->
   (score (mkScored t dbc a) < score (mkScored t dbc b))%Q)
  /\ (difficulty (mkScored t dbc a) = difficulty (mkScored t dbc b) ->
      0 <= difficulty (mkScored t dbc a) ->
      daysLeft (mkScored t dbc b) < daysLeft (mkScored t dbc a) ->
      (score (mkScored t dbc a) < score (mkScored t dbc b))%Q).
Proof.
  pose proof (daysLeft_nonneg t dbc a) as Ha.
  pose proof (daysLeft_nonneg t dbc b) as Hb.
  rewrite !score_mkScored. unfold scoreFormula.
  generalize dependent (daysLeft (mkScored t dbc a)).
  generalize dependent (daysLeft (mkScored t dbc b)).
  generalize (difficulty (mkScored t dbc a)).
  generalize (difficulty (mkScored t dbc b)).
  intros db da lb Hb la Ha. split.
  - intros -> Hd. apply quotient_lt; nia.
  - intros -> Hd Hl. apply quotient_lt; nia.
Qed.

Lemma score_monotone_witness :
  (score (mkScored 0 (difficultyByCourseId [Scenario.history; Scenario.music])
            (Scenario.quiz 1 1))
   < score (mkScored 0 (difficultyByCourseId [Scenario.history; Scenario.music])
              (Scenario.essay 1 1)))%Q.
Proof.
  apply (proj1 (score_monotone 0
           (difficultyByCourseId [Scenario.history; Scenario.music])
           (Scenario.quiz 1 1) (Scenario.essay 1 1))).
  - reflexivity.
  - reflexivity.
Defined.

(** ** The course of an assessment *)

(** A map filled row after row holds, for each key, the value of the last
    row with that key. *)
Lemma foldl_insert_last (A K V : Type) `{Countable K}
    (key : A -> K) (val : A -> V) (rows : list A) (m0 : gmap K V) (k : K) :
  foldl (fun m r => <[key r := val r]> m) m0 rows !! k
  = match last (filter (fun r => key r = k) rows) with
    | Some r => Some (val r)
    | None => m0 !! k
    end.
Proof.
  induction rows as [|r rows IH] using rev_ind; [reflexivity|].
  rewrite foldl_app. simpl. rewrite filter_app, filter_cons, filter_nil.
  destruct (decide (key r = k)) as [E|E].
  - rewrite last_snoc, E, lookup_insert_eq. reflexivity.
  - rewrite app_nil_r, lookup_insert_ne by exact E. exact IH.
Qed.

(** X9.  The difficulty that enters the score is the one of the latest
    course row with the assessment's course id, and 3 when the assessment
    has no course id, an empty one, or one that no course has. *)
Theorem difficulty_of_assessment (t : Z) (courseRows : list CourseRow)
    (a : AssessmentRow) :
  difficulty (mkScored t (difficultyByCourseId courseRows) a)
  = match as_course_id a with
    | Some c =>
        if truthy c then
          match last (filter (fun r => co_id r = c) courseRows) with
          | Some r => co_difficulty r
          | None => 3
          end
        else 3
    | None => 3
    end.
Proof.
  unfold mkScored. cbn [difficulty].
  destruct (as_course_id a) as [c|]; [|reflexivity].
  destruct (truthy c); [|reflexivity].
  unfold difficultyByCourseId. rewrite foldl_insert_last.
  destruct (last _); [reflexivity|]. rewrite lookup_empty. reflexivity.
Qed.

(** ** The titles of the blocks *)

Lemma blockTitle_static (titles : gmap string string) (a b : Scored) :
  static a = static b -> blockTitle titles a = blockTitle titles b.
Proof.
  intros E. unfold blockTitle, courseNameOf.
  rewrite (static_sc_a _ _ E). reflexivity.
Qed.

Lemma blockTitle_titleFor (t : Z) (dbc : gmap string Z)
    (courseRows : list CourseRow) (a : AssessmentRow) :
  blockTitle (courseTitleById courseRows) (mkScored t dbc a)
  = titleFor courseRows a.
Proof.
  unfold blockTitle, courseNameOf, titleFor. cbn [sc_a mkScored].
  destruct (as_course_id a) as [c|]; [|reflexivity].
  destruct (truthy c); [|reflexivity].
  unfold courseTitleById. rewrite foldl_insert_last.
  destruct (last _); [reflexivity|]. rewrite lookup_empty. reflexivity.
Qed.

Lemma daysLoop_titles (userId : string) (titles : gmap string string)
    (dates caps : list Z) (sc0 : list Scored) (n : nat) :
  Forall (fun r => exists i a0, sc0 !! i = Some a0
                     /\ assessment_id r = idOf a0
                     /\ title r = blockTitle titles a0)
         (planRows (daysLoop userId titles dates caps n sc0)).
Proof.
  apply (daysLoop_out userId titles dates caps sc0
           (fun _ _ rows =>
              Forall (fun r => exists i a0, sc0 !! i = Some a0
                        /\ assessment_id r = idOf a0
                        /\ title r = blockTitle titles a0) rows)
           (fun _ st =>
              Forall (fun r => exists i a0, sc0 !! i = Some a0
                        /\ assessment_id r = idOf a0
                        /\ title r = blockTitle titles a0) (planRows st))).
  - intros k d c sc rows _ _ _ _ H. exact H.
  - intros k d c i a m st _ _ _ Hf Hin Ha _ _ _ _ _ _. simpl.
    apply Forall_app. split; [exact Hin|]. constructor; [|constructor].
    destruct (frame_lookup _ _ _ _ (frame_sym _ _ Hf) Ha) as (a0 & Ha0 & E).
    exists i, a0. split; [exact Ha0|]. simpl. split.
    + unfold idOf. rewrite (static_sc_a _ _ E). reflexivity.
    + apply blockTitle_static. exact E.
  - intros k d c st _ _ _ _ H. exact H.
  - intros k sc rows _ H _. exact H.
  - constructor.
Qed.

(** X10.  Every generated block belongs to the user, is not done, and
    carries the id of an eligible assessment together with that
    assessment's title, prefixed by the title of its course when it has
    one. *)
Theorem block_titles (userId : string) (now : Z) (s : Store) (r : PlanItem) :
  r ∈ planRows (planOf userId now s) ->
  user_id r = userId /\ done r = false
  /\ exists a, a ∈ assessmentsOf userId now s
       /\ assessment_id r = as_id a
       /\ title r = titleFor (courseRowsOf userId s) a.
Proof.
  rewrite planOf_eq. generalize 7%nat. intros n Hr.
  pose proof (planAfterDays_rowOK userId now n s) as Hok.
  rewrite Forall_forall in Hok.
  destruct (Hok r Hr) as (Hu & Hd & _).
  split; [exact Hu|]. split; [exact Hd|].
  pose proof (daysLoop_titles userId (courseTitleById (courseRowsOf userId s))
                (dayDates now) (capacityByDayMinutes userId now s)
                (scoredOf userId now s) n) as Ht.
  rewrite Forall_forall in Ht. unfold planAfterDays in Hr.
  destruct (Ht r Hr) as (i & a0 & Ha0 & Hid & Htitle).
  rewrite scoredOf_lookup in Ha0.
  destruct (assessmentsOf userId now s !! i) as [a|] eqn:Ha; [|discriminate].
  injection Ha0 as <-. exists a.
  split; [eapply list_elem_of_lookup_2; exact Ha|].
  split; [exact Hid|]. rewrite Htitle. apply blockTitle_titleFor.
Qed.

Lemma block_titles_witness :
  title (Scenario.block 0 30 "a1" "History â€” Essay") = "History â€” Essay"
  /\ exists a, a ∈ assessmentsOf "u" 0 (Scenario.store [] [Scenario.essay 1 0] [])
       /\ assessment_id (Scenario.block 0 30 "a1" "History â€” Essay") = as_id a.
Proof.
  destruct (block_titles "u" 0 (Scenario.store [] [Scenario.essay 1 0] [])
              (Scenario.block 0 30 "a1" "History â€” Essay"))
    as (_ & _ & a & Ha & Hid & _).
  - apply (list_elem_of_lookup_2 _ 0%nat). vm_compute. reflexivity.
  - split; [reflexivity|]. exists a. split; [exact Ha | exact Hid].
Defined.

(** ** The candidates of a day, in the order they are served *)

Lemma filterPositions_increasing (d : Z) (sc : list Scored) (k : nat) :
  StronglySorted lt (filterPositions d sc k).
Proof.
  revert k. induction sc as [|a sc IH]; intros k; simpl; [constructor|].
  destruct (isCandidate d a); [|apply IH].
  apply StronglySorted_cons. split; [|apply IH].
  apply Forall_forall. intros j Hj. apply elem_of_filterPositions in Hj.
  destruct Hj as (_ & Hk & _). unfold lt. lia.
Qed.

Lemma servedBefore_weaken (sc : list Scored) (x y : nat) :
  servedBefore sc x y -> (scoreAt sc y <= scoreAt sc x)%Q.
Proof.
  intros [H|[H _]]; [apply Qlt_le_weak; exact H|].
  rewrite H. apply Qle_refl.
Qed.

Lemma insertByScore_stable (sc : list Scored) (x : nat) (l : list nat) :
  Forall (fun y => (x < y)%nat) l ->
  StronglySorted (servedBefore sc) l ->
  StronglySorted (servedBefore sc) (insertByScore sc x l).
Proof.
  induction l as [|y l IH]; intros Hlt Hs; simpl.
  - repeat constructor.
  - apply Forall_cons in Hlt. destruct Hlt as [Hxy Hlt].
    apply StronglySorted_cons in Hs. destruct Hs as [Hy Hl].
    destruct (Qle_bool (scoreAt sc y) (scoreAt sc x)) eqn:E.
    + apply Qle_bool_iff in E.
      assert (Hfront : forall z, (scoreAt sc z <= scoreAt sc x)%Q -> (x < z)%nat ->
                                 servedBefore sc x z).
      { intros z Hz Hxz. destruct (Qlt_le_dec (scoreAt sc z) (scoreAt sc x)) as [H|H].
        - left. exact H.
        - right. split; [apply Qle_antisym; assumption | exact Hxz]. }
      apply StronglySorted_cons. split.
      * constructor; [apply Hfront; assumption|].
        rewrite Forall_forall in Hy, Hlt. apply Forall_forall. intros z Hz.
        apply Hfront; [|apply Hlt; exact Hz].
        eapply Qle_trans; [|exact E]. apply servedBefore_weaken. apply Hy. exact Hz.
      * apply StronglySorted_cons. auto.
    + assert (Hxy' : (scoreAt sc x < scoreAt sc y)%Q).
      { apply Qnot_le_lt. intros H. apply Qle_bool_iff in H. congruence. }
      apply StronglySorted_cons. split; [|apply IH; assumption].
      apply Forall_forall. intros z Hz.
      apply elem_of_insertByScore in Hz. destruct Hz as [->|Hz].
      * left. exact Hxy'.
      * rewrite Forall_forall in Hy. apply Hy. exact Hz.
Qed.

Lemma sortByScore_stable (sc : list Scored) (l : list nat) :
  StronglySorted lt l -> StronglySorted (servedBefore sc) (sortByScore sc l).
Proof.
  induction l as [|x l IH]; intros Hs; simpl; [constructor|].
  apply StronglySorted_cons in Hs. destruct Hs as [Hx Hl].
  apply insertByScore_stable; [|apply IH; exact Hl].
  apply Forall_forall. intros y Hy. apply elem_of_sortByScore in Hy.
  rewrite Forall_forall in Hx. apply Hx. exact Hy.
Qed.

(** X11.  The candidates of a day are the objects with minutes left that
    are not past due, each once, served by decreasing score; candidates
    with equal scores are served in the order of [scored]. *)
Theorem candidates_in_order (d : Z) (sc : list Scored) :
  NoDup (candidatesOf d sc)
  /\ (forall i, i ∈ candidatesOf d sc <->
        exists a, sc !! i = Some a /\ 0 < remainingMinutes a /\ d <= dueOf a)
  /\ StronglySorted (servedBefore sc) (candidatesOf d sc).
Proof.
  split; [apply candidatesOf_NoDup|]. split.
  - intros i. rewrite elem_of_candidatesOf. unfold isCandidate, dueOf.
    split; intros (a & Ha & H); exists a; (split; [exact Ha|]).
    + apply andb_true_iff in H. rewrite Z.ltb_lt, Z.leb_le in H. exact H.
    + apply andb_true_iff. rewrite Z.ltb_lt, Z.leb_le. exact H.
  - unfold candidatesOf. apply sortByScore_stable.
    apply filterPositions_increasing.
Qed.

(** * The pages around the generator *)

(** ** The texts that show a shortfall *)

Lemma pretty_N_char_digit (x : N) : isDigit (pretty_N_char x) = true.
Proof. unfold pretty_N_char. repeat case_match; reflexivity. Qed.

Lemma pretty_N_go_digits (x : N) (s : string) :
  allDigits s = true -> allDigits (pretty_N_go x s) = true.
Proof.
  revert s. induction (N.lt_wf_0 x) as [x _ IH]; intros s Hs.
  destruct (N.eq_dec x 0%N) as [->|Hx].
  - rewrite pretty_N_go_0. exact Hs.
  - rewrite pretty_N_go_step by lia. apply IH.
    + apply N.div_lt; lia.
    + simpl. rewrite pretty_N_char_digit. exact Hs.
Qed.

Lemma showZ_digits (n : Z) : 0 <= n -> allDigits (showZ n) = true.
Proof.
  intros Hn. destruct n as [|p|p]; [reflexivity| |lia].
  unfold showZ, pretty, pretty_Z, pretty, pretty_positive, pretty, pretty_N.
  destruct (decide _); [reflexivity|]. apply pretty_N_go_digits. reflexivity.
Qed.

(** A run of digits ends at the first character that is not a digit. *)
Lemma digits_then_inj (s1 s2 : string) (c1 c2 : ascii) (t1 t2 : string) :
  allDigits s1 = true -> allDigits s2 = true ->
  isDigit c1 = false -> isDigit c2 = false ->
  s1 +:+ String c1 t1 = s2 +:+ String c2 t2 ->
  s1 = s2 /\ c1 = c2 /\ t1 = t2.
Proof.
  revert s2. induction s1 as [|d r1 IH]; intros [|d' r2] H1 H2 Hc1 Hc2 E;
    simpl in *.
  - injection E as -> ->. auto.
  - injection E as -> _. apply andb_true_iff in H2. destruct H2. congruence.
  - injection E as -> _. apply andb_true_iff in H1. destruct H1. congruence.
  - injection E as -> E.
    apply andb_true_iff in H1, H2. destruct H1 as [_ H1], H2 as [_ H2].
    destruct (IH r2 H1 H2 Hc1 Hc2 E) as (-> & -> & ->). auto.
Qed.

Lemma showZ_inj (a b : Z) : showZ a = showZ b -> a = b.
Proof. unfold showZ. apply pretty_Z_inj. Qed.

Lemma hours_and_minutes (mins : Z) :
  0 <= mins ->
  mins = 60 * (mins / 60) + Z.rem mins 60
  /\ 0 <= mins / 60 /\ 0 <= Z.rem mins 60 < 60.
Proof.
  intros H. rewrite Z.rem_mod_nonneg by lia.
  pose proof (Z.div_mod mins 60 ltac:(lia)).
  pose proof (Z.mod_pos_bound mins 60 ltac:(lia)).
  pose proof (Z.div_pos mins 60 H ltac:(lia)). lia.
Qed.

Ltac split_digits E :=
  match type of E with
  | ?s1 +:+ String ?c1 ?t1 = ?s2 +:+ String ?c2 ?t2 =>
      let H := fresh "H" in
      assert (H : s1 = s2 /\ c1 = c2 /\ t1 = t2)
        by (apply digits_then_inj;
            [apply showZ_digits; lia | apply showZ_digits; lia
            | reflexivity | reflexivity | exact E]);
      destruct H as (?Hs & ?Hc & ?Ht)
  end.

(** X12.  The overload warning names the shortfall exactly: two different
    non-negative shortfalls never read the same. *)
Theorem minutesToShortfall_exact (m1 m2 : Z) :
  0 <= m1 -> 0 <= m2 ->
  minutesToShortfall m1 = minutesToShortfall m2 -> m1 = m2.
Proof.
  intros H1 H2. unfold minutesToShortfall.
  destruct (hours_and_minutes m1 H1) as (E1 & Hh1 & Hr1).
  destruct (hours_and_minutes m2 H2) as (E2 & Hh2 & Hr2).
  revert E1 E2 Hh1 Hh2 Hr1 Hr2.
  generalize (m1 / 60), (Z.rem m1 60), (m2 / 60), (Z.rem m2 60).
  intros h1 r1 h2 r2 E1 E2 Hh1 Hh2 Hr1 Hr2. cbv zeta.
  change " minutes" with (String " "%char "minutes").
  change " hours" with (String " "%char "hours").
  change ("h " +:+ ?x) with (String "h"%char (String " "%char x)).
  destruct (h1 <=? 0) eqn:A1; destruct (h2 <=? 0) eqn:A2;
    try (destruct (r1 =? 0) eqn:B1); try (destruct (r2 =? 0) eqn:B2);
    intros E; split_digits E; try discriminate;
    repeat match goal with
    | H : showZ _ = showZ _ |- _ => apply showZ_inj in H
    | H : (_ <=? _) = true |- _ => apply Z.leb_le in H
    | H : (_ <=? _) = false |- _ => apply Z.leb_gt in H
    | H : (_ =? _) = true |- _ => apply Z.eqb_eq in H
    | H : (_ =? _) = false |- _ => apply Z.eqb_neq in H
    end; try lia.
  change "m" with (String "m"%char "") in Ht.
  injection Ht as Ht. split_digits Ht.
  apply showZ_inj in Hs0. lia.
Qed.

Lemma minutesToShortfall_exact_witness :
  minutesToShortfall 61 <> minutesToShortfall 3660.
Proof.
  intros E.
  pose proof (minutesToShortfall_exact 61 3660 ltac:(lia) ltac:(lia) E). lia.
Defined.

Ltac read_numbers :=
  repeat match goal with
  | H : showZ _ = showZ _ |- _ => apply showZ_inj in H
  | H : (_ <=? _) = true |- _ => apply Z.leb_le in H
  | H : (_ <=? _) = false |- _ => apply Z.leb_gt in H
  | H : (_ =? _) = true |- _ => apply Z.eqb_eq in H
  | H : (_ =? _) = false |- _ => apply Z.eqb_neq in H
  end.

(** X13.  On the plan page and the dashboard a shortfall reads "0m"
    exactly when it is zero or negative, and two different positive
    shortfalls never read the same. *)
Theorem formatShortfall_reading (m1 m2 : Z) :
  (formatShortfall m1 = "0m" <-> m1 <= 0)
  /\ (0 < m1 -> 0 < m2 -> formatShortfall m1 = formatShortfall m2 -> m1 = m2).
Proof.
  assert (Hnz : forall m, 0 < m -> formatShortfall m <> "0m").
  { intros m Hm. unfold formatShortfall.
    destruct (hours_and_minutes m ltac:(lia)) as (E & Hh & Hr).
    revert E Hh Hr. generalize (m / 60), (Z.rem m 60). intros h r E Hh Hr.
    cbv zeta. destruct (m <=? 0) eqn:A; [apply Z.leb_le in A; lia|].
    change "0m" with (showZ 0 +:+ String "m"%char "").
    change "m" with (String "m"%char "").
    change "h" with (String "h"%char "").
    change ("h " +:+ ?x) with (String "h"%char (String " "%char x)).
    destruct (h <=? 0) eqn:B; [|destruct (r =? 0) eqn:C];
      intros E'; split_digits E'; try discriminate; read_numbers; lia. }
  split.
  - split.
    + intros E. destruct (Z.le_gt_cases m1 0) as [H|H]; [exact H|].
      exfalso. apply (Hnz m1); [lia | exact E].
    + intros H. unfold formatShortfall. apply Z.leb_le in H. rewrite H.
      reflexivity.
  - intros H1 H2. unfold formatShortfall.
    destruct (hours_and_minutes m1 ltac:(lia)) as (E1 & Hh1 & Hr1).
    destruct (hours_and_minutes m2 ltac:(lia)) as (E2 & Hh2 & Hr2).
    revert E1 E2 Hh1 Hh2 Hr1 Hr2.
    generalize (m1 / 60), (Z.rem m1 60), (m2 / 60), (Z.rem m2 60).
    intros h1 r1 h2 r2 E1 E2 Hh1 Hh2 Hr1 Hr2. cbv zeta.
    destruct (m1 <=? 0) eqn:Z1; [apply Z.leb_le in Z1; lia|].
    destruct (m2 <=? 0) eqn:Z2; [apply Z.leb_le in Z2; lia|].
    change "m" with (String "m"%char "").
    change "h" with (String "h"%char "").
    change ("h " +:+ ?x) with (String "h"%char (String " "%char x)).
    destruct (h1 <=? 0) eqn:A1; destruct (h2 <=? 0) eqn:A2;
      try (destruct (r1 =? 0) eqn:B1); try (destruct (r2 =? 0) eqn:B2);
      intros E; split_digits E; try discriminate; read_numbers; try lia.
    injection Ht as Ht. split_digits Ht. read_numbers. lia.
Qed.

Lemma formatShortfall_reading_witness :
  formatShortfall 90 <> formatShortfall 91.
Proof.
  intros E.
  pose proof (proj2 (formatShortfall_reading 90 91) ltac:(lia) ltac:(lia) E).
  lia.
Defined.

(** ** Progress on the plan page *)

Lemma orZero_id (m : Z) : orZero m = m.
Proof. unfold orZero. destruct (m =? 0) eqn:E; [|reflexivity]. apply Z.eqb_eq in E. lia. Qed.

Lemma Math_round_mono (x y : Q) : (x <= y)%Q -> Math_round x <= Math_round y.
Proof.
  intros H. unfold Math_round. apply Qfloor_resp_le.
  apply Qplus_le_l. exact H.
Qed.

Lemma share_bounds (d t : Z) :
  0 <= d <= t -> 0 < t ->
  (0 <= inject_Z d / inject_Z t * 100)%Q
  /\ (inject_Z d / inject_Z t * 100 <= 100)%Q.
Proof.
  intros Hd Ht. destruct t as [|t|t]; try lia.
  unfold Qle, Qdiv, Qmult, Qinv, inject_Z. simpl. split; lia.
Qed.

Lemma share_all (t : Z) : 0 < t -> (inject_Z t / inject_Z t * 100 == 100)%Q.
Proof.
  intros Ht. destruct t as [|t|t]; try lia.
  unfold Qeq, Qdiv, Qmult, Qinv, inject_Z. simpl. lia.
Qed.

Lemma share_none (t : Z) : 0 < t -> (inject_Z 0 / inject_Z t * 100 == 0)%Q.
Proof.
  intros Ht. destruct t as [|t|t]; try lia.
  unfold Qeq, Qdiv, Qmult, Qinv, inject_Z. simpl. lia.
Qed.

Lemma foldl_plus_shift (A : Type) (g : A -> Z) (l : list A) (a : Z) :
  foldl (fun sum x => sum + g x) a l = a + foldl (fun sum x => sum + g x) 0 l.
Proof.
  revert a. induction l as [|x l IH]; intros a; simpl; [lia|].
  rewrite (IH (a + g x)), (IH (0 + g x)). lia.
Qed.

Lemma foldl_plus_le (A : Type) (g h : A -> Z) (l : list A) :
  Forall (fun x => 0 <= g x <= h x) l ->
  0 <= foldl (fun sum x => sum + g x) 0 l <= foldl (fun sum x => sum + h x) 0 l.
Proof.
  induction 1 as [|x l Hx _ IH]; simpl; [lia|].
  rewrite (foldl_plus_shift _ g l (0 + g x)).
  rewrite (foldl_plus_shift _ h l (0 + h x)). lia.
Qed.

Lemma filter_length_zero (A : Type) (P : A -> Prop) `{!forall x, Decision (P x)}
    (l : list A) :
  Forall (fun x => ~ P x) l -> length (filter P l) = 0%nat.
Proof.
  intros Hall. rewrite filter_none; [reflexivity|].
  apply Forall_forall. exact Hall.
Qed.

(** X14.  The progress of a day: the done tasks are at most the tasks, the
    percentage lies between 0 and 100 (so the clamp on the progress bar
    leaves it as it is), it is 100 when every task of a non-empty day is
    done and 0 when none is, and the done minutes are at most the planned
    ones when no duration is negative. *)
Theorem progressStats_bounds (dayItems : list PlanItem) :
  0 <= PlanPage.doneTasks (PlanPage.progressStats dayItems)
    <= PlanPage.totalTasks (PlanPage.progressStats dayItems)
  /\ 0 <= PlanPage.pct (PlanPage.progressStats dayItems) <= 100
  /\ clamp (PlanPage.pct (PlanPage.progressStats dayItems)) 0 100
     = PlanPage.pct (PlanPage.progressStats dayItems)
  /\ (dayItems <> [] -> Forall (fun x => done x = true) dayItems ->
      PlanPage.pct (PlanPage.progressStats dayItems) = 100)
  /\ (Forall (fun x => done x = false) dayItems ->
      PlanPage.doneTasks (PlanPage.progressStats dayItems) = 0
      /\ PlanPage.pct (PlanPage.progressStats dayItems) = 0)
  /\ (Forall (fun x => 0 <= minutes x) dayItems ->
      0 <= PlanPage.doneMinutes (PlanPage.progressStats dayItems)
        <= PlanPage.totalMinutes (PlanPage.progressStats dayItems)).
Proof.
  unfold PlanPage.progressStats.
  cbn [PlanPage.doneTasks PlanPage.totalTasks PlanPage.pct
       PlanPage.doneMinutes PlanPage.totalMinutes].
  pose proof (length_filter (fun x => done x = true) dayItems) as Hlen.
  set (t := Z.of_nat (length dayItems)) in *.
  set (dn := Z.of_nat (length (filter (fun x => done x = true) dayItems))) in *.
  assert (Hd : 0 <= dn <= t) by (unfold dn, t; lia).
  assert (Hpct : 0 <= (if t =? 0 then 0
                       else Math_round (inject_Z dn / inject_Z t * 100)%Q) <= 100).
  { destruct (t =? 0) eqn:E; [lia|]. apply Z.eqb_neq in E.
    destruct (share_bounds dn t Hd ltac:(lia)) as [H0 H100].
    apply Math_round_mono in H0, H100.
    change (Math_round 0) with 0 in H0. change (Math_round 100) with 100 in H100.
    lia. }
  split; [exact Hd|]. split; [exact Hpct|]. split; [unfold clamp; lia|].
  split; [|split].
  - intros Hne Hall.
    assert (Hdt : dn = t).
    { unfold dn, t. f_equal. f_equal. apply filter_all.
      apply Forall_forall. exact Hall. }
    assert (0 < t) by (unfold t; destruct dayItems; [congruence | simpl; lia]).
    destruct (t =? 0) eqn:E; [apply Z.eqb_eq in E; lia|].
    rewrite Hdt. change 100 with (Math_round 100) at 2.
    unfold Math_round. apply Qfloor_comp. apply Qplus_comp; [|reflexivity].
    apply share_all. assumption.
  - intros Hall.
    assert (Hz : dn = 0).
    { unfold dn. rewrite filter_length_zero; [reflexivity|].
      eapply Forall_impl; [exact Hall|]. intros x Hx. simpl. congruence. }
    split; [exact Hz|].
    destruct (t =? 0) eqn:E; [reflexivity|]. apply Z.eqb_neq in E.
    rewrite Hz. change 0 with (Math_round 0) at 2.
    unfold Math_round. apply Qfloor_comp. apply Qplus_comp; [|reflexivity].
    apply share_none. lia.
  - intros Hmin. apply foldl_plus_le.
    eapply Forall_impl; [exact Hmin|]. intros x Hx. cbv beta in *.
    rewrite !orZero_id. destruct (done x); lia.
Qed.

Lemma progressStats_bounds_witness :
  PlanPage.pct (PlanPage.progressStats [Scenario.oldBlock 0; Scenario.oldBlock 0])
  = 100.
Proof.
  apply (progressStats_bounds [Scenario.oldBlock 0; Scenario.oldBlock 0]).
  - discriminate.
  - repeat constructor.
Defined.

Lemma progressStats_none_done (dayItems : list PlanItem) :
  Forall (fun x => done x = false) dayItems ->
  PlanPage.doneTasks (PlanPage.progressStats dayItems) = 0
  /\ PlanPage.pct (PlanPage.progressStats dayItems) = 0.
Proof.
  intros Hall. unfold PlanPage.progressStats.
  cbn [PlanPage.doneTasks PlanPage.pct].
  rewrite filter_length_zero
    by (eapply Forall_impl; [exact Hall|]; intros x Hx; simpl; congruence).
  split; [reflexivity|].
  destruct (Z.of_nat (length dayItems) =? 0) eqn:E; [reflexivity|].
  apply Z.eqb_neq in E. change (Z.of_nat 0) with 0.
  change 0 with (Math_round 0) at 2.
  unfold Math_round. apply Qfloor_comp. apply Qplus_comp; [|reflexivity].
  apply share_none. lia.
Qed.

(** ** The plan a page loads after a run *)

Lemma loaded_after_run (userId : string) (now stamp : Z) (s : Store) :
  assessmentsOf userId now s <> [] ->
  PlanPage.loadPlan userId (dayDates now)
    (fst (generatePlanForUser userId now stamp s))
  = planRows (planOf userId now s).
Proof.
  intros Hne. rewrite generate_store.
  destruct (assessmentsOf userId now s); [congruence|].
  unfold PlanPage.loadPlan. simpl.
  rewrite filter_app, filter_opposite, rows_all_inWindow. reflexivity.
Qed.

Lemma rows_not_done (userId : string) (now : Z) (s : Store) :
  Forall (fun r => done r = false) (planRows (planOf userId now s)).
Proof.
  eapply Forall_impl; [apply planOf_rowOK|]. intros r (_ & H & _). exact H.
Qed.

(** X15.  Generating again wipes the progress: after a run for which an
    assessment qualifies, no block the plan page loads is done, so every
    day shows 0 tasks done and 0 percent. *)
Theorem regeneration_resets_progress (userId : string) (now stamp : Z)
    (s : Store) (d : Z) :
  assessmentsOf userId now s <> [] ->
  Forall (fun r => done r = false)
    (PlanPage.loadPlan userId (dayDates now)
       (fst (generatePlanForUser userId now stamp s)))
  /\ PlanPage.doneTasks
       (PlanPage.progressStats
          (filter (fun r => plan_date r = d)
             (PlanPage.loadPlan userId (dayDates now)
                (fst (generatePlanForUser userId now stamp s))))) = 0
  /\ PlanPage.pct
       (PlanPage.progressStats
          (filter (fun r => plan_date r = d)
             (PlanPage.loadPlan userId (dayDates now)
                (fst (generatePlanForUser userId now stamp s))))) = 0.
Proof.
  intros Hne. rewrite (loaded_after_run userId now stamp s Hne).
  pose proof (rows_not_done userId now s) as Hnd.
  revert Hnd. generalize (planRows (planOf userId now s)). intros rows Hnd.
  split; [exact Hnd|].
  apply (progressStats_none_done (filter (fun r => plan_date r = d) rows)).
  apply Forall_forall. intros r Hr. apply list_elem_of_filter in Hr.
  rewrite Forall_forall in Hnd. apply Hnd. tauto.
Qed.

Lemma regeneration_resets_progress_witness :
  PlanPage.pct
    (PlanPage.progressStats
       (filter (fun r => plan_date r = 2)
          (PlanPage.loadPlan "u" (dayDates 0)
             (fst (generatePlanForUser "u" 0 5
                (Scenario.store [] [Scenario.essay 6 3] [Scenario.oldBlock 2]))))))
  = 0.
Proof.
  apply (regeneration_resets_progress "u" 0 5
           (Scenario.store [] [Scenario.essay 6 3] [Scenario.oldBlock 2]) 2).
  vm_compute. discriminate.
Defined.

(** ** The week on the dashboard *)

Lemma zero_totals_lookup (dates : list Z) (d : Z) :
  foldl (fun totals x => <[x := 0]> totals) (∅ : gmap Z Z) dates !! d
  = if decide (d ∈ dates) then Some 0 else None.
Proof.
  induction dates as [|x dates IH] using rev_ind.
  - simpl. rewrite lookup_empty.
    destruct (decide (d ∈ [])) as [H|_]; [|reflexivity].
    apply elem_of_nil in H. contradiction.
  - rewrite foldl_app. simpl. destruct (decide (x = d)) as [->|Hne].
    + rewrite lookup_insert_eq. rewrite decide_True; [reflexivity|].
      apply elem_of_app. right. left.
    + rewrite lookup_insert_ne by exact Hne. rewrite IH.
      destruct (decide (d ∈ dates)) as [Hin|Hout].
      * rewrite decide_True; [reflexivity|]. apply elem_of_app. left. exact Hin.
      * rewrite decide_False; [reflexivity|]. intros H.
        apply elem_of_app in H. destruct H as [H|H]; [contradiction|].
        apply list_elem_of_singleton in H. congruence.
Qed.

Lemma weekTotals_get (dates : list Z) (items : list PlanItem) (d : Z) :
  Dashboard.weekTotals dates items !! d
  = if decide (d ∈ dates \/ Exists (fun it => plan_date it = d) items)
    then Some (minutesOn d items) else None.
Proof.
  unfold Dashboard.weekTotals.
  induction items as [|it items IH] using rev_ind.
  - simpl. rewrite zero_totals_lookup.
    destruct (decide (d ∈ dates)) as [Hin|Hout].
    + rewrite decide_True by (left; exact Hin).
      unfold minutesOn. simpl. rewrite sumZ_nil. reflexivity.
    + rewrite decide_False; [reflexivity|].
      intros [H|H]; [contradiction | inversion H].
  - rewrite foldl_app. simpl. rewrite minutesOn_snoc, orZero_id.
    destruct (decide (plan_date it = d)) as [E|E].
    + rewrite E, lookup_insert_eq, IH.
      destruct (decide (d ∈ dates \/ Exists _ (items ++ [it]))) as [_|Hn];
        [|exfalso; apply Hn; right; apply Exists_app; right; left; exact E].
      destruct (decide (d ∈ dates \/ Exists _ items)) as [_|Hn];
        [reflexivity|].
      simpl. f_equal. f_equal. unfold minutesOn.
      rewrite filter_none; [reflexivity|].
      intros r Hr Hd. apply Hn. right. apply Exists_exists. eauto.
    + rewrite lookup_insert_ne by exact E. rewrite IH, Z.add_0_r.
      apply decide_ext. rewrite Exists_app. split.
      * intros [H|H]; auto.
      * intros [H|[H|H]]; auto. exfalso.
        apply Exists_cons in H. destruct H as [H|H]; [contradiction | inversion H].
Qed.

(** X16.  The dashboard's total of a date is the sum of the durations of
    the items dated on it; every date of the window has a total, 0 when no
    item is dated on it, and a date outside the window has one only when
    an item is dated on it. *)
Theorem weekTotals_lookup (dates : list Z) (items : list PlanItem) (d : Z) :
  Dashboard.weekTotals dates items !! d
  = if decide (d ∈ dates \/ Exists (fun it => plan_date it = d) items)
    then Some (minutesOn d items) else None.
Proof. apply weekTotals_get. Qed.

Lemma sumZ_perm (l k : list Z) : l ≡ₚ k -> sumZ l = sumZ k.
Proof.
  induction 1 as [|x l k _ IH|x y l|l k m _ IH1 _ IH2].
  - reflexivity.
  - rewrite !sumZ_cons, IH. reflexivity.
  - rewrite !sumZ_cons. lia.
  - congruence.
Qed.

Lemma minutesOn_perm (d : Z) (l k : list PlanItem) :
  l ≡ₚ k -> minutesOn d l = minutesOn d k.
Proof.
  intros H. unfold minutesOn. apply sumZ_perm.
  change (map minutes ?x) with (minutes <$> x). rewrite H. reflexivity.
Qed.

Lemma capacity_bound (userId : string) (now : Z) (s : Store) (d : Z) :
  Forall (fun r => (0 <= av_hours_available r)%Q) (availRowsOf userId s) ->
  d ∈ dayDates now ->
  minutesOn d (planRows (planOf userId now s))
  <= Math_round (hoursAvailable (availRowsOf userId s) (weekdayOf d) * 60)%Q.
Proof.
  intros Hav Hd. apply list_elem_of_lookup in Hd. destruct Hd as [k Hk].
  assert (Hk7 : (k < 7)%nat) by (apply dayDates_lookup in Hk; tauto).
  destruct (capacity_defined userId now s k Hk7) as [c Hc].
  destruct (planOf_withinCapacity userId now s k d c Hk Hc) as (Hle & _ & _).
  specialize (Hle Hk7).
  rewrite <- (capacity_of_day userId now s k d c Hk Hc).
  pose proof (capacity_nonneg userId now s Hav) as Hnn.
  rewrite Forall_forall in Hnn.
  assert (0 <= c) by (apply Hnn; eapply list_elem_of_lookup_2; exact Hc).
  lia.
Qed.

(** X17.  After a run for which an assessment qualifies, with non-negative
    availability, no bar of the dashboard's week is longer than the
    capacity of its day, in whatever order the store returns the items. *)
Theorem dashboard_within_capacity (userId : string) (now stamp : Z)
    (s : Store) (items : list PlanItem) (d : Z) :
  assessmentsOf userId now s <> [] ->
  Forall (fun r => (0 <= av_hours_available r)%Q) (availRowsOf userId s) ->
  items ≡ₚ PlanPage.loadPlan userId (dayDates now)
             (fst (generatePlanForUser userId now stamp s)) ->
  d ∈ dayDates now ->
  exists total,
    Dashboard.weekTotals (dayDates now) items !! d = Some total
    /\ 0 <= total
       <= Math_round (hoursAvailable (availRowsOf userId s) (weekdayOf d) * 60)%Q.
Proof.
  intros Hne Hav Hperm Hd.
  rewrite (loaded_after_run userId now stamp s Hne) in Hperm.
  exists (minutesOn d items). split.
  - rewrite weekTotals_get. apply decide_True. left. exact Hd.
  - rewrite (minutesOn_perm d _ _ Hperm). split.
    + apply minutesOn_nonneg. rewrite planOf_eq. apply planAfterDays_positive.
    + apply capacity_bound; assumption.
Qed.

Lemma dashboard_within_capacity_witness :
  exists total,
    Dashboard.weekTotals (dayDates 0)
      (planRows (planOf "u" 0 (Scenario.store [] [Scenario.essay 6 3] [])))
      !! 1 = Some total
    /\ 0 <= total <= 120.
Proof.
  apply (dashboard_within_capacity "u" 0 5
           (Scenario.store [] [Scenario.essay 6 3] [])
           (planRows (planOf "u" 0 (Scenario.store [] [Scenario.essay 6 3] []))) 1).
  - vm_compute. discriminate.
  - constructor.
  - vm_compute. reflexivity.
  - apply (list_elem_of_lookup_2 _ 1%nat). reflexivity.
Defined.

(** ** Clearing the week, and ticking an item off *)

Lemma pair_by_parts {A B : Type} (p q : A * B) :
  fst p = fst q -> snd p = snd q -> p = q.
Proof. destruct p, q. simpl. congruence. Qed.

Lemma delete_twice (userId : string) (dates : list Z) (s : Store) :
  deletePlanItems userId dates (deletePlanItems userId dates s)
  = deletePlanItems userId dates s.
Proof. unfold deletePlanItems. simpl. f_equal. apply filter_twice. Qed.

(** X18.  Clearing the week removes the user's blocks of the window and
    nothing else; a run for which an assessment qualifies gives the same
    store and the same result whether or not the week was cleared first. *)
Theorem clearWeek_then_generate (userId : string) (now stamp : Z) (s : Store) :
  PlanPage.loadPlan userId (dayDates now)
    (PlanPage.clearWeek userId (dayDates now) s) = []
  /\ filter (fun r => inWindow userId (dayDates now) r = false)
       (plan_items (PlanPage.clearWeek userId (dayDates now) s))
     = filter (fun r => inWindow userId (dayDates now) r = false) (plan_items s)
  /\ (assessmentsOf userId now s <> [] ->
      generatePlanForUser userId now stamp
        (PlanPage.clearWeek userId (dayDates now) s)
      = generatePlanForUser userId now stamp s).
Proof.
  unfold PlanPage.loadPlan, PlanPage.clearWeek. split; [|split].
  - simpl. apply filter_opposite.
  - simpl. apply filter_twice.
  - intros Hne.
    destruct (planning_inputs userId now now
                (deletePlanItems userId (dayDates now) s) s
                eq_refl eq_refl eq_refl eq_refl) as (_ & Ha & Hp & Ht).
    apply pair_by_parts.
    + rewrite !generate_store, Ha, Hp.
      destruct (assessmentsOf userId now s); [congruence|].
      rewrite delete_twice. reflexivity.
    + apply generate_result; assumption.
Qed.

Lemma clearWeek_then_generate_witness :
  generatePlanForUser "u" 0 5
    (PlanPage.clearWeek "u" (dayDates 0)
       (Scenario.store [] [Scenario.essay 1 0] [Scenario.oldBlock 3]))
  = generatePlanForUser "u" 0 5
      (Scenario.store [] [Scenario.essay 1 0] [Scenario.oldBlock 3]).
Proof.
  apply (clearWeek_then_generate "u" 0 5
           (Scenario.store [] [Scenario.essay 1 0] [Scenario.oldBlock 3])).
  vm_compute. discriminate.
Defined.

Lemma setDone_same (r : PlanItem) : PlanPage.setDone (done r) r = r.
Proof. destruct r. reflexivity. Qed.

Lemma setDone_twice (b c : bool) (r : PlanItem) :
  PlanPage.setDone b (PlanPage.setDone c r) = PlanPage.setDone b r.
Proof. reflexivity. Qed.

Lemma item_by_id (l : list PlanPage.Item) (x y : PlanPage.Item) :
  NoDup (map PlanPage.item_id l) -> x ∈ l -> y ∈ l ->
  PlanPage.item_id x = PlanPage.item_id y -> x = y.
Proof.
  intros Hnd Hx Hy E.
  apply list_elem_of_lookup in Hx, Hy. destruct Hx as [i Hi], Hy as [j Hj].
  assert (i = j).
  { apply (NoDup_lookup _ i j (PlanPage.item_id x) Hnd).
    - change (map ?f ?k) with (f <$> k). rewrite list_lookup_fmap, Hi. reflexivity.
    - change (map ?f ?k) with (f <$> k). rewrite list_lookup_fmap, Hj, E.
      reflexivity. }
  subst j. congruence.
Qed.

(** X19.  Ticking an item flips the flag of the items with its id and
    leaves the others; ticking twice gives the list back; and when the ids
    are distinct, the rollback after a refused update gives back the list
    the tick started from. *)
Theorem toggleDone_rollback (item : PlanPage.Item) (prev : list PlanPage.Item) :
  PlanPage.toggleDone item (PlanPage.toggleDone item prev) = prev
  /\ map PlanPage.item_id (PlanPage.toggleDone item prev)
     = map PlanPage.item_id prev
  /\ (forall x, x ∈ prev -> PlanPage.item_id x <> PlanPage.item_id item ->
        x ∈ PlanPage.toggleDone item prev)
  /\ (NoDup (map PlanPage.item_id prev) -> item ∈ prev ->
      PlanPage.rollback item (PlanPage.toggleDone item prev) = prev).
Proof.
  unfold PlanPage.toggleDone, PlanPage.rollback.
  split; [|split; [|split]].
  - rewrite map_map. rewrite <- (map_id prev) at 2. apply map_ext.
    intros [i r]. simpl. destruct (decide (i = PlanPage.item_id item)); simpl.
    + rewrite decide_True by assumption. rewrite setDone_twice.
      rewrite negb_involutive, setDone_same. reflexivity.
    + rewrite decide_False by assumption. reflexivity.
  - rewrite map_map. apply map_ext. intros x.
    destruct (decide _); reflexivity.
  - intros x Hx Hne. apply list_elem_of_In. apply in_map_iff. exists x.
    split; [|apply list_elem_of_In; exact Hx].
    rewrite decide_False by exact Hne. reflexivity.
  - intros Hnd Hitem. rewrite map_map. rewrite <- (map_id prev) at 2.
    apply map_ext_in. intros x Hx. apply list_elem_of_In in Hx.
    destruct (decide (PlanPage.item_id x = PlanPage.item_id item)) as [E|E]; simpl.
    + rewrite decide_True by exact E.
      assert (x = item) by (apply (item_by_id prev); assumption). subst x.
      rewrite setDone_twice, setDone_same. destruct item. reflexivity.
    + rewrite decide_False by exact E. reflexivity.
Qed.

Lemma toggleDone_rollback_witness :
  PlanPage.rollback
    {| PlanPage.item_id := "i1"; PlanPage.item_row := Scenario.oldBlock 0 |}
    (PlanPage.toggleDone
       {| PlanPage.item_id := "i1"; PlanPage.item_row := Scenario.oldBlock 0 |}
       [ {| PlanPage.item_id := "i1"; PlanPage.item_row := Scenario.oldBlock 0 |};
         {| PlanPage.item_id := "i2"; PlanPage.item_row := Scenario.oldBlock 1 |} ])
  = [ {| PlanPage.item_id := "i1"; PlanPage.item_row := Scenario.oldBlock 0 |};
      {| PlanPage.item_id := "i2"; PlanPage.item_row := Scenario.oldBlock 1 |} ].
Proof.
  apply (toggleDone_rollback
           {| PlanPage.item_id := "i1"; PlanPage.item_row := Scenario.oldBlock 0 |}).
  - by_compute.
  - left.
Defined.

(** ** Saving and loading the availability *)

Lemma hoursAvailable_entry (u : string) (w : Z) (t : list AvailabilityRow) :
  hoursAvailable (filter (fun r => av_user_id r = u) t) w
  = match entryOf u w t with
    | Some r => av_hours_available r
    | None => 2%Q
    end.
Proof. unfold hoursAvailable, entryOf. rewrite list_filter_filter. reflexivity. Qed.

Lemma sameKey_true (r x : AvailabilityRow) :
  AvailabilityPage.sameKey r x = true
  <-> av_user_id x = av_user_id r /\ av_weekday x = av_weekday r.
Proof.
  unfold AvailabilityPage.sameKey.
  rewrite andb_true_iff, !bool_decide_eq_true. tauto.
Qed.

Lemma last_elem_of {A : Type} (l : list A) (x : A) : last l = Some x -> x ∈ l.
Proof. rewrite last_lookup. apply list_elem_of_lookup_2. Qed.

Lemma filter_fmap_same {A : Type} (P : A -> Prop) `{!forall x, Decision (P x)}
    (f : A -> A) (l : list A) :
  (forall x, P (f x) <-> P x) -> filter P (f <$> l) = f <$> filter P l.
Proof.
  intros Hf. induction l as [|x l IH]; [reflexivity|].
  rewrite fmap_cons, !filter_cons.
  destruct (decide (P x)) as [Hx|Hx].
  - rewrite decide_True by (apply Hf; exact Hx). rewrite fmap_cons, IH.
    reflexivity.
  - rewrite decide_False by (rewrite Hf; exact Hx). exact IH.
Qed.

Lemma upsertOne_entry (u : string) (w : Z) (t : list AvailabilityRow)
    (r : AvailabilityRow) :
  entryOf u w (AvailabilityPage.upsertOne t r)
  = if decide (av_weekday r = w /\ av_user_id r = u) then Some r
    else entryOf u w t.
Proof.
  unfold AvailabilityPage.upsertOne, entryOf.
  destruct (existsb _ t) eqn:Ex.
  - change (map ?f ?l) with (f <$> l). rewrite filter_fmap_same.
    2:{ intros x. destruct (AvailabilityPage.sameKey r x) eqn:K; [|tauto].
        apply sameKey_true in K. destruct K as [K1 K2]. rewrite K1, K2. tauto. }
    rewrite fmap_last.
    destruct (decide _) as [[Hw Hu]|Hn].
    + apply existsb_exists in Ex. destruct Ex as (x & Hx & K).
      apply list_elem_of_In in Hx. apply sameKey_true in K.
      destruct (last _) as [y|] eqn:L.
      * simpl. apply last_elem_of in L. apply list_elem_of_filter in L.
        destruct L as [[Ly1 Ly2] _].
        assert (Ky : AvailabilityPage.sameKey r y = true)
          by (apply sameKey_true; split; congruence).
        rewrite Ky. reflexivity.
      * apply last_None in L.
        assert (Hin : x ∈ filter (fun x => av_weekday x = w /\ av_user_id x = u) t).
        { apply list_elem_of_filter. split; [|exact Hx].
          destruct K as [K1 K2]. split; congruence. }
        rewrite L in Hin. inversion Hin.
    + destruct (last _) as [y|] eqn:L; [|reflexivity].
      simpl. apply last_elem_of in L. apply list_elem_of_filter in L.
      destruct L as [[Ly1 Ly2] _].
      destruct (AvailabilityPage.sameKey r y) eqn:Ky; [|reflexivity].
      apply sameKey_true in Ky. destruct Ky as [K1 K2].
      exfalso. apply Hn. split; congruence.
  - rewrite filter_app, filter_cons, filter_nil. destruct (decide _).
    + rewrite last_snoc. reflexivity.
    + rewrite app_nil_r. reflexivity.
Qed.

Lemma saveRows_snoc (u : string) (hs : list Q) (h : Q) :
  AvailabilityPage.saveRows u (hs ++ [h])
  = AvailabilityPage.saveRows u hs
    ++ [ {| av_user_id := u; av_weekday := Z.of_nat (length hs);
            av_hours_available := h |} ].
Proof.
  unfold AvailabilityPage.saveRows. rewrite imap_app. simpl.
  rewrite Nat.add_0_r. reflexivity.
Qed.

Lemma upsertAvailability_entry (u u' : string) (w : Z) (hours : list Q)
    (t : list AvailabilityRow) :
  entryOf u' w
    (AvailabilityPage.upsertAvailability (AvailabilityPage.saveRows u hours) t)
  = match (if decide (u' = u /\ 0 <= w) then hours !! Z.to_nat w else None) with
    | Some h => Some {| av_user_id := u; av_weekday := w;
                        av_hours_available := h |}
    | None => entryOf u' w t
    end.
Proof.
  induction hours as [|h hs IH] using rev_ind.
  - simpl. destruct (decide _); reflexivity.
  - rewrite saveRows_snoc. unfold AvailabilityPage.upsertAvailability in *.
    rewrite foldl_app. simpl. rewrite upsertOne_entry. simpl.
    destruct (decide (Z.of_nat (length hs) = w /\ u = u')) as [[Hw Hu]|Hn].
    + subst u' w. rewrite decide_True by (split; [reflexivity | lia]).
      rewrite Nat2Z.id, list_lookup_middle by reflexivity. reflexivity.
    + rewrite IH. destruct (decide (u' = u /\ 0 <= w)) as [[Hu H0]|Hd];
        [|reflexivity].
      destruct (decide (Z.to_nat w < length hs)%nat) as [Hlt|Hge].
      * rewrite lookup_app_l by exact Hlt. reflexivity.
      * assert (Hne : Z.to_nat w <> length hs).
        { intros E. apply Hn. split; [lia | congruence]. }
        rewrite (proj2 (lookup_ge_None (hs ++ [h]) _))
          by (rewrite length_app; simpl; lia).
        rewrite (proj2 (lookup_ge_None hs _)) by lia. reflexivity.
Qed.

Lemma saved_hours_entry (userId : string) (hours : list Q) (s : Store)
    (wd : nat) (h : Q) :
  hours !! wd = Some h ->
  hoursAvailable
    (availRowsOf userId (AvailabilityPage.saveAvailability userId hours s))
    (Z.of_nat wd) = h.
Proof.
  intros Hh. unfold availRowsOf, AvailabilityPage.saveAvailability. simpl.
  rewrite hoursAvailable_entry, upsertAvailability_entry.
  rewrite decide_True by (split; [reflexivity | lia]).
  rewrite Nat2Z.id, Hh. reflexivity.
Qed.

(** X20.  After Save, the generator reads for each weekday that has a
    slider the hours of that slider, whatever the table held before, and
    it reads for every other user what it read before. *)
Theorem saved_hours_are_read (userId : string) (hours : list Q) (s : Store)
    (wd : nat) (h : Q) :
  hours !! wd = Some h ->
  hoursAvailable
    (availRowsOf userId (AvailabilityPage.saveAvailability userId hours s))
    (Z.of_nat wd) = h
  /\ (forall u w, u <> userId ->
        hoursAvailable
          (availRowsOf u (AvailabilityPage.saveAvailability userId hours s)) w
        = hoursAvailable (availRowsOf u s) w).
Proof.
  intros Hh. split.
  - apply saved_hours_entry. exact Hh.
  - intros u w Hu. unfold availRowsOf, AvailabilityPage.saveAvailability. simpl.
    rewrite !hoursAvailable_entry, upsertAvailability_entry.
    rewrite decide_False by tauto. reflexivity.
Qed.

Lemma saved_hours_are_read_witness :
  hoursAvailable
    (availRowsOf "u"
       (AvailabilityPage.saveAvailability "u" [1; 2; 3; 4; 5; 6; 7]%Q
          (Scenario.store (Scenario.everyDay 9) [] [])))
    (Z.of_nat 2) = 3%Q.
Proof.
  apply (saved_hours_are_read "u" [1; 2; 3; 4; 5; 6; 7]%Q
           (Scenario.store (Scenario.everyDay 9) [] []) 2 3%Q).
  reflexivity.
Defined.

Lemma weekdayOf_range (d : Z) : 0 <= weekdayOf d < 7.
Proof. unfold weekdayOf. apply Z.mod_pos_bound. lia. Qed.

(** X21.  Save and the run that follows it: with seven sliders, none
    negative, the blocks planned for a date of the window last together
    at most round(60 x the slider of that date's weekday), whatever the
    availability table held before. *)
Theorem plan_after_save (userId : string) (now : Z) (hours : list Q)
    (s : Store) (d : Z) :
  length hours = 7%nat ->
  Forall (fun h => (0 <= h)%Q) hours ->
  d ∈ dayDates now ->
  exists h,
    hours !! Z.to_nat (weekdayOf d) = Some h
    /\ minutesOn d
         (planRows (planOf userId now
                      (AvailabilityPage.saveAvailability userId hours s)))
       <= Math_round (h * 60)%Q.
Proof.
  intros Hlen Hnn Hd.
  pose proof (weekdayOf_range d) as Hwd.
  destruct (lookup_lt_is_Some_2 hours (Z.to_nat (weekdayOf d))) as [h Hh];
    [lia|].
  exists h. split; [exact Hh|].
  set (s' := AvailabilityPage.saveAvailability userId hours s).
  apply list_elem_of_lookup in Hd. destruct Hd as [k Hk].
  assert (Hk7 : (k < 7)%nat) by (apply dayDates_lookup in Hk; tauto).
  destruct (capacity_defined userId now s' k Hk7) as [c Hc].
  destruct (planOf_withinCapacity userId now s' k d c Hk Hc) as (Hle & _ & _).
  specialize (Hle Hk7).
  assert (Hcap : c = Math_round (h * 60)%Q).
  { rewrite (capacity_of_day userId now s' k d c Hk Hc). unfold s'.
    pose proof (saved_hours_entry userId hours s (Z.to_nat (weekdayOf d)) h Hh)
      as E.
    rewrite Z2Nat.id in E by lia. rewrite E. reflexivity. }
  assert (0 <= c).
  { rewrite Hcap. apply Math_round_nonneg.
    apply Qmult_le_0_compat; [|discriminate].
    rewrite Forall_forall in Hnn. apply Hnn.
    eapply list_elem_of_lookup_2. exact Hh. }
  lia.
Qed.

Lemma plan_after_save_witness :
  exists h,
    [1; 1; 1; 1; 1 # 2; 1; 1]%Q !! Z.to_nat (weekdayOf 0) = Some h
    /\ minutesOn 0
         (planRows (planOf "u" 0
            (AvailabilityPage.saveAvailability "u" [1; 1; 1; 1; 1 # 2; 1; 1]%Q
               (Scenario.store (Scenario.everyDay 9) [Scenario.essay 6 6] []))))
       <= Math_round (h * 60)%Q.
Proof.
  apply (plan_after_save "u" 0 [1; 1; 1; 1; 1 # 2; 1; 1]%Q
           (Scenario.store (Scenario.everyDay 9) [Scenario.essay 6 6] []) 0).
  - reflexivity.
  - repeat constructor; discriminate.
  - apply (list_elem_of_lookup_2 _ 0%nat). reflexivity.
Defined.

Lemma loadAvailability_length (data : list AvailabilityRow) :
  length (AvailabilityPage.loadAvailability data) = 7%nat.
Proof.
  unfold AvailabilityPage.loadAvailability.
  induction data as [|r data IH] using rev_ind; [reflexivity|].
  rewrite foldl_app. simpl.
  destruct ((0 <=? av_weekday r) && (av_weekday r <=? 6)); [|exact IH].
  rewrite length_insert. exact IH.
Qed.

Lemma loadAvailability_lookup (data : list AvailabilityRow) (wd : nat) :
  (wd < 7)%nat ->
  AvailabilityPage.loadAvailability data !! wd
  = hoursByWeekday data !! Z.of_nat wd.
Proof.
  intros Hwd.
  induction data as [|r data IH] using rev_ind.
  - unfold AvailabilityPage.loadAvailability, hoursByWeekday, weekdays.
    do 7 (destruct wd as [|wd];
          [simpl; repeat (rewrite lookup_insert; case_decide; [reflexivity|]);
           lia|]).
    lia.
  - pose proof (loadAvailability_length data) as Hlen.
    unfold AvailabilityPage.loadAvailability, hoursByWeekday in *.
    rewrite !foldl_app. simpl.
    destruct (decide (av_weekday r = Z.of_nat wd)) as [E|E].
    + rewrite E, lookup_insert_eq.
      replace ((0 <=? Z.of_nat wd) && (Z.of_nat wd <=? 6)) with true
        by (symmetry; apply andb_true_iff; split; apply Z.leb_le; lia).
      rewrite Nat2Z.id. apply list_lookup_insert_eq. lia.
    + rewrite lookup_insert_ne by exact E.
      destruct ((0 <=? av_weekday r) && (av_weekday r <=? 6)) eqn:R;
        [|exact IH].
      apply andb_true_iff in R. destruct R as [R1 R2].
      apply Z.leb_le in R1, R2.
      rewrite list_lookup_insert_ne by lia. exact IH.
Qed.

(** X22.  The availability page and the generator read a table the same
    way: the page always shows seven values, and the value it shows for a
    weekday is the one the generator's map holds for it, the 2 hours of the
    default or the latest row of that weekday; rows whose weekday is not
    0..6 change nothing on the page. *)
Theorem page_shows_generator_hours (data : list AvailabilityRow) (wd : nat) :
  (wd < 7)%nat ->
  length (AvailabilityPage.loadAvailability data) = 7%nat
  /\ AvailabilityPage.loadAvailability data !! wd
     = Some (hoursAvailable data (Z.of_nat wd))
  /\ capacityOf (hoursByWeekday data) (Z.of_nat wd * MS_PER_DAY)
     = Math_round
         (default 2%Q (AvailabilityPage.loadAvailability data
                         !! Z.to_nat (weekdayOf (Z.of_nat wd))) * 60)%Q.
Proof.
  intros Hwd. split; [apply loadAvailability_length|]. split.
  - rewrite <- hoursByWeekday_lookup.
    pose proof (loadAvailability_length data) as Hlen.
    destruct (lookup_lt_is_Some_2 (AvailabilityPage.loadAvailability data) wd)
      as [h Hh]; [lia|].
    rewrite Hh. rewrite loadAvailability_lookup in Hh by exact Hwd.
    rewrite Hh. reflexivity.
  - unfold capacityOf. cbv zeta.
    assert (Hg : getDay (Z.of_nat wd * MS_PER_DAY) = weekdayOf (Z.of_nat wd)).
    { unfold getDay, weekdayOf. rewrite Z.div_mul by (unfold MS_PER_DAY; lia).
      reflexivity. }
    rewrite Hg. pose proof (weekdayOf_range (Z.of_nat wd)) as Hr.
    rewrite loadAvailability_lookup by lia.
    rewrite Z2Nat.id by lia. reflexivity.
Qed.

Lemma page_shows_generator_hours_witness :
  AvailabilityPage.loadAvailability (Scenario.everyDay (3 # 4)) !! 3%nat
  = Some (hoursAvailable (Scenario.everyDay (3 # 4)) (Z.of_nat 3)).
Proof.
  apply (page_shows_generator_hours (Scenario.everyDay (3 # 4)) 3). lia.
Defined.

(** X23.  Round trip of the availability page: the rows Save builds from
    seven sliders, read back by the page, give the sliders' values. *)
Theorem save_then_load (userId : string) (hours : list Q) :
  length hours = 7%nat ->
  AvailabilityPage.loadAvailability (AvailabilityPage.saveRows userId hours)
  = hours.
Proof.
  intros Hlen.
  do 7 (destruct hours as [|? hours]; [discriminate|]).
  destruct hours; [|discriminate]. reflexivity.
Qed.

Lemma save_then_load_witness :
  AvailabilityPage.loadAvailability
    (AvailabilityPage.saveRows "u" [1; 2; 3; 4; 5; 6; 7]%Q)
  = [1; 2; 3; 4; 5; 6; 7]%Q.
Proof.
  apply (save_then_load "u" [1; 2; 3; 4; 5; 6; 7]%Q). reflexivity.
Defined.

(** ** The Pomodoro timer *)

Ltac timer_cases :=
  unfold Pomodoro.wellFormed, Pomodoro.focusSpent, Pomodoro.step,
    Pomodoro.phaseEffect, Pomodoro.tick, Pomodoro.toggleRun, Pomodoro.reset,
    Pomodoro.skip, Pomodoro.totalSecondsThisMode, Pomodoro.focusSeconds,
    Pomodoro.breakSeconds, Pomodoro.FOCUS_MIN, Pomodoro.BREAK_MIN,
    Pomodoro.isTick in *;
  simpl in *;
  repeat match goal with
         | |- context [?a <=? ?b] => destruct (Z.leb_spec a b)
         | |- context [?a <? ?b] => destruct (Z.ltb_spec a b)
         end;
  simpl in *; try lia.

Lemma step_wellFormed (st : Pomodoro.State) (e : Pomodoro.Event) :
  Pomodoro.wellFormed st -> Pomodoro.wellFormed (Pomodoro.step st e).
Proof.
  destruct st as [m sl r fs]. intros H. destruct e, m, r; timer_cases.
Qed.

Lemma run_wellFormed (es : list Pomodoro.Event) (st : Pomodoro.State) :
  Pomodoro.wellFormed st -> Pomodoro.wellFormed (Pomodoro.run st es).
Proof.
  revert st. induction es as [|e es IH]; intros st H; [exact H|].
  apply IH. apply step_wellFormed. exact H.
Qed.

Lemma initial_wellFormed : Pomodoro.wellFormed Pomodoro.initial.
Proof. unfold Pomodoro.wellFormed. simpl. timer_cases. Qed.



Lemma ticks_cons (e : Pomodoro.Event) (es : list Pomodoro.Event) :
  Pomodoro.ticks (e :: es)
  = (if Pomodoro.isTick e then 1 else 0) + Pomodoro.ticks es.
Proof.
  unfold Pomodoro.ticks. rewrite filter_cons.
  destruct e; simpl; try lia;
    (destruct (decide _) as [H|H]; [simpl; try discriminate; lia
                                   | try (exfalso; apply H; reflexivity); lia]).
Qed.

Lemma step_focusSpent (st : Pomodoro.State) (e : Pomodoro.Event) :
  Pomodoro.wellFormed st ->
  Pomodoro.focusSpent (Pomodoro.step st e)
  <= Pomodoro.focusSpent st + (if Pomodoro.isTick e then 1 else 0).
Proof.
  destruct st as [m sl r fs]. intros H. destruct e, m, r; timer_cases.
Qed.

Lemma run_focusSpent (es : list Pomodoro.Event) (st : Pomodoro.State) :
  Pomodoro.wellFormed st ->
  Pomodoro.focusSpent (Pomodoro.run st es)
  <= Pomodoro.focusSpent st + Pomodoro.ticks es.
Proof.
  revert st. induction es as [|e es IH]; intros st H.
  - unfold Pomodoro.ticks. simpl. lia.
  - rewrite ticks_cons. simpl.
    pose proof (step_focusSpent st e H) as H1.
    pose proof (IH _ (step_wellFormed st e H)) as H2.
    unfold Pomodoro.run in *. lia.
Qed.

(** X25.  A focus session is counted only for 1800 seconds the interval
    has ticked in focus: the sessions counted, times 1800, never exceed the
    ticks so far, so Skip and Reset add none. *)
Theorem sessions_are_earned (es : list Pomodoro.Event) :
  Pomodoro.focusSessions (Pomodoro.run Pomodoro.initial es)
  * Pomodoro.focusSeconds <= Pomodoro.ticks es.
Proof.
  pose proof (run_focusSpent es _ initial_wellFormed) as H.
  pose proof (run_wellFormed es _ initial_wellFormed) as [Hs _].
  unfold Pomodoro.focusSpent in H.
  change (Pomodoro.focusSessions Pomodoro.initial) with 0 in H.
  change (Pomodoro.mode Pomodoro.initial) with Pomodoro.focus in H.
  change (Pomodoro.secondsLeft Pomodoro.initial) with Pomodoro.focusSeconds in H.
  destruct (Pomodoro.mode (Pomodoro.run Pomodoro.initial es));
    unfold Pomodoro.totalSecondsThisMode in Hs; lia.
Qed.

Lemma phase_countdown (n : nat) (st : Pomodoro.State) :
  Pomodoro.running st = true ->
  Pomodoro.secondsLeft st = Z.of_nat (S n) ->
  Pomodoro.run st (replicate (S n) Pomodoro.Tick) = Pomodoro.nextPhase st.
Proof.
  revert st. induction n as [|n IH]; intros [m sl r fs] Hr Hs;
    simpl in Hr, Hs; subst r.
  - subst sl. destruct m; reflexivity.
  - change (replicate (S (S n)) Pomodoro.Tick)
      with (Pomodoro.Tick :: replicate (S n) Pomodoro.Tick).
    assert (E : Pomodoro.step
                  {| Pomodoro.mode := m; Pomodoro.secondsLeft := sl;
                     Pomodoro.running := true; Pomodoro.focusSessions := fs |}
                  Pomodoro.Tick
                = {| Pomodoro.mode := m; Pomodoro.secondsLeft := sl - 1;
                     Pomodoro.running := true; Pomodoro.focusSessions := fs |}).
    { unfold Pomodoro.step, Pomodoro.tick, Pomodoro.phaseEffect. simpl.
      destruct (Z.leb_spec sl 1); [lia|]. simpl.
      destruct (Z.ltb_spec 0 (sl - 1)); [reflexivity | lia]. }
    unfold Pomodoro.run in IH |- *. cbn [foldl]. rewrite E.
    rewrite IH; [reflexivity | reflexivity | simpl; lia].
Qed.

(** X26.  A running timer left alone for the seconds it shows moves to the
    next phase: from focus to a break of 600 seconds with one more session
    counted, from a break to a focus of 1800 seconds with the count as it
    was; it is still running. *)
Theorem phase_runs_out (st : Pomodoro.State) :
  Pomodoro.running st = true ->
  0 < Pomodoro.secondsLeft st ->
  Pomodoro.run st
    (replicate (Z.to_nat (Pomodoro.secondsLeft st)) Pomodoro.Tick)
  = Pomodoro.nextPhase st.
Proof.
  intros Hr Hs.
  destruct (Z.to_nat (Pomodoro.secondsLeft st)) as [|n] eqn:E; [lia|].
  apply phase_countdown; [exact Hr | lia].
Qed.

Lemma phase_runs_out_witness :
  Pomodoro.run (Pomodoro.toggleRun Pomodoro.initial)
    (replicate (Z.to_nat 1800) Pomodoro.Tick)
  = {| Pomodoro.mode := Pomodoro.break; Pomodoro.secondsLeft := 600;
       Pomodoro.running := true; Pomodoro.focusSessions := 1 |}.
Proof.
  apply (phase_runs_out (Pomodoro.toggleRun Pomodoro.initial)).
  - reflexivity.
  - reflexivity.
Defined.
